(** * The kfp-api operator: reconciliation core

    A shallow embedding of [charms/kfp-api/src/charm.py] (class
    [KfpApiOperator]) and the properties of its database resolution policy,
    relation data validator and status reconciliation engine.

    The charm is event driven: the framework delivers one trigger at a time
    and runs the handlers registered for it to completion.  A handler reads
    the model (leadership, relations, relation data, the workload container),
    writes the unit status and the log, and stops either by returning or by
    raising a Python exception.  We model this with a state-and-exception
    monad over a [World] (what a handler writes) and an [Env] (what it reads,
    fixed for the duration of one trigger). *)

From Stdlib Require Import ZArith Ascii String List Bool Lia.
From stdpp Require Import base option list gmap strings pretty.

Set Warnings "-register-all".

Local Open Scope string_scope.
Local Open Scope Z_scope.

(** ** Statuses and exceptions *)

(** The status classes of [ops.model] used by the charm. *)
Inductive StatusType :=
| ActiveStatus
| BlockedStatus
| MaintenanceStatus
| WaitingStatus.

(** A status object: [status_type(message)]. *)
Record Status := mkStatus { status_type : StatusType; message : string }.

#[global] Instance StatusType_eq_dec : EqDecision StatusType.
Proof. solve_decision. Defined.

#[global] Instance Status_eq_dec : EqDecision Status.
Proof. solve_decision. Defined.

Definition is_waiting (s : Status) : bool :=
  match status_type s with WaitingStatus => true | _ => false end.

Definition is_blocked (s : Status) : bool :=
  match status_type s with BlockedStatus => true | _ => false end.

(** The Python exceptions that the charm raises, catches or lets through.
    [ErrorWithStatus msg t] is the status-carrying error of
    [charmed_kubeflow_chisme]; its [status] property is [t(msg)].
    [GenericCharmRuntimeError] carries no status, and it is not a subclass of
    [ErrorWithStatus]: [_get_db_data] tells the two apart with separate
    [except] clauses. *)
Inductive exn :=
| ErrorWithStatus (msg : string) (t : StatusType)
| GenericCharmRuntimeError (msg : string)
| KeyError (key : string)
| StopIteration
| ValueError (msg : string)
| AttributeError (msg : string)
| TooManyRelatedAppsError (relation_name : string)
| ApiError (code : Z) (text : string)
| ModelError (msg : string)
| FileNotFoundError (path : string)
| PebbleError (msg : string)
| ValidationError (msg : string)
| NoVersionsListed (msg : string)
| NoCompatibleVersions (msg : string)
| RelationDataError (msg : string).

(** [error.status] *)
Definition exn_status (msg : string) (t : StatusType) : Status := mkStatus t msg.

Definition is_ErrorWithStatus (e : exn) : bool :=
  match e with ErrorWithStatus _ _ => true | _ => false end.

(** ** Values and dictionaries *)

(** Relation data bags and the database parameter record are Python dicts
    from strings to strings. *)
Abbreviation sdict := (gmap string string).

(** Values of the structured (YAML-decoded) relation data and of the model
    configuration. *)
Inductive pyval :=
| VStr (s : string)
| VInt (z : Z)
| VBool (b : bool).

Abbreviation vdict := (gmap string pyval).

(** [str(v)], also what an f-string prints for [v]. *)
Definition py_str (v : pyval) : string :=
  match v with
  | VStr s => s
  | VInt z => pretty z
  | VBool true => "True"
  | VBool false => "False"
  end.

Definition lower_ascii (c : ascii) : ascii :=
  let n := nat_of_ascii c in
  if ((65 <=? n) && (n <=? 90))%nat then ascii_of_nat (n + 32) else c.

(** [s.lower()], on the ASCII letters. *)
Fixpoint py_lower (s : string) : string :=
  match s with
  | EmptyString => EmptyString
  | String c r => String (lower_ascii c) (py_lower r)
  end.

(** [s.split(sep)] for a one-character separator: the pieces between the
    occurrences of [sep], one more than there are occurrences.  Strings are
    sequences of bytes here; a colon byte never occurs inside a multi-byte
    UTF-8 character, so splitting the bytes splits the text. *)
Fixpoint py_split (sep : ascii) (s : string) : list string :=
  match s with
  | EmptyString => [EmptyString]
  | String c r =>
      if Ascii.eqb c sep then EmptyString :: py_split sep r
      else match py_split sep r with
           | [] => [String c EmptyString]
           | p :: ps => String c p :: ps
           end
  end.

(** Number of occurrences of a character. *)
Fixpoint count_char (sep : ascii) (s : string) : nat :=
  match s with
  | EmptyString => 0%nat
  | String c r => ((if Ascii.eqb c sep then 1 else 0) + count_char sep r)%nat
  end.

(** ** The model the charm reads *)

(** An [ops.model.Relation]: its remote units in iteration order and the data
    bag of each. *)
Record Relation := mkRelation {
  rel_id : Z;
  units : list string;
  data : gmap string sdict
}.

(** What [SerializedDataInterface.get_data()] does: it raises a jsonschema
    [ValidationError] or returns the data keyed by (relation id, application),
    in the dict's order. *)
Inductive GetData :=
| GdValidationError (msg : string)
| GdData (d : list ((Z * string) * vdict)).

(** An entry of the mapping returned by [get_interfaces]. *)
Inductive Interface :=
| SerializedDataInterface (get_data : GetData)
| OtherObject.

Abbreviation Interfaces := (gmap string (option Interface)).

(** Outcome of [get_interfaces(self)]. *)
Inductive GetInterfaces :=
| GiOk (interfaces : Interfaces)
| GiNoVersionsListed (err : string)
| GiNoCompatibleVersions (err : string)
| GiRelationDataError (err : string).

Inductive CheckStatus := UP | DOWN.

(** Outcome of [container.get_check(name)]. *)
Inductive GetCheck :=
| GcCheck (status : CheckStatus)
| GcModelError (msg : string).

(** Outcome of a call that either succeeds or raises [ApiError]. *)
Inductive ApiResult :=
| ApiOk
| ApiFails (code : Z) (text : string).

(** Outcome of [update_layer], which raises a status-carrying error when the
    replan fails. *)
Inductive UpdateLayer :=
| UlOk
| UlErrorWithStatus (msg : string) (t : StatusType).

(** The triggers the charm observes ([KfpApiOperator.__init__]). *)
Inductive Event :=
| LeaderElected
| ConfigChanged
| PebbleReady
| Install
| UpgradeCharm
| Remove
| UpdateStatus
| RelationJoined (relation_name : string)
| RelationChanged (relation_name : string)
| RelationDeparted (relation_name : string)
| RelationBroken (relation_name : string)
| DatabaseCreated
| EndpointsChanged.

(** Everything a handler reads from the framework and the collaborating
    libraries during one trigger. *)
Record Env := mkEnv {
  model_name : string;
  app_name : string;
  config : vdict;
  is_leader : bool;
  (** [self.model.relations]: the relations established on each endpoint
      declared in the charm's metadata. *)
  relations : gmap string (list Relation);
  get_interfaces : GetInterfaces;
  (** [self.database.fetch_relation_data()], in the dict's order. *)
  fetch_relation_data : list (Z * sdict);
  can_connect : bool;
  (** content of [src/sample_config.json], if the file can be opened *)
  sample_config : option string;
  (** does [container.push(path, ...)] fail? *)
  push_fails : string -> bool;
  apply_result : ApiResult;
  apply_force_result : ApiResult;
  update_layer_result : UpdateLayer;
  delete_many_result : ApiResult;
  get_check : GetCheck;
  (** [str(event)] *)
  event_str : Event -> string
}.

(** ** What a handler writes *)

Inductive LogLevel := INFO | WARNING | ERROR.

(** A document pushed to the workload: the generated configuration is a
    nested mapping whose leaves are values. *)
Inductive json :=
| JVal (v : pyval)
| JObj (fields : list (string * json)).

Definition JS (s : string) : json := JVal (VStr s).

(** The Pebble layer handed to [update_layer]. *)
Record Layer := mkLayer {
  layer_command : string;
  layer_environment : list (string * string);
  layer_check_url : string
}.

Inductive FileContent :=
| FileText (content : string)
| FileJson (doc : json).

(** The calls a handler makes on the framework and on the collaborating
    libraries, in the order it makes them. *)
Inductive Call :=
| CIsLeader
| CRelations (relation_name : string)
| CGetRelation (relation_name : string)
| CGetInterfaces
| CGetData (relation_name : string)
| CFetchRelationData
| CCanConnect
| COpen (path : string)
| CPush (path : string) (content : FileContent)
| CApply (force : bool)
| CUpdateLayer (layer : Layer)
| CSendData (relation_name : string) (d : vdict)
| CRenderManifests
| CDeleteMany
| CGetCheck (name : string).

Record World := mkWorld {
  (** [self.model.unit.status] *)
  unit_status : Status;
  (** what [self.logger] has recorded, oldest first *)
  log : list (LogLevel * string);
  (** the calls made, oldest first *)
  calls : list Call
}.

(** ** The handler monad *)

Inductive Outcome (A : Type) :=
| Ret (a : A)
| Raise (e : exn).

Arguments Ret {A} a.
Arguments Raise {A} e.

Definition M (A : Type) : Type := World -> World * Outcome A.

Definition ret {A} (a : A) : M A := fun w => (w, Ret a).

Definition raise {A} (e : exn) : M A := fun w => (w, Raise e).

Definition bind {A B} (m : M A) (k : A -> M B) : M B :=
  fun w => match m w with
           | (w', Ret a) => k a w'
           | (w', Raise e) => (w', Raise e)
           end.

Declare Scope charm_scope.
Delimit Scope charm_scope with charm.

Notation "'let*' x ':=' m 'in' k" := (bind m (fun x => k))
  (at level 10, x name, m at level 100, k at level 200) : charm_scope.
Notation "m ';;' k" := (bind m (fun _ => k))
  (at level 100, k at level 200, right associativity) : charm_scope.

Local Open Scope charm_scope.

(** [try: m  except <clauses>]: [h e] is the body of the first clause that
    matches [e], or [None] when no clause matches and [e] propagates. *)
Definition try_except {A} (m : M A) (h : exn -> option (M A)) : M A :=
  fun w => match m w with
           | (w', Ret a) => (w', Ret a)
           | (w', Raise e) =>
               match h e with
               | Some k => k w'
               | None => (w', Raise e)
               end
           end.

(** The three ways a handler changes the world. *)
Definition with_status (s : Status) (w : World) : World :=
  mkWorld s (log w) (calls w).

Definition logged (l : LogLevel) (msg : string) (w : World) : World :=
  mkWorld (unit_status w) (log w ++ [(l, msg)]) (calls w).

Definition called (c : Call) (w : World) : World :=
  mkWorld (unit_status w) (log w) (calls w ++ [c]).

(** [self.model.unit.status = s] *)
Definition set_status (s : Status) : M unit := fun w => (with_status s w, Ret tt).

(** [self.model.unit.status] *)
Definition get_status : M Status := fun w => (w, Ret (unit_status w)).

(** [self.logger.<level>(msg)] *)
Definition logger (l : LogLevel) (msg : string) : M unit :=
  fun w => (logged l msg w, Ret tt).

(** Record a call on a collaborator. *)
Definition call (c : Call) : M unit := fun w => (called c w, Ret tt).

(** [d[k]] on a dict. *)
Definition getitem {V} (d : gmap string V) (k : string) : M V :=
  match d !! k with
  | Some v => ret v
  | None => raise (KeyError k)
  end.

(** [str(err)] for the exceptions the charm formats into messages; a
    [KeyError] prints the repr of its key. *)
Definition exn_str (e : exn) : string :=
  match e with
  | ErrorWithStatus msg _ => msg
  | GenericCharmRuntimeError msg => msg
  | KeyError k => "'" +:+ k +:+ "'"
  | StopIteration => ""
  | ValueError msg => msg
  | AttributeError msg => msg
  | TooManyRelatedAppsError _ => "Too many remote applications"
  | ApiError _ text => text
  | ModelError msg => msg
  | FileNotFoundError p => p
  | PebbleError msg => msg
  | ValidationError msg => msg
  | NoVersionsListed msg => msg
  | NoCompatibleVersions msg => msg
  | RelationDataError msg => msg
  end.

(** ** Module constants *)

Definition CONFIG_DIR := "/config".
Definition SAMPLE_CONFIG := "/config/sample_config.json".
Definition METRICS_PATH := "/metrics".
Definition PROBE_PATH := "/apis/v1beta1/healthz".
Definition MYSQL_WARNING := "Relation mysql is deprecated.".
Definition UNBLOCK_MESSAGE := "Remove deprecated mysql relation to unblock.".
Definition KFP_API_SERVICE_NAME := "apiserver".

(** Attributes set in [__init__]. *)
Definition _container_name := "ml-pipeline-api-server".
Definition _database_name := "mlpipeline".
Definition _exec_command :=
  "sleep 1.1 && /bin/apiserver --config=" +:+ CONFIG_DIR +:+
  " --sampleconfig=" +:+ SAMPLE_CONFIG +:+ " -logtostderr=true ".

(** ** Framework calls *)

(** [self.model.relations[name]]: the list of relations on an endpoint;
    [KeyError] for a name that the metadata does not declare. *)
Definition model_relations (env : Env) (name : string) : M (list Relation) :=
  call (CRelations name);;
  getitem (relations env) name.

(** [self.model.get_relation(name)]: the one relation on the endpoint, [None]
    when there is none, [TooManyRelatedAppsError] when there are several. *)
Definition model_get_relation (env : Env) (name : string) : M (option Relation) :=
  call (CGetRelation name);;
  let* rs := getitem (relations env) name in
  match rs with
  | [] => ret None
  | [r] => ret (Some r)
  | _ => raise (TooManyRelatedAppsError name)
  end.

(** [self.unit.is_leader()] *)
Definition unit_is_leader (env : Env) : M bool :=
  call CIsLeader;; ret (is_leader env).

(** [container.can_connect()] *)
Definition container_can_connect (env : Env) : M bool :=
  call CCanConnect;; ret (can_connect env).

(** [container.push(path, content, make_dirs=True)] *)
Definition container_push (env : Env) (path : string) (content : FileContent) : M unit :=
  call (CPush path content);;
  if push_fails env path then raise (PebbleError path) else ret tt.

(** ** Database resolution policy *)

(** [_get_db_relation]: the relation on the endpoint, if it is established;
    a [GenericCharmRuntimeError] otherwise. *)
Definition _get_db_relation (env : Env) (relation_name : string) : M Relation :=
  let* relation :=
    try_except (model_get_relation env relation_name)
      (fun e => match e with
                | KeyError _ => Some (ret None)
                | _ => None
                end) in
  match relation with
  | None =>
      raise (GenericCharmRuntimeError
               ("Database relation " +:+ relation_name +:+ " is not established or empty"))
  | Some r => ret r
  end.

(** The [try] block of [_get_mysql_data].  The [except] clause reads the
    local [relation_data], which the block assigns on its way, so the block
    returns it next to its outcome: [inr db_data] when it ran to its end,
    [inl err] when it raised. *)
Definition _get_mysql_data_try (relation : Relation) : sdict * (exn + sdict) :=
  match units relation with
  | [] => (∅, inl StopIteration)
  | unit :: _ =>
      match data relation !! unit with
      | None => (∅, inl (KeyError unit))
      | Some relation_data =>
          (relation_data,
           match relation_data !! "database" with
           | None => inl (KeyError "database")
           | Some database =>
           match relation_data !! "root_password" with
           | None => inl (KeyError "root_password")
           | Some root_password =>
           match relation_data !! "host" with
           | None => inl (KeyError "host")
           | Some host =>
           match relation_data !! "port" with
           | None => inl (KeyError "port")
           | Some port =>
               inr (<["db_port" := port]>
                    (<["db_host" := host]>
                     (<["db_username" := "root"]>
                      (<["db_password" := root_password]>
                       (<["db_name" := database]> (∅ : sdict))))))
           end end end end)
      end
  end.

(** [not d] for a dict. *)
Definition dict_is_empty {V} (d : gmap string V) : bool := bool_decide (d = ∅).

(** [_get_mysql_data]: check the mysql relation, retrieve and return its
    data.  The [except (IndexError, StopIteration, KeyError)] clause catches
    everything the block can raise. *)
Definition _get_mysql_data (env : Env) : M sdict :=
  let* relation := _get_db_relation env "mysql" in
  match _get_mysql_data_try relation with
  | (_, inr db_data) => ret db_data
  | (relation_data, inl err) =>
      if dict_is_empty relation_data then
        raise (GenericCharmRuntimeError "Database relation mysql is not established or empty")
      else
        logger ERROR ("Missing attribute " +:+ exn_str err +:+ " in mysql relation data");;
        raise (ErrorWithStatus "Incorrect/incomplete data found in relation mysql. See logs"
                 WaitingStatus)
  end.

(** [host, port = endpoints.split(":")]: the unpacking needs exactly two
    pieces and raises [ValueError] otherwise. *)
Definition unpack_host_port (endpoints : string) : M (string * string) :=
  match py_split ":" endpoints with
  | [host; port] => ret (host, port)
  | [] | [_] => raise (ValueError "not enough values to unpack (expected 2, got 1)")
  | _ => raise (ValueError "too many values to unpack (expected 2)")
  end.

(** One round of the loop of [_get_relational_db_data] over
    [relation_data.values()]; [db_data] is the dict filled so far.  The [try]
    block catches [KeyError] only. *)
Definition _get_relational_db_data_step (db_data : sdict) (val : sdict) : M sdict :=
  if dict_is_empty val then ret db_data
  else
    try_except
      (let db_data := <["db_name" := _database_name]> db_data in
       let* password := getitem val "password" in
       let db_data := <["db_password" := password]> db_data in
       let* username := getitem val "username" in
       let db_data := <["db_username" := username]> db_data in
       let* endpoints := getitem val "endpoints" in
       let* hp := unpack_host_port endpoints in
       let db_data := <["db_host" := fst hp]> db_data in
       let db_data := <["db_port" := snd hp]> db_data in
       ret db_data)
      (fun e => match e with
                | KeyError _ => Some (
                    logger ERROR ("Missing attribute " +:+ exn_str e +:+
                                  " in relational-db relation data");;
                    raise (ErrorWithStatus
                             "Incorrect/incomplete data found in relation relational-db. See logs"
                             WaitingStatus))
                | _ => None
                end).

Fixpoint _get_relational_db_data_loop (db_data : sdict) (vals : list sdict) : M sdict :=
  match vals with
  | [] => ret db_data
  | val :: rest =>
      let* db_data := _get_relational_db_data_step db_data val in
      _get_relational_db_data_loop db_data rest
  end.

(** [_get_relational_db_data]: check the relational-db relation, retrieve and
    return the data the database library fetched. *)
Definition _get_relational_db_data (env : Env) : M sdict :=
  _get_db_relation env "relational-db";;
  call CFetchRelationData;;
  let relation_data := fetch_relation_data env in
  let* db_data := _get_relational_db_data_loop ∅ (snd <$> relation_data) in
  if dict_is_empty db_data then
    logger INFO "Found empty relation data for relational-db relation.";;
    raise (ErrorWithStatus "Waiting for relational-db data" WaitingStatus)
  else ret db_data.

(** [_get_db_data]: mysql first; relational-db when mysql raised
    [GenericCharmRuntimeError]; a status-carrying error is raised again. *)
Definition _get_db_data (env : Env) : M sdict :=
  try_except (_get_mysql_data env)
    (fun e => match e with
              | ErrorWithStatus _ _ => Some (raise e)
              | GenericCharmRuntimeError _ => Some (
                  try_except (_get_relational_db_data env)
                    (fun e' => match e' with
                               | ErrorWithStatus _ _ => Some (raise e')
                               | GenericCharmRuntimeError _ => Some (
                                   raise (ErrorWithStatus
                                            "Please add required database relation: eg. relational-db"
                                            BlockedStatus))
                               | _ => None
                               end))
              | _ => None
              end).

(** ** Relation data validator *)

(** [get_interfaces(self)] of the serialized-data-interface library. *)
Definition sdi_get_interfaces (env : Env) : M Interfaces :=
  call CGetInterfaces;;
  match get_interfaces env with
  | GiOk interfaces => ret interfaces
  | GiNoVersionsListed err => raise (NoVersionsListed err)
  | GiNoCompatibleVersions err => raise (NoCompatibleVersions err)
  | GiRelationDataError err => raise (RelationDataError err)
  end.

(** [_get_interfaces]: the library's errors become status-carrying errors. *)
Definition _get_interfaces (env : Env) : M Interfaces :=
  try_except (sdi_get_interfaces env)
    (fun err => match err with
                | NoVersionsListed _ => Some (raise (ErrorWithStatus (exn_str err) WaitingStatus))
                | NoCompatibleVersions _ => Some (raise (ErrorWithStatus (exn_str err) BlockedStatus))
                | RelationDataError _ => Some (raise (ErrorWithStatus (exn_str err) BlockedStatus))
                | _ => None
                end).

(** [relations.get_data()] on a [SerializedDataInterface]. *)
Definition sdi_get_data (relation_name : string) (g : GetData)
  : M (list ((Z * string) * vdict)) :=
  call (CGetData relation_name);;
  match g with
  | GdValidationError msg => raise (ValidationError msg)
  | GdData d => ret d
  end.

(** [_validate_sdi_interface]: validate the data received over a structured
    interface and return the first record. *)
Definition _validate_sdi_interface (interfaces : Interfaces) (relation_name : string)
  (default_return : option vdict) : M vdict :=
  match interfaces !! relation_name with
  | None | Some None =>
      (* nothing is related to this relation *)
      match default_return with
      | Some d => ret d
      | None => raise (ErrorWithStatus ("Please add required relation " +:+ relation_name)
                         BlockedStatus)
      end
  | Some (Some OtherObject) =>
      raise (ErrorWithStatus
               ("Unexpected error with " +:+ relation_name +:+
                " relation data - data not as expected") BlockedStatus)
  | Some (Some (SerializedDataInterface g)) =>
      let* unpacked_relation_data :=
        try_except (sdi_get_data relation_name g)
          (fun val_error =>
             match val_error with
             | ValidationError _ => Some (
                 logger ERROR (exn_str val_error);;
                 raise (ErrorWithStatus
                          ("Found incomplete/incorrect relation data for " +:+
                           relation_name +:+ ". See logs") BlockedStatus))
             | _ => None
             end) in
      match unpacked_relation_data with
      | [] =>
          (* an established relation with no data exchanged *)
          raise (ErrorWithStatus ("Waiting for " +:+ relation_name +:+ " relation data")
                   WaitingStatus)
      | (_, data_dict) :: _ =>
          if bool_decide (size data_dict = 0%nat) then
            raise (ErrorWithStatus ("Found empty relation data for " +:+ relation_name)
                     BlockedStatus)
          else ret data_dict
      end
  end.

Definition _get_object_storage (interfaces : Interfaces) : M vdict :=
  _validate_sdi_interface interfaces "object-storage" None.

Definition _get_viz (interfaces : Interfaces) : M vdict :=
  _validate_sdi_interface interfaces "kfp-viz" None.

(** [_check_leader] *)
Definition _check_leader (env : Env) : M unit :=
  let* leader := unit_is_leader env in
  if negb leader then
    logger WARNING "Not a leader, skipping setup";;
    raise (ErrorWithStatus "Waiting for leadership" WaitingStatus)
  else ret tt.

(** ** Configuration generator *)

(** [_generate_config]: the configuration document from the database data, the
    object storage and visualisation records and the model configuration.
    The dict display is evaluated in source order, so the first missing key
    is the one whose [KeyError] is raised. *)
Definition _generate_config (env : Env) (interfaces : Interfaces) : M json :=
  let config := config env in
  let* inputs :=
    try_except
      (let* db_data := _get_db_data env in
       let* os := _get_object_storage interfaces in
       let* viz := _get_viz interfaces in
       ret (db_data, os, viz))
      (fun error => match error with
                    | ErrorWithStatus _ _ => Some (
                        logger ERROR "Failed to generate container configuration.";;
                        raise error)
                    | _ => None
                    end) in
  let '(db_data, os, viz) := inputs in
  let* db_name := getitem db_data "db_name" in
  let* db_host := getitem db_data "db_host" in
  let* db_password := getitem db_data "db_password" in
  let* db_port := getitem db_data "db_port" in
  let* db_username := getitem db_data "db_username" in
  let* access_key := getitem os "access-key" in
  let* bucket_name := getitem config "object-store-bucket-name" in
  let* os_service := getitem os "service" in
  let* os_namespace := getitem os "namespace" in
  let* os_port := getitem os "port" in
  let* secret_key := getitem os "secret-key" in
  let* os_secure := getitem os "secure" in
  let* log_archive_filename := getitem config "log-archive-filename" in
  let* log_archive_prefix := getitem config "log-archive-prefix" in
  let* auto_update := getitem config "auto-update-default-version" in
  let* cache_image := getitem config "cache-image" in
  let* cache_enabled := getitem config "cache-enabled" in
  let* runner_sa := getitem config "runner-sa" in
  let* init_connection_timeout := getitem config "init-connection-timeout" in
  let* viz_service_name := getitem viz "service-name" in
  let* viz_service_port := getitem viz "service-port" in
  ret (JObj [
    ("DBConfig", JObj [
       ("ConMaxLifeTime", JS "120s");
       ("DBName", JS db_name);
       ("DriverName", JS "mysql");
       ("GroupConcatMaxLen", JS "4194304");
       ("Host", JS db_host);
       ("Password", JS db_password);
       ("Port", JS db_port);
       ("User", JS db_username)]);
    ("ObjectStoreConfig", JObj [
       ("AccessKey", JVal access_key);
       ("BucketName", JVal bucket_name);
       ("Host", JS (py_str os_service +:+ "." +:+ py_str os_namespace));
       ("Multipart", JObj [("Disable", JS "true")]);
       ("PipelinePath", JS "pipelines");
       ("Port", JS (py_str os_port));
       ("Region", JS "");
       ("SecretAccessKey", JVal secret_key);
       ("Secure", JS (py_lower (py_str os_secure)))]);
    ("ARCHIVE_CONFIG_LOG_FILE_NAME", JVal log_archive_filename);
    ("ARCHIVE_CONFIG_LOG_PATH_PREFIX", JVal log_archive_prefix);
    ("AUTO_UPDATE_PIPELINE_DEFAULT_VERSION", JS (py_lower (py_str auto_update)));
    ("CACHE_IMAGE", JVal cache_image);
    ("CACHE_NODE_RESTRICTIONS", JS "false");
    ("CacheEnabled", JS (py_lower (py_str cache_enabled)));
    ("DefaultPipelineRunnerServiceAccount", JVal runner_sa);
    ("InitConnectionTimeout", JVal init_connection_timeout);
    ("KUBEFLOW_USERID_HEADER", JS "kubeflow-userid");
    ("KUBEFLOW_USERID_PREFIX", JS "");
    ("MULTIUSER", JS "true");
    ("ML_PIPELINE_VISUALIZATIONSERVER_SERVICE_HOST", JVal viz_service_name);
    ("ML_PIPELINE_VISUALIZATIONSERVER_SERVICE_PORT", JVal viz_service_port)]).

(** ** Workload and cluster resources *)

(** [_check_container_connection] *)
Definition _check_container_connection (env : Env) : M unit :=
  let* ok := container_can_connect env in
  if negb ok then raise (ErrorWithStatus "Pod startup is not complete" MaintenanceStatus)
  else ret tt.

(** Re-raise a status-carrying error after logging [msg]. *)
Definition log_and_reraise {A} (msg : string) (error : exn) : option (M A) :=
  match error with
  | ErrorWithStatus _ _ => Some (logger ERROR msg;; raise error)
  | _ => None
  end.

(** [_upload_files_to_container] *)
Definition _upload_files_to_container (env : Env) (config_json : json) : M unit :=
  try_except (_check_container_connection env)
    (fun error => match error with
                  | ErrorWithStatus msg t => Some (set_status (exn_status msg t);; raise error)
                  | _ => None
                  end);;
  try_except
    (call (COpen "src/sample_config.json");;
     match sample_config env with
     | None => raise (FileNotFoundError "src/sample_config.json")
     | Some file_content => container_push env SAMPLE_CONFIG (FileText file_content)
     end)
    (log_and_reraise "Failed to upload sample config to container.");;
  try_except
    (container_push env (CONFIG_DIR +:+ "/config.json") (FileJson config_json))
    (log_and_reraise "Failed to upload config to container.").

(** [self.k8s_resource_handler.apply(force=force)] *)
Definition k8s_apply (env : Env) (force : bool) : M unit :=
  call (CApply force);;
  match (if force then apply_force_result env else apply_result env) with
  | ApiOk => ret tt
  | ApiFails code text => raise (ApiError code text)
  end.

(** [_check_and_report_k8s_conflict error], for an [ApiError] with status
    code [code] that prints as [text]. *)
Definition _check_and_report_k8s_conflict (code : Z) (text : string) : M bool :=
  if code =? 409 then
    logger WARNING ("Encountered a conflict: " +:+ text);; ret true
  else ret false.

(** [_apply_k8s_resources] *)
Definition _apply_k8s_resources (env : Env) (force_conflicts : bool) : M unit :=
  set_status (mkStatus MaintenanceStatus "Creating K8S resources");;
  try_except (k8s_apply env false)
    (fun error =>
       match error with
       | ApiError code text => Some (
           let* conflict := _check_and_report_k8s_conflict code text in
           if conflict && force_conflicts then
             set_status (mkStatus MaintenanceStatus "Force applying K8S resources");;
             logger WARNING "Apply K8S resources with forced changes against conflicts";;
             k8s_apply env force_conflicts
           else raise (GenericCharmRuntimeError "K8S resources creation failed"))
       | _ => None
       end);;
  set_status (mkStatus MaintenanceStatus "K8S resources created").

(** The [_kfp_api_layer] property. *)
Definition _kfp_api_layer (env : Env) : M Layer :=
  let* http_port := getitem (config env) "http-port" in
  ret (mkLayer ("bash -c '" +:+ _exec_command +:+ "'")
         [("POD_NAMESPACE", model_name env)]
         ("http://localhost:" +:+ py_str http_port +:+ PROBE_PATH)).

(** [update_layer(container_name, container, layer, logger)] of the chisme
    library. *)
Definition update_layer (env : Env) (layer : Layer) : M unit :=
  call (CUpdateLayer layer);;
  match update_layer_result env with
  | UlOk => ret tt
  | UlErrorWithStatus msg t => raise (ErrorWithStatus msg t)
  end.

(** [_send_info] *)
Definition _send_info (env : Env) (interfaces : Interfaces) : M unit :=
  let* kfp_api := getitem interfaces "kfp-api" in
  match kfp_api with
  | None => ret tt
  | Some i =>
      let* http_port := getitem (config env) "http-port" in
      let d : vdict :=
        <["service-port" := http_port]>
        (<["service-name" := VStr (app_name env +:+ "." +:+ model_name env)]> ∅) in
      match i with
      | SerializedDataInterface _ => call (CSendData "kfp-api" d)
      | OtherObject => raise (AttributeError "send_data")
      end
  end.

(** ** Status reconciliation engine *)

(** The [try] block of [_on_event]: the pipeline. *)
Definition _on_event_pipeline (env : Env) (force_conflicts : bool) : M unit :=
  _check_leader env;;
  let* interfaces := _get_interfaces env in
  let* config_json := _generate_config env interfaces in
  _upload_files_to_container env config_json;;
  _apply_k8s_resources env force_conflicts;;
  let* layer := _kfp_api_layer env in
  update_layer env layer;;
  _send_info env interfaces.

(** [_on_event]: run the pipeline; a status-carrying error becomes the unit
    status and ends the pass, full success sets Active. *)
Definition _on_event (env : Env) (event : Event) (force_conflicts : bool) : M unit :=
  let* continue :=
    try_except (_on_event_pipeline env force_conflicts;; ret true)
      (fun err => match err with
                  | ErrorWithStatus msg t => Some (
                      set_status (exn_status msg t);;
                      logger ERROR ("Failed to handle " +:+ event_str env event +:+
                                    " with error: " +:+ exn_str err);;
                      ret false)
                  | _ => None
                  end) in
  if continue : bool then set_status (mkStatus ActiveStatus "") else ret tt.

(** [_check_status]: check the workload's health check and set the status.
    [self.unit.get_container] returns the container object, which is always
    true in a condition, so the body of [if container:] always runs. *)
Definition _check_status (env : Env) : M unit :=
  _check_leader env;;
  let* check :=
    try_except
      (call (CGetCheck "kfp-api-up");;
       match get_check env with
       | GcCheck status => ret status
       | GcModelError msg => raise (ModelError msg)
       end)
      (fun error => match error with
                    | ModelError _ => Some (
                        raise (GenericCharmRuntimeError
                                 "Failed to run health check on workload container"))
                    | _ => None
                    end) in
  match check with
  | DOWN =>
      logger ERROR ("Container " +:+ _container_name +:+
                    " failed health check. It will be restarted.");;
      raise (ErrorWithStatus "Workload failed health check" MaintenanceStatus)
  | UP => set_status (mkStatus ActiveStatus "")
  end.

(** [_on_install] *)
Definition _on_install (env : Env) : M unit :=
  _apply_k8s_resources env false.

(** [_on_upgrade] *)
Definition _on_upgrade (env : Env) (event : Event) : M unit :=
  _on_event env event true.

(** [_on_remove] *)
Definition _on_remove (env : Env) : M unit :=
  set_status (mkStatus MaintenanceStatus "Removing K8S resources");;
  call CRenderManifests;;
  try_except
    (call CDeleteMany;;
     match delete_many_result env with
     | ApiOk => ret tt
     | ApiFails code text => raise (ApiError code text)
     end)
    (fun error => match error with
                  | ApiError code text =>
                      if code =? 404 then Some (ret tt)
                      else Some (
                        logger ERROR ("Failed to delete K8S resources, with error: " +:+ text);;
                        raise error)
                  | _ => None
                  end);;
  set_status (mkStatus MaintenanceStatus "K8S resources removed").

(** [_on_update_status] *)
Definition _on_update_status (env : Env) (event : Event) : M unit :=
  let* continue :=
    try_except (_on_event env event false;; ret true)
      (fun e => match e with
                | ErrorWithStatus _ _ => Some (ret false)
                | _ => None
                end) in
  if negb continue then ret tt
  else
    let* status := get_status in
    if is_waiting status || is_blocked status then
      (* do not check status in case of Waiting and Blocked states *)
      ret tt
    else
      let* continue :=
        try_except (_check_status env;; ret true)
          (fun err => match err with
                      | ErrorWithStatus msg t => Some (
                          set_status (exn_status msg t);;
                          logger ERROR ("Failed update status with error: " +:+ exn_str err);;
                          ret false)
                      | _ => None
                      end) in
      if continue : bool then set_status (mkStatus ActiveStatus "") else ret tt.

(** ** Handlers of the two database relations *)

(** [_on_mysql_relation]: check for existing database relations and process
    the mysql relation if needed.  The [try] block returns from the handler
    when the relational-db relation is established; a [KeyError] of the
    lookup counts as "not present". *)
Definition _on_mysql_relation (env : Env) (event : Event) : M unit :=
  (* check for too many mysql relations *)
  let* mysql := model_relations env "mysql" in
  if (1 <? length mysql)%nat then
    raise (ErrorWithStatus ("Too many mysql relations. " +:+ MYSQL_WARNING) BlockedStatus)
  else
    (* check for relational-db relation *)
    let* returned :=
      try_except
        (let* relation := model_get_relation env "relational-db" in
         match relation with
         | Some _ =>
             logger WARNING "Up-to-date database relation relational-db is already established.";;
             logger ERROR (MYSQL_WARNING +:+ " " +:+ UNBLOCK_MESSAGE);;
             set_status (mkStatus BlockedStatus (UNBLOCK_MESSAGE +:+ " See logs"));;
             ret true
         | None => ret false
         end)
        (fun e => match e with
                  | KeyError _ => Some (ret false)
                  | _ => None
                  end) in
    if returned : bool then ret tt
    else
      (* relational-db relation was not found, proceed with warnings *)
      logger WARNING MYSQL_WARNING;;
      set_status (mkStatus MaintenanceStatus ("Adding mysql relation. " +:+ MYSQL_WARNING));;
      _on_event env event false.

(** [_on_mysql_relation_remove] *)
Definition _on_mysql_relation_remove (env : Env) (event : Event) : M unit :=
  set_status (mkStatus MaintenanceStatus ("Removing mysql relation. " +:+ MYSQL_WARNING));;
  _on_event env event false.

(** [_on_relational_db_relation]: check for existing database relations and
    process the relational-db relation if needed. *)
Definition _on_relational_db_relation (env : Env) (event : Event) : M unit :=
  let* returned :=
    try_except
      (let* relation := model_get_relation env "mysql" in
       match relation with
       | Some _ =>
           logger WARNING
             "Failed to create relational-db relation due to existing mysql relation.";;
           logger ERROR (MYSQL_WARNING +:+ " " +:+ UNBLOCK_MESSAGE);;
           set_status (mkStatus BlockedStatus (UNBLOCK_MESSAGE +:+ " See logs"));;
           ret true
       | None => ret false
       end)
      (fun e => match e with
                | KeyError _ => Some (ret false)
                | _ => None
                end) in
  if returned : bool then ret tt
  else
    (* mysql relation was not found, proceed *)
    set_status (mkStatus MaintenanceStatus "Adding relational-db relation");;
    _on_event env event false.

(** [_on_relational_db_relation_remove] *)
Definition _on_relational_db_relation_remove (env : Env) (event : Event) : M unit :=
  set_status (mkStatus MaintenanceStatus "Removing relational-db relation");;
  _on_event env event false.

(** ** Dispatch *)

(** The observers registered in [__init__]: the handler the framework runs
    for a trigger.  A trigger nobody observes does nothing. *)
Definition dispatch (env : Env) (event : Event) : M unit :=
  match event with
  | LeaderElected | ConfigChanged | PebbleReady => _on_event env event false
  | Install => _on_install env
  | UpgradeCharm => _on_upgrade env event
  | Remove => _on_remove env
  | UpdateStatus => _on_update_status env event
  | RelationChanged name =>
      if bool_decide (name = "mysql") then _on_mysql_relation env event
      else if bool_decide (name = "relational-db") then _on_relational_db_relation env event
      else if bool_decide (name ∈ ["object-storage"; "kfp-viz"; "kfp-api"])
           then _on_event env event false
      else ret tt
  | RelationJoined name =>
      if bool_decide (name = "mysql") then _on_mysql_relation env event
      else if bool_decide (name = "relational-db") then _on_relational_db_relation env event
      else ret tt
  | RelationDeparted name | RelationBroken name =>
      if bool_decide (name = "mysql") then _on_mysql_relation_remove env event
      else if bool_decide (name = "relational-db")
           then _on_relational_db_relation_remove env event
      else ret tt
  | DatabaseCreated | EndpointsChanged => _on_relational_db_relation env event
  end.

(** ** The resource handler property *)

Module ResourceHandler.

(** A [KubernetesResourceHandler], by the arguments it is built from. *)
Record KubernetesResourceHandler := mkHandler {
  field_manager : string;
  template_files : list string;
  context : vdict
}.

(** What an access to the property does outside the charm: it builds a
    handler, and it loads the generic resources of the cluster. *)
Inductive Access :=
| Construct (handler : KubernetesResourceHandler)
| LoadGenericResources (handler : KubernetesResourceHandler).

(** The attribute behind the property, with the record of what the accesses
    did. *)
Record Charm := mkCharm {
  _k8s_resource_handler : option KubernetesResourceHandler;
  accesses : list Access
}.

Definition K8S_RESOURCE_FILES : list string :=
  ["src/templates/auth_manifests.yaml.j2"; "src/templates/ml-pipeline-service.yaml.j2"].

Definition _lightkube_field_manager : string := "lightkube".

(** The getter of [k8s_resource_handler]; [_context] is [self._context]. *)
Definition k8s_resource_handler (_context : vdict) (self : Charm)
  : Charm * KubernetesResourceHandler :=
  let '(self, handler) :=
    match _k8s_resource_handler self with
    | Some handler => (self, handler)
    | None =>
        let handler := mkHandler _lightkube_field_manager K8S_RESOURCE_FILES _context in
        (mkCharm (Some handler) (accesses self ++ [Construct handler]), handler)
    end in
  (mkCharm (_k8s_resource_handler self) (accesses self ++ [LoadGenericResources handler]),
   handler).

(** The setter of [k8s_resource_handler]. *)
Definition set_k8s_resource_handler (handler : KubernetesResourceHandler) (self : Charm)
  : Charm :=
  mkCharm (Some handler) (accesses self).

(** [n] accesses in a row, with the handlers they return. *)
Fixpoint access (_context : vdict) (n : nat) (self : Charm)
  : Charm * list KubernetesResourceHandler :=
  match n with
  | O => (self, [])
  | S n =>
      let '(self, handler) := k8s_resource_handler _context self in
      let '(self, handlers) := access _context n self in
      (self, handler :: handlers)
  end.

End ResourceHandler.

(** ** Vocabulary of the properties *)

(** The endpoint has exactly one relation, [r]. *)
Definition relation_present (env : Env) (name : string) (r : Relation) : Prop :=
  relations env !! name = Some [r].

(** The endpoint has no relation (or is not declared at all). *)
Definition relation_absent (env : Env) (name : string) : Prop :=
  relations env !! name = None ∨ relations env !! name = Some [].

(** The data bag of the first remote unit of a relation, if there is one. *)
Definition first_unit_data (r : Relation) : option sdict :=
  match units r with
  | [] => None
  | unit :: _ => data r !! unit
  end.

(** The relation has no remote unit yet, or its first unit has an empty (or
    no) data bag. *)
Definition relation_without_data (r : Relation) : Prop :=
  first_unit_data r = None ∨ first_unit_data r = Some ∅.

(** The keys [_get_mysql_data] reads from the mysql relation data. *)
Definition mysql_required_keys : list string :=
  ["database"; "root_password"; "host"; "port"].

(** The database parameter record built from complete mysql relation data. *)
Definition mysql_record (database root_password host port : string) : sdict :=
  <["db_port" := port]>
  (<["db_host" := host]>
   (<["db_username" := "root"]>
    (<["db_password" := root_password]>
     (<["db_name" := database]> ∅)))).

(** The conflict message of the mutual-exclusion check. *)
Definition conflict_status : Status :=
  mkStatus BlockedStatus "Remove deprecated mysql relation to unblock. See logs".

#[global] Instance Event_eq_dec : EqDecision Event.
Proof. solve_decision. Defined.

(** Relation-joined and relation-changed triggers of the two database
    relations, with the two events of the database library that share the
    handler of relational-db. *)
Definition database_joined_or_changed (event : Event) : bool :=
  bool_decide (event ∈ [RelationJoined "mysql"; RelationChanged "mysql";
                        RelationJoined "relational-db"; RelationChanged "relational-db";
                        DatabaseCreated; EndpointsChanged]).

(** The calls of the mutual-exclusion check of a database trigger. *)
Definition precheck_calls (event : Event) : list Call :=
  match event with
  | RelationJoined "mysql" | RelationChanged "mysql" =>
      [CRelations "mysql"; CGetRelation "relational-db"]
  | _ => [CGetRelation "mysql"]
  end.

(** The database relation that a database trigger checks for: the one the
    trigger is not about. *)
Definition other_database_relation (event : Event) : string :=
  match event with
  | RelationJoined "mysql" | RelationChanged "mysql" => "relational-db"
  | _ => "mysql"
  end.

(** A computation only adds to the record of calls. *)
Definition appends {A} (m : M A) : Prop :=
  ∀ w w' o, m w = (w', o) → ∃ trace, calls w' = (calls w ++ trace)%list.

(** The first thing a computation does is the call [c]. *)
Definition first_call {A} (c : Call) (m : M A) : Prop :=
  ∀ w, ∃ trace, calls (fst (m w)) = (calls w ++ c :: trace)%list.

(** The mysql endpoint is declared and has at most one relation. *)
Definition at_most_one_mysql (env : Env) : Prop :=
  ∃ rs, relations env !! "mysql" = Some rs ∧ (length rs ≤ 1)%nat.

(** A computation that lets no status-carrying error escape. *)
Definition catches_status_errors {A} (m : M A) : Prop :=
  ∀ w w' msg t, m w ≠ (w', Raise (ErrorWithStatus msg t)).

(** What [_get_db_data] does once the legacy path has raised
    [GenericCharmRuntimeError]. *)
Definition resolve_modern (env : Env) : M sdict :=
  try_except (_get_relational_db_data env)
    (fun e' => match e' with
               | ErrorWithStatus _ _ => Some (raise e')
               | GenericCharmRuntimeError _ => Some (
                   raise (ErrorWithStatus
                            "Please add required database relation: eg. relational-db"
                            BlockedStatus))
               | _ => None
               end).

(** ** Vocabulary of the further properties *)

(** Calls that read the leadership and the relations of the model. *)
Definition is_lookup (c : Call) : bool :=
  match c with
  | CIsLeader | CRelations _ | CGetRelation _ => true
  | _ => false
  end.

(** Calls that read relation data. *)
Definition is_data_read (c : Call) : bool :=
  match c with
  | CGetRelation _ | CFetchRelationData | CGetData _ => true
  | _ => false
  end.

(** Every call but the forced apply. *)
Definition is_not_forced_apply (c : Call) : bool :=
  match c with
  | CApply true => false
  | _ => true
  end.

(** A computation adds only calls that satisfy [P] to the record of calls. *)
Definition only_calls {A} (P : Call -> bool) (m : M A) : Prop :=
  ∀ w w' o, m w = (w', o) →
    ∃ trace, calls w' = (calls w ++ trace)%list ∧ forallb P trace = true.

(** A computation leaves the unit status as it was. *)
Definition keeps_status {A} (m : M A) : Prop :=
  ∀ w w' o, m w = (w', o) → unit_status w' = unit_status w.

(** What a computation adds to a world: the status it leaves, if it sets
    one, and its log lines and calls. *)
Record Effect := mkEffect {
  new_status : option Status;
  new_log : list (LogLevel * string);
  new_calls : list Call
}.

Definition apply_effect (e : Effect) (w : World) : World :=
  mkWorld (default (unit_status w) (new_status e))
    (log w ++ new_log e) (calls w ++ new_calls e).

Definition then_effect (e1 e2 : Effect) : Effect :=
  mkEffect (match new_status e2 with Some s => Some s | None => new_status e1 end)
    (new_log e1 ++ new_log e2) (new_calls e1 ++ new_calls e2).

(** A computation whose effect and outcome are the same from every world. *)
Definition uniform {A} (m : M A) : Prop :=
  ∃ e o, ∀ w, m w = (apply_effect e w, o).

(** The keys of a database parameter record. *)
Definition db_record_keys : gset string :=
  {["db_name"; "db_password"; "db_username"; "db_host"; "db_port"]}.

(** The record one fetched value of the modern path stands for, when it has
    the three keys and a well-formed endpoints value. *)
Definition modern_record (val : sdict) : option sdict :=
  match val !! "password", val !! "username", val !! "endpoints" with
  | Some password, Some username, Some endpoints =>
      match py_split ":" endpoints with
      | [host; port] =>
          Some (<["db_port" := port]>
                (<["db_host" := host]>
                 (<["db_username" := username]>
                  (<["db_password" := password]>
                   (<["db_name" := "mlpipeline"]> ∅)))))
      | _ => None
      end
  | _, _, _ => None
  end.

(** The keys [_get_relational_db_data] reads from a fetched value. *)
Definition modern_required_keys : list string := ["password"; "username"; "endpoints"].

(** [sep.join(pieces)] *)
Fixpoint py_join (sep : ascii) (pieces : list string) : string :=
  match pieces with
  | [] => EmptyString
  | [p] => p
  | p :: rest => p +:+ String sep (py_join sep rest)
  end.

(** The value under [key] in a list of fields. *)
Fixpoint json_field (key : string) (fields : list (string * json)) : option json :=
  match fields with
  | [] => None
  | (k, v) :: rest => if String.eqb key k then Some v else json_field key rest
  end.

(** The value at a path of keys in a document. *)
Fixpoint json_get (path : list string) (doc : json) : option json :=
  match path with
  | [] => Some doc
  | key :: rest =>
      match doc with
      | JObj fields =>
          match json_field key fields with
          | Some v => json_get rest v
          | None => None
          end
      | JVal _ => None
      end
  end.

(** The conditions under which [_apply_k8s_resources] goes on to a forced
    apply: the plain apply failed with a conflict and the caller asked for
    forcing. *)
Definition apply_conflict (env : Env) : bool :=
  match apply_result env with
  | ApiFails code _ => code =? 409
  | ApiOk => false
  end.

(** ** Scenarios *)

Module Scenario.

Definition mysql_complete : sdict :=
  <["database" := "mlpipeline"]>
  (<["root_password" := "secret"]>
   (<["host" := "mysql.kubeflow"]>
    (<["port" := "3306"]> ∅))).

(** host is present, the other three keys are not *)
Definition mysql_partial : sdict := <["host" := "mysql.kubeflow"]> ∅.

Definition legacy (d : sdict) : Relation :=
  mkRelation 1 ["mysql/0"] (<["mysql/0" := d]> ∅).

Definition modern : Relation :=
  mkRelation 2 ["mysql-k8s/0"] (<["mysql-k8s/0" := ∅]> ∅).

Definition modern_data (endpoints : string) : sdict :=
  <["password" := "secret"]>
  (<["username" := "kfp"]>
   (<["endpoints" := endpoints]> ∅)).

Definition object_storage : vdict :=
  <["access-key" := VStr "minio"]>
  (<["namespace" := VStr "kubeflow"]>
   (<["port" := VInt 9000]>
    (<["secret-key" := VStr "minio-secret"]>
     (<["secure" := VBool false]>
      (<["service" := VStr "minio"]> ∅))))).

Definition kfp_viz : vdict :=
  <["service-name" := VStr "kfp-viz"]> (<["service-port" := VStr "8888"]> ∅).

Definition interfaces : Interfaces :=
  <["object-storage" := Some (SerializedDataInterface (GdData [((3, "minio"), object_storage)]))]>
  (<["kfp-viz" := Some (SerializedDataInterface (GdData [((4, "kfp-viz"), kfp_viz)]))]>
   (<["kfp-api" := None]> ∅)).

Definition model_config : vdict :=
  <["grpc-port" := VStr "8887"]>
  (<["http-port" := VStr "8888"]>
   (<["object-store-bucket-name" := VStr "mlpipeline"]>
    (<["log-archive-filename" := VStr "main.log"]>
     (<["log-archive-prefix" := VStr "/artifacts"]>
      (<["auto-update-default-version" := VBool true]>
       (<["cache-image" := VStr "gcr.io/google-containers/busybox"]>
        (<["cache-enabled" := VBool true]>
         (<["runner-sa" := VStr "default-editor"]>
          (<["init-connection-timeout" := VStr "6m"]> ∅))))))))).

(** A leader unit with valid object-storage and kfp-viz relations and a
    healthy cluster; the database relations, the fetched data, the
    reachability of the container and its health check vary. *)
Definition env (mysql relational_db : list Relation) (fetched : list (Z * sdict))
  (reachable : bool) (check : GetCheck) : Env :=
  {| model_name := "kubeflow";
     app_name := "kfp-api";
     config := model_config;
     is_leader := true;
     relations := <["mysql" := mysql]> (<["relational-db" := relational_db]> ∅);
     get_interfaces := GiOk interfaces;
     fetch_relation_data := fetched;
     can_connect := reachable;
     sample_config := Some "{}";
     push_fails := fun _ => false;
     apply_result := ApiOk;
     apply_force_result := ApiOk;
     update_layer_result := UlOk;
     delete_many_result := ApiOk;
     get_check := check;
     event_str := fun _ => "<event>" |}.

(** The world before a trigger. *)
Definition start : World :=
  {| unit_status := mkStatus MaintenanceStatus ""; log := []; calls := [] |}.

(** Both database relations established, the legacy one with complete data. *)
Definition both_present : Env :=
  env [legacy mysql_complete] [modern] [(2, modern_data "mysql-k8s:3306")] true (GcCheck UP).

(** Legacy relation established with an empty data bag, modern relation with
    data. *)
Definition legacy_empty_modern_ready : Env :=
  env [legacy ∅] [modern] [(2, modern_data "mysql-k8s:3306")] true (GcCheck UP).

(** Legacy relation established with an empty data bag, no modern relation. *)
Definition legacy_empty_only : Env :=
  env [legacy ∅] [] [] true (GcCheck UP).

(** Legacy relation established with incomplete data, no modern relation. *)
Definition legacy_partial_only : Env :=
  env [legacy mysql_partial] [] [] true (GcCheck UP).

(** Legacy relation only, complete data. *)
Definition legacy_only : Env :=
  env [legacy mysql_complete] [] [] true (GcCheck UP).

(** As [legacy_only], container not reachable. *)
Definition legacy_only_unreachable : Env :=
  env [legacy mysql_complete] [] [] false (GcCheck UP).

(** As [legacy_only], health check failing. *)
Definition legacy_only_unhealthy : Env :=
  env [legacy mysql_complete] [] [] true (GcCheck DOWN).

(** Modern relation only, whose endpoints value has no colon. *)
Definition modern_malformed : Env :=
  env [] [modern] [(2, modern_data "mysql-k8s")] true (GcCheck UP).

(** Two mysql relations. *)
Definition two_mysql : Env :=
  env [legacy mysql_complete; legacy mysql_complete] [] [] true (GcCheck UP).

(** No database relation at all. *)
Definition no_database : Env :=
  env [] [] [] true (GcCheck UP).

(** The worlds of a pass on [legacy_only_unreachable] after each of its
    first three steps, and the configuration document it generates. *)
Definition after_leader : World :=
  fst (_check_leader legacy_only_unreachable start).

Definition after_interfaces : World :=
  fst (_get_interfaces legacy_only_unreachable after_leader).

Definition after_config : World :=
  fst (_generate_config legacy_only_unreachable interfaces after_interfaces).

Definition generated_config : json :=
  match snd (_generate_config legacy_only_unreachable interfaces after_interfaces) with
  | Ret config_json => config_json
  | Raise _ => JObj []
  end.

End Scenario.

(** ** Further scenarios *)

Module Cases.

(** [base] with another state of the cluster: the outcomes of the plain and
    the forced apply and of the deletion. *)
Definition cluster (base : Env) (plain forced deleted : ApiResult) : Env :=
  {| model_name := model_name base;
     app_name := app_name base;
     config := config base;
     is_leader := is_leader base;
     relations := relations base;
     get_interfaces := get_interfaces base;
     fetch_relation_data := fetch_relation_data base;
     can_connect := can_connect base;
     sample_config := sample_config base;
     push_fails := push_fails base;
     apply_result := plain;
     apply_force_result := forced;
     update_layer_result := update_layer_result base;
     delete_many_result := deleted;
     get_check := get_check base;
     event_str := event_str base |}.

(** [base] on a unit that is not the leader. *)
Definition follower (base : Env) : Env :=
  {| model_name := model_name base;
     app_name := app_name base;
     config := config base;
     is_leader := false;
     relations := relations base;
     get_interfaces := get_interfaces base;
     fetch_relation_data := fetch_relation_data base;
     can_connect := can_connect base;
     sample_config := sample_config base;
     push_fails := push_fails base;
     apply_result := apply_result base;
     apply_force_result := apply_force_result base;
     update_layer_result := update_layer_result base;
     delete_many_result := delete_many_result base;
     get_check := get_check base;
     event_str := event_str base |}.

(** [base] when the peers list no versions of their interfaces. *)
Definition no_versions (base : Env) : Env :=
  {| model_name := model_name base;
     app_name := app_name base;
     config := config base;
     is_leader := is_leader base;
     relations := relations base;
     get_interfaces := GiNoVersionsListed "List of versions not found for apps: minio";
     fetch_relation_data := fetch_relation_data base;
     can_connect := can_connect base;
     sample_config := sample_config base;
     push_fails := push_fails base;
     apply_result := apply_result base;
     apply_force_result := apply_force_result base;
     update_layer_result := update_layer_result base;
     delete_many_result := delete_many_result base;
     get_check := get_check base;
     event_str := event_str base |}.

(** The plain apply hits a conflict, the forced one goes through. *)
Definition conflict : Env :=
  cluster Scenario.legacy_only (ApiFails 409 "conflict") ApiOk ApiOk.


(** The resources to delete are gone already. *)
Definition already_removed : Env :=
  cluster Scenario.legacy_only ApiOk ApiOk (ApiFails 404 "not found").

(** The modern relation only, with one fetched record. *)
Definition modern_only (val : sdict) : Env :=
  Scenario.env [] [Scenario.modern] [(2, val)] true (GcCheck UP).

(** A fetched record without the username. *)
Definition no_username : sdict :=
  <["password" := "secret"]> (<["endpoints" := "mysql-k8s:3306"]> ∅).

(** The health check cannot be run. *)
Definition no_health_check : Env :=
  Scenario.env [Scenario.legacy Scenario.mysql_complete] [] [] true
    (GcModelError "check not found").

End Cases.

(** * Properties *)

(** ** Running the monad *)

Ltac run :=
  cbv beta iota delta
    [bind try_except ret raise call logger set_status get_status getitem].

Ltac in_list := apply list_elem_of_In; simpl; tauto.

Lemma bind_Ret {A B} (m : M A) (k : A -> M B) w w' a :
  m w = (w', Ret a) -> bind m k w = k a w'.
Proof. intros H. unfold bind. now rewrite H. Qed.

Lemma bind_Raise {A B} (m : M A) (k : A -> M B) w w' e :
  m w = (w', Raise e) -> bind m k w = (w', Raise e).
Proof. intros H. unfold bind. now rewrite H. Qed.

Lemma try_except_Ret {A} (m : M A) h w w' a :
  m w = (w', Ret a) -> try_except m h w = (w', Ret a).
Proof. intros H. unfold try_except. now rewrite H. Qed.

Lemma try_except_caught {A} (m : M A) h k w w' e :
  m w = (w', Raise e) -> h e = Some k -> try_except m h w = k w'.
Proof. intros H Hh. unfold try_except. now rewrite H, Hh. Qed.

Lemma try_except_uncaught {A} (m : M A) h w w' e :
  m w = (w', Raise e) -> h e = None -> try_except m h w = (w', Raise e).
Proof. intros H Hh. unfold try_except. now rewrite H, Hh. Qed.

(** A bound computation ends the way one of its two parts does. *)
Lemma bind_inv {A B} (m : M A) (k : A -> M B) w w2 o :
  bind m k w = (w2, o) ->
  (exists e, m w = (w2, Raise e) /\ o = Raise e) \/
  (exists w1 a, m w = (w1, Ret a) /\ k a w1 = (w2, o)).
Proof.
  unfold bind. destruct (m w) as [w1 [a | e]]; intros H.
  - right. eauto.
  - left. inversion H; subst. eauto.
Qed.

Lemma dict_is_empty_false {V} (d : gmap string V) : dict_is_empty d = false <-> d ≠ ∅.
Proof. unfold dict_is_empty. apply bool_decide_eq_false. Qed.

(** ** The relation lookup *)

Lemma _get_db_relation_present env name r w :
  relation_present env name r ->
  _get_db_relation env name w = (called (CGetRelation name) w, Ret r).
Proof.
  intros H. unfold _get_db_relation, model_get_relation. run.
  red in H. rewrite H. reflexivity.
Qed.

Lemma _get_db_relation_absent env name w :
  relation_absent env name ->
  _get_db_relation env name w =
    (called (CGetRelation name) w,
     Raise (GenericCharmRuntimeError
              ("Database relation " +:+ name +:+ " is not established or empty"))).
Proof.
  intros [H | H]; unfold _get_db_relation, model_get_relation; run;
    rewrite H; reflexivity.
Qed.

Lemma _get_db_relation_too_many env name r1 r2 rs w :
  relations env !! name = Some (r1 :: r2 :: rs) ->
  _get_db_relation env name w =
    (called (CGetRelation name) w, Raise (TooManyRelatedAppsError name)).
Proof.
  intros H. unfold _get_db_relation, model_get_relation. run.
  rewrite H. reflexivity.
Qed.

(** The endpoint is in exactly one of three states. *)
Lemma relation_cases env name :
  relation_absent env name \/
  (exists r, relation_present env name r) \/
  (exists r1 r2 rs, relations env !! name = Some (r1 :: r2 :: rs)).
Proof.
  unfold relation_absent, relation_present.
  destruct (relations env !! name) as [[| r1 [| r2 rs]] |]; eauto 8.
Qed.

(** ** The legacy path *)

Lemma _get_mysql_data_try_without_data r :
  relation_without_data r ->
  exists err, _get_mysql_data_try r = (∅, inl err).
Proof.
  unfold relation_without_data, first_unit_data, _get_mysql_data_try.
  destruct (units r) as [| unit us].
  - eauto.
  - intros [H | H]; rewrite H; [eauto |].
    rewrite lookup_empty. eauto.
Qed.

Lemma _get_mysql_data_try_complete r d database root_password host port :
  first_unit_data r = Some d ->
  d !! "database" = Some database -> d !! "root_password" = Some root_password ->
  d !! "host" = Some host -> d !! "port" = Some port ->
  _get_mysql_data_try r = (d, inr (mysql_record database root_password host port)).
Proof.
  unfold first_unit_data, _get_mysql_data_try.
  destruct (units r) as [| unit us]; [discriminate |].
  intros -> -> -> -> ->. reflexivity.
Qed.

Lemma _get_mysql_data_try_incomplete r d k :
  first_unit_data r = Some d ->
  k ∈ mysql_required_keys -> d !! k = None ->
  exists k', k' ∈ mysql_required_keys /\ _get_mysql_data_try r = (d, inl (KeyError k')).
Proof.
  unfold first_unit_data, _get_mysql_data_try, mysql_required_keys.
  destruct (units r) as [| unit us]; [discriminate |].
  intros -> Hk Hd.
  destruct (d !! "database") eqn:E1; [| exists "database"; split; [in_list | done]].
  destruct (d !! "root_password") eqn:E2; [| exists "root_password"; split; [in_list | done]].
  destruct (d !! "host") eqn:E3; [| exists "host"; split; [in_list | done]].
  destruct (d !! "port") eqn:E4; [| exists "port"; split; [in_list | done]].
  exfalso.
  repeat (apply elem_of_cons in Hk as [-> | Hk]; [congruence |]).
  by apply elem_of_nil in Hk.
Qed.

Lemma _get_mysql_data_absent env w :
  relation_absent env "mysql" ->
  _get_mysql_data env w =
    (called (CGetRelation "mysql") w,
     Raise (GenericCharmRuntimeError "Database relation mysql is not established or empty")).
Proof.
  intros H. unfold _get_mysql_data.
  erewrite bind_Raise; [| by apply _get_db_relation_absent]. reflexivity.
Qed.

Lemma _get_mysql_data_without_data env r w :
  relation_present env "mysql" r -> relation_without_data r ->
  _get_mysql_data env w =
    (called (CGetRelation "mysql") w,
     Raise (GenericCharmRuntimeError "Database relation mysql is not established or empty")).
Proof.
  intros Hr Hd. unfold _get_mysql_data.
  erewrite bind_Ret; [| by apply _get_db_relation_present].
  destruct (_get_mysql_data_try_without_data r Hd) as [err ->]. reflexivity.
Qed.

Lemma _get_mysql_data_incomplete env r d k w :
  relation_present env "mysql" r ->
  first_unit_data r = Some d -> d ≠ ∅ ->
  k ∈ mysql_required_keys -> d !! k = None ->
  exists k',
    k' ∈ mysql_required_keys /\
    _get_mysql_data env w =
      (logged ERROR ("Missing attribute " +:+ exn_str (KeyError k') +:+
                     " in mysql relation data")
         (called (CGetRelation "mysql") w),
       Raise (ErrorWithStatus "Incorrect/incomplete data found in relation mysql. See logs"
                WaitingStatus)).
Proof.
  intros Hr Hd Hne Hk Hnone.
  destruct (_get_mysql_data_try_incomplete r d k Hd Hk Hnone) as (k' & Hk' & Htry).
  exists k'. split; [done |]. unfold _get_mysql_data.
  erewrite bind_Ret; [| by apply _get_db_relation_present].
  rewrite Htry. apply dict_is_empty_false in Hne. rewrite Hne. reflexivity.
Qed.

Lemma _get_mysql_data_complete env r d database root_password host port w :
  relation_present env "mysql" r ->
  first_unit_data r = Some d ->
  d !! "database" = Some database -> d !! "root_password" = Some root_password ->
  d !! "host" = Some host -> d !! "port" = Some port ->
  _get_mysql_data env w =
    (called (CGetRelation "mysql") w,
     Ret (mysql_record database root_password host port)).
Proof.
  intros Hr Hd H1 H2 H3 H4. unfold _get_mysql_data.
  erewrite bind_Ret; [| by apply _get_db_relation_present].
  by erewrite _get_mysql_data_try_complete.
Qed.

Lemma _get_mysql_data_too_many env r1 r2 rs w :
  relations env !! "mysql" = Some (r1 :: r2 :: rs) ->
  _get_mysql_data env w =
    (called (CGetRelation "mysql") w, Raise (TooManyRelatedAppsError "mysql")).
Proof.
  intros H. unfold _get_mysql_data.
  erewrite bind_Raise; [| by eapply _get_db_relation_too_many]. reflexivity.
Qed.

(** ** The modern path *)

(** The loop over the fetched values makes no call and leaves the status
    alone. *)
Lemma _get_relational_db_data_step_quiet db_data val w w' o :
  _get_relational_db_data_step db_data val w = (w', o) ->
  calls w' = calls w /\ unit_status w' = unit_status w.
Proof.
  unfold _get_relational_db_data_step, unpack_host_port.
  destruct (dict_is_empty val); run.
  - intros [= <- <-]. done.
  - destruct (val !! "password"); run; [| intros [= <- <-]; done].
    destruct (val !! "username"); run; [| intros [= <- <-]; done].
    destruct (val !! "endpoints") as [endpoints |]; run; [| intros [= <- <-]; done].
    destruct (py_split ":" endpoints) as [| host [| port [| x xs]]];
      run; intros [= <- <-]; done.
Qed.

Lemma _get_relational_db_data_loop_quiet vals : forall db_data w w' o,
  _get_relational_db_data_loop db_data vals w = (w', o) ->
  calls w' = calls w /\ unit_status w' = unit_status w.
Proof.
  induction vals as [| val rest IH]; intros db_data w w' o; simpl.
  - intros [= <- <-]. done.
  - intros H. apply bind_inv in H as [(e & H & ->) | (w1 & a & H & Hk)].
    + eapply _get_relational_db_data_step_quiet, H.
    + apply _get_relational_db_data_step_quiet in H as [H1 H2].
      apply IH in Hk as [H3 H4]. split; congruence.
Qed.

(** The modern path starts by looking the relational-db relation up, and
    fetches data only when that relation is established. *)
Lemma _get_relational_db_data_calls env w :
  exists trace,
    calls (fst (_get_relational_db_data env w)) =
      (calls w ++ CGetRelation "relational-db" :: trace)%list.
Proof.
  unfold _get_relational_db_data.
  destruct (relation_cases env "relational-db") as [H | [[r H] | (r1 & r2 & rs & H)]].
  - erewrite bind_Raise; [| by apply _get_db_relation_absent]. by exists [].
  - erewrite bind_Ret; [| by apply _get_db_relation_present].
    exists [CFetchRelationData]. run.
    destruct (_get_relational_db_data_loop ∅ (snd <$> fetch_relation_data env)
                (called CFetchRelationData (called (CGetRelation "relational-db") w)))
      as [w1 [db_data | e]] eqn:E;
      apply _get_relational_db_data_loop_quiet in E as [E _]; simpl in E.
    + destruct (dict_is_empty db_data); simpl; rewrite E, <- app_assoc; done.
    + simpl. rewrite E, <- app_assoc. done.
  - erewrite bind_Raise; [| by eapply _get_db_relation_too_many]. by exists [].
Qed.

Lemma _get_relational_db_data_absent env w :
  relation_absent env "relational-db" ->
  _get_relational_db_data env w =
    (called (CGetRelation "relational-db") w,
     Raise (GenericCharmRuntimeError
              "Database relation relational-db is not established or empty")).
Proof.
  intros H. unfold _get_relational_db_data.
  erewrite bind_Raise; [| by apply _get_db_relation_absent]. reflexivity.
Qed.

(** ** Resolution *)

Lemma _get_db_data_legacy_returns env w w' db_data :
  _get_mysql_data env w = (w', Ret db_data) ->
  _get_db_data env w = (w', Ret db_data).
Proof. intros H. unfold _get_db_data. by rewrite (try_except_Ret _ _ _ _ _ H). Qed.

Lemma _get_db_data_legacy_status_error env w w' msg t :
  _get_mysql_data env w = (w', Raise (ErrorWithStatus msg t)) ->
  _get_db_data env w = (w', Raise (ErrorWithStatus msg t)).
Proof.
  intros H. unfold _get_db_data.
  by rewrite (try_except_caught _ _ _ _ _ _ H eq_refl).
Qed.

Lemma _get_db_data_legacy_generic env w w' msg :
  _get_mysql_data env w = (w', Raise (GenericCharmRuntimeError msg)) ->
  _get_db_data env w = resolve_modern env w'.
Proof.
  intros H. unfold _get_db_data.
  by rewrite (try_except_caught _ _ _ _ _ _ H eq_refl).
Qed.

Lemma resolve_modern_calls env w :
  exists trace,
    calls (fst (resolve_modern env w)) =
      (calls w ++ CGetRelation "relational-db" :: trace)%list.
Proof.
  destruct (_get_relational_db_data_calls env w) as [trace H].
  exists trace. unfold resolve_modern, try_except.
  destruct (_get_relational_db_data env w) as [w1 [a | []]]; simpl in *; done.
Qed.

Lemma resolve_modern_absent env w :
  relation_absent env "relational-db" ->
  resolve_modern env w =
    (called (CGetRelation "relational-db") w,
     Raise (ErrorWithStatus "Please add required database relation: eg. relational-db"
              BlockedStatus)).
Proof.
  intros H. unfold resolve_modern.
  erewrite try_except_caught; [| by apply _get_relational_db_data_absent | done].
  reflexivity.
Qed.

(** ** Claims about the database resolution policy *)

(** C9: when the legacy (mysql) relation is present with complete data
    (database, root_password, host, port) and the modern relation is absent,
    database resolution returns a record with exactly the five fields
    db_name, db_password, db_username, db_host and db_port, filled from the
    relation data, whose username is the constant "root". *)
Theorem C9_legacy_complete_yields_root_record
    env r d database root_password host port w :
  relation_present env "mysql" r ->
  relation_absent env "relational-db" ->
  first_unit_data r = Some d ->
  d !! "database" = Some database ->
  d !! "root_password" = Some root_password ->
  d !! "host" = Some host ->
  d !! "port" = Some port ->
  exists db_data : sdict,
    _get_db_data env w = (called (CGetRelation "mysql") w, Ret db_data) /\
    dom db_data =
      ({["db_name"; "db_password"; "db_username"; "db_host"; "db_port"]} : gset string) /\
    db_data !! "db_name" = Some database /\
    db_data !! "db_password" = Some root_password /\
    db_data !! "db_username" = Some "root" /\
    db_data !! "db_host" = Some host /\
    db_data !! "db_port" = Some port.
Proof.
  intros Hr _ Hd H1 H2 H3 H4.
  exists (mysql_record database root_password host port). split.
  - apply _get_db_data_legacy_returns. by eapply _get_mysql_data_complete.
  - unfold mysql_record. split.
    + rewrite !dom_insert_L, dom_empty_L. set_solver.
    + repeat split; by simplify_map_eq.
Qed.

Lemma C9_witness :
  exists db_data : sdict,
    _get_db_data Scenario.legacy_only Scenario.start =
      (called (CGetRelation "mysql") Scenario.start, Ret db_data) /\
    dom db_data =
      ({["db_name"; "db_password"; "db_username"; "db_host"; "db_port"]} : gset string) /\
    db_data !! "db_name" = Some "mlpipeline" /\
    db_data !! "db_password" = Some "secret" /\
    db_data !! "db_username" = Some "root" /\
    db_data !! "db_host" = Some "mysql.kubeflow" /\
    db_data !! "db_port" = Some "3306".
Proof.
  apply (C9_legacy_complete_yields_root_record Scenario.legacy_only
           (Scenario.legacy Scenario.mysql_complete) Scenario.mysql_complete).
  - reflexivity.
  - right. reflexivity.
  - reflexivity.
  - reflexivity.
  - reflexivity.
  - reflexivity.
  - reflexivity.
Defined.

(** C4, as stated, fails: with the legacy relation present, the modern one
    absent and the peer's data bag empty (so every required key is missing),
    resolution is Blocked, not Waiting. *)
Lemma C4_counterexample :
  relation_present Scenario.legacy_empty_only "mysql" (Scenario.legacy ∅) /\
  relation_absent Scenario.legacy_empty_only "relational-db" /\
  first_unit_data (Scenario.legacy ∅) = Some ∅ /\
  (∅ : sdict) !! "database" = None /\
  snd (_get_db_data Scenario.legacy_empty_only Scenario.start) =
    Raise (ErrorWithStatus "Please add required database relation: eg. relational-db"
             BlockedStatus).
Proof.
  split; [reflexivity |]. split; [right; reflexivity |].
  split; [reflexivity |]. split; [reflexivity |]. vm_compute. reflexivity.
Qed.

(** C4, amended: with the legacy relation present and the modern one absent,
    resolution yields Waiting (and the status stays untouched) when the first
    peer unit's data bag is not empty and lacks one of the required keys; when
    the relation has no peer data at all, it counts as not established and
    resolution yields Blocked with the "add a database relation" message. *)
Theorem C4_legacy_incomplete_waits env r w :
  relation_present env "mysql" r ->
  relation_absent env "relational-db" ->
  (forall d k,
      first_unit_data r = Some d -> d ≠ ∅ ->
      k ∈ mysql_required_keys -> d !! k = None ->
      exists w',
        _get_db_data env w =
          (w', Raise (ErrorWithStatus
                        "Incorrect/incomplete data found in relation mysql. See logs"
                        WaitingStatus)) /\
        calls w' = (calls w ++ [CGetRelation "mysql"])%list /\
        unit_status w' = unit_status w) /\
  (relation_without_data r ->
   _get_db_data env w =
     (called (CGetRelation "relational-db") (called (CGetRelation "mysql") w),
      Raise (ErrorWithStatus "Please add required database relation: eg. relational-db"
               BlockedStatus))).
Proof.
  intros Hr Ha. split.
  - intros d k Hd Hne Hk Hnone.
    destruct (_get_mysql_data_incomplete env r d k w Hr Hd Hne Hk Hnone) as (k' & _ & H).
    eexists. split; [by apply _get_db_data_legacy_status_error |]. done.
  - intros Hd.
    erewrite _get_db_data_legacy_generic; [| by eapply _get_mysql_data_without_data].
    by apply resolve_modern_absent.
Qed.

Lemma C4_witness :
  exists w',
    _get_db_data Scenario.legacy_partial_only Scenario.start =
      (w', Raise (ErrorWithStatus
                    "Incorrect/incomplete data found in relation mysql. See logs"
                    WaitingStatus)) /\
    calls w' = (calls Scenario.start ++ [CGetRelation "mysql"])%list /\
    unit_status w' = unit_status Scenario.start.
Proof.
  refine (proj1 (C4_legacy_incomplete_waits Scenario.legacy_partial_only
                   (Scenario.legacy Scenario.mysql_partial) Scenario.start _ _)
            Scenario.mysql_partial "port" _ _ _ _).
  - reflexivity.
  - right. reflexivity.
  - reflexivity.
  - intros H. apply (f_equal (fun m : sdict => m !! "host")) in H. vm_compute in H.
    discriminate H.
  - apply list_elem_of_In. simpl. tauto.
  - reflexivity.
Defined.

(** The required keys are all there, or one of them is missing. *)
Lemma mysql_keys_complete_or_missing (d : sdict) :
  (exists database root_password host port,
      d !! "database" = Some database /\ d !! "root_password" = Some root_password /\
      d !! "host" = Some host /\ d !! "port" = Some port) \/
  (exists k, k ∈ mysql_required_keys /\ d !! k = None).
Proof.
  destruct (d !! "database") eqn:E1; [| right; exists "database"; split; [in_list | done]].
  destruct (d !! "root_password") eqn:E2;
    [| right; exists "root_password"; split; [in_list | done]].
  destruct (d !! "host") eqn:E3; [| right; exists "host"; split; [in_list | done]].
  destruct (d !! "port") eqn:E4; [| right; exists "port"; split; [in_list | done]].
  left. eauto 8.
Qed.

(** With peer data in the legacy relation, resolution ends on the legacy
    path: its only call is the lookup of the mysql relation. *)
Lemma _get_db_data_legacy_decides env r d w :
  relation_present env "mysql" r ->
  first_unit_data r = Some d -> d ≠ ∅ ->
  calls (fst (_get_db_data env w)) = (calls w ++ [CGetRelation "mysql"])%list.
Proof.
  intros Hr Hd Hne.
  destruct (mysql_keys_complete_or_missing d)
    as [(database & root_password & host & port & H1 & H2 & H3 & H4) | (k & Hk & Hnone)].
  - erewrite _get_db_data_legacy_returns;
      [| by eapply _get_mysql_data_complete]. done.
  - destruct (_get_mysql_data_incomplete env r d k w Hr Hd Hne Hk Hnone) as (k' & _ & H).
    erewrite _get_db_data_legacy_status_error; [| exact H]. done.
Qed.

(** When the legacy path raises its "not established or empty" error, the
    modern relation is looked up next. *)
Lemma _get_db_data_probes_modern env w msg :
  _get_mysql_data env w =
    (called (CGetRelation "mysql") w, Raise (GenericCharmRuntimeError msg)) ->
  exists trace,
    calls (fst (_get_db_data env w)) =
      (calls w ++ CGetRelation "mysql" :: CGetRelation "relational-db" :: trace)%list /\
    (relation_absent env "relational-db" ->
     snd (_get_db_data env w) =
       Raise (ErrorWithStatus "Please add required database relation: eg. relational-db"
                BlockedStatus)).
Proof.
  intros H. rewrite (_get_db_data_legacy_generic _ _ _ _ H).
  destruct (resolve_modern_calls env (called (CGetRelation "mysql") w)) as [trace Ht].
  exists trace. split.
  - rewrite Ht. simpl. by rewrite <- app_assoc.
  - intros Ha. by rewrite resolve_modern_absent.
Qed.

(** C2, as stated, fails: a legacy relation that is established but whose
    peer data bag is empty does not stop the resolution; the modern relation
    is probed, its data fetched and returned. *)
Lemma C2_counterexample :
  relation_present Scenario.legacy_empty_modern_ready "mysql" (Scenario.legacy ∅) /\
  calls (fst (_get_db_data Scenario.legacy_empty_modern_ready Scenario.start)) =
    [CGetRelation "mysql"; CGetRelation "relational-db"; CFetchRelationData] /\
  snd (_get_db_data Scenario.legacy_empty_modern_ready Scenario.start) =
    Ret (<["db_port" := "3306"]>
         (<["db_host" := "mysql-k8s"]>
          (<["db_username" := "kfp"]>
           (<["db_password" := "secret"]>
            (<["db_name" := "mlpipeline"]> ∅))))).
Proof.
  split; [reflexivity |]. split; vm_compute; reflexivity.
Qed.

(** C2, amended: database resolution always looks the legacy (mysql)
    relation up first.  It probes the modern (relational-db) relation exactly
    when the legacy relation is absent or is established without peer data (no
    remote unit, or an empty data bag of the first unit).  When both relations
    are absent, resolution fails Blocked with the "add a database relation"
    message. *)
Theorem C2_resolution_order env w :
  exists trace,
    calls (fst (_get_db_data env w)) = (calls w ++ CGetRelation "mysql" :: trace)%list /\
    (CGetRelation "relational-db" ∈ trace <->
     relation_absent env "mysql" \/
     exists r, relation_present env "mysql" r /\ relation_without_data r) /\
    (relation_absent env "mysql" -> relation_absent env "relational-db" ->
     snd (_get_db_data env w) =
       Raise (ErrorWithStatus "Please add required database relation: eg. relational-db"
                BlockedStatus)).
Proof.
  destruct (relation_cases env "mysql") as [Ha | [[r Hr] | (r1 & r2 & rs & Hmany)]].
  - (* no legacy relation *)
    destruct (_get_db_data_probes_modern env w _ (_get_mysql_data_absent env w Ha))
      as (trace & H1 & H2).
    exists (CGetRelation "relational-db" :: trace). split; [done |]. split; [| auto].
    split; [auto |]. intros _. apply elem_of_cons. by left.
  - (* one legacy relation *)
    assert (Hnotabsent : ~ relation_absent env "mysql").
    { intros [H | H]; red in Hr; congruence. }
    destruct (decide (first_unit_data r = None \/ first_unit_data r = Some ∅))
      as [Hw | Hdata].
    + destruct (_get_db_data_probes_modern env w _
                  (_get_mysql_data_without_data env r w Hr Hw)) as (trace & H1 & H2).
      exists (CGetRelation "relational-db" :: trace). split; [done |].
      split; [| by intros Ha]. split; [eauto |]. intros _. apply elem_of_cons. by left.
    + exists []. destruct (first_unit_data r) as [d |] eqn:Hd; [| by destruct Hdata; left].
      assert (Hne : d ≠ ∅) by (intros ->; destruct Hdata; by right).
      split; [by eapply _get_db_data_legacy_decides |]. split; [| by intros Ha].
      split; [intros Hin; by apply elem_of_nil in Hin |].
      intros [Ha | (r' & Hr' & Hw)]; [done |].
      red in Hr, Hr'. assert (r' = r) as -> by congruence.
      red in Hw. rewrite Hd in Hw. by destruct Hdata.
  - (* several legacy relations *)
    exists []. split; [| split].
    + unfold _get_db_data.
      rewrite (try_except_uncaught _ _ _ _ _ (_get_mysql_data_too_many _ _ _ _ w Hmany) eq_refl).
      done.
    + split; [intros Hin; by apply elem_of_nil in Hin |].
      intros [[H | H] | (r' & H & _)]; try red in H; congruence.
    + intros [H | H]; congruence.
Qed.

Lemma C2_witness :
  snd (_get_db_data Scenario.no_database Scenario.start) =
    Raise (ErrorWithStatus "Please add required database relation: eg. relational-db"
             BlockedStatus).
Proof.
  destruct (C2_resolution_order Scenario.no_database Scenario.start) as (trace & _ & _ & H).
  apply H.
  - right. reflexivity.
  - right. reflexivity.
Defined.

(** ** The record of calls only grows *)

Section Appends.

Context {A B : Type}.

Lemma appends_ret (a : A) : appends (ret a).
Proof. intros w w' o [= <- <-]. exists []. by rewrite app_nil_r. Qed.

Lemma appends_raise (e : exn) : appends (@raise A e).
Proof. intros w w' o [= <- <-]. exists []. by rewrite app_nil_r. Qed.

Lemma appends_bind (m : M A) (k : A -> M B) :
  appends m -> (forall a, appends (k a)) -> appends (bind m k).
Proof.
  intros Hm Hk w w2 o H.
  apply bind_inv in H as [(e & H & ->) | (w1 & a & H & H')].
  - by apply Hm in H.
  - apply Hm in H as [t1 H1]. apply Hk in H' as [t2 H2].
    exists (t1 ++ t2)%list. by rewrite H2, H1, app_assoc.
Qed.

Lemma appends_try_except (m : M A) h :
  appends m ->
  (forall e, match h e with Some k => appends k | None => True end) ->
  appends (try_except m h).
Proof.
  intros Hm Hh w w2 o. unfold try_except.
  destruct (m w) as [w1 [a | e]] eqn:E.
  - intros [= <- <-]. by apply Hm in E.
  - specialize (Hh e). destruct (h e) as [k |].
    + intros H. apply Hm in E as [t1 H1]. apply Hh in H as [t2 H2].
      exists (t1 ++ t2)%list. by rewrite H2, H1, app_assoc.
    + intros [= <- <-]. by apply Hm in E.
Qed.

End Appends.

Lemma appends_call c : appends (call c).
Proof. intros w w' o [= <- <-]. by exists [c]. Qed.

Lemma appends_logger l msg : appends (logger l msg).
Proof. intros w w' o [= <- <-]. exists []. simpl. by rewrite app_nil_r. Qed.

Lemma appends_set_status s : appends (set_status s).
Proof. intros w w' o [= <- <-]. exists []. simpl. by rewrite app_nil_r. Qed.

Lemma appends_get_status : appends get_status.
Proof. intros w w' o [= <- <-]. exists []. by rewrite app_nil_r. Qed.

Lemma appends_getitem {V} (d : gmap string V) k : appends (getitem d k).
Proof. unfold getitem. destruct (d !! k); [apply appends_ret | apply appends_raise]. Qed.

Create HintDb appends.

#[local] Hint Resolve appends_call appends_logger appends_set_status appends_get_status
  : appends.
#[local] Hint Extern 0 (appends (getitem _ _)) => apply appends_getitem : appends.
#[local] Hint Extern 0 (appends (ret _)) => apply appends_ret : appends.
#[local] Hint Extern 0 (appends (raise _)) => apply appends_raise : appends.

(** Take a computation apart along its binds, handlers and case
    distinctions, and close the leaves with the hints. *)
Ltac appends_tac :=
  repeat first
    [ progress intros
    | exact I
    | solve [auto with appends]
    | apply appends_bind
    | apply appends_try_except
    | match goal with
      | |- appends (match ?x with _ => _ end) => destruct x
      | |- match (match ?e with _ => _ end) with _ => _ end => destruct e
      | |- match (if ?c then _ else _) with _ => _ end => destruct c
      | |- match log_and_reraise _ ?e with _ => _ end =>
          unfold log_and_reraise; destruct e
      end ].

Lemma appends__get_db_relation env name : appends (_get_db_relation env name).
Proof. unfold _get_db_relation, model_get_relation. appends_tac. Qed.

Lemma appends__get_mysql_data env : appends (_get_mysql_data env).
Proof.
  unfold _get_mysql_data. apply appends_bind; [apply appends__get_db_relation |].
  intros r. destruct (_get_mysql_data_try r) as [rd [e | d]]; appends_tac.
Qed.

Lemma appends__get_relational_db_data_loop vals db_data :
  appends (_get_relational_db_data_loop db_data vals).
Proof.
  intros w w' o H. apply _get_relational_db_data_loop_quiet in H as [H _].
  exists []. by rewrite app_nil_r.
Qed.

Lemma appends__get_relational_db_data env : appends (_get_relational_db_data env).
Proof.
  unfold _get_relational_db_data.
  apply appends_bind; [apply appends__get_db_relation |]. intros _.
  apply appends_bind; [apply appends_call |]. intros _.
  apply appends_bind; [apply appends__get_relational_db_data_loop |].
  appends_tac.
Qed.

Lemma appends__get_db_data env : appends (_get_db_data env).
Proof.
  unfold _get_db_data.
  apply appends_try_except; [apply appends__get_mysql_data |].
  intros []; try exact I; [appends_tac |].
  apply appends_try_except; [apply appends__get_relational_db_data |].
  appends_tac.
Qed.

Lemma appends__validate_sdi_interface interfaces name default_return :
  appends (_validate_sdi_interface interfaces name default_return).
Proof. unfold _validate_sdi_interface, sdi_get_data. appends_tac. Qed.

Lemma appends__check_leader env : appends (_check_leader env).
Proof. unfold _check_leader, unit_is_leader. appends_tac. Qed.

Lemma appends__get_interfaces env : appends (_get_interfaces env).
Proof. unfold _get_interfaces, sdi_get_interfaces. appends_tac. Qed.

#[local] Hint Resolve appends__get_db_data appends__validate_sdi_interface
  appends__check_leader appends__get_interfaces : appends.

Lemma appends__generate_config env interfaces : appends (_generate_config env interfaces).
Proof.
  unfold _generate_config, _get_object_storage, _get_viz. appends_tac.
Qed.

Lemma appends__upload_files_to_container env config_json :
  appends (_upload_files_to_container env config_json).
Proof.
  unfold _upload_files_to_container, _check_container_connection,
    container_can_connect, container_push.
  appends_tac.
Qed.

Lemma appends__apply_k8s_resources env force_conflicts :
  appends (_apply_k8s_resources env force_conflicts).
Proof.
  unfold _apply_k8s_resources, k8s_apply, _check_and_report_k8s_conflict. appends_tac.
Qed.

Lemma appends__send_info env interfaces : appends (_send_info env interfaces).
Proof. unfold _send_info. appends_tac. Qed.

#[local] Hint Resolve appends__generate_config appends__upload_files_to_container
  appends__apply_k8s_resources appends__send_info : appends.

Lemma appends__on_event_pipeline env force_conflicts :
  appends (_on_event_pipeline env force_conflicts).
Proof. unfold _on_event_pipeline, _kfp_api_layer, update_layer. appends_tac. Qed.

Lemma appends__on_event env event force_conflicts :
  appends (_on_event env event force_conflicts).
Proof.
  unfold _on_event. apply appends_bind.
  - apply appends_try_except.
    + apply appends_bind; [apply appends__on_event_pipeline | appends_tac].
    + appends_tac.
  - appends_tac.
Qed.

(** ** The mutual-exclusion check of the database triggers *)

(** The six triggers are handled by two handlers. *)
Lemma database_joined_or_changed_handler env event :
  database_joined_or_changed event = true ->
  (other_database_relation event = "relational-db" /\
   precheck_calls event = [CRelations "mysql"; CGetRelation "relational-db"] /\
   dispatch env event = _on_mysql_relation env event) \/
  (other_database_relation event = "mysql" /\
   precheck_calls event = [CGetRelation "mysql"] /\
   dispatch env event = _on_relational_db_relation env event).
Proof.
  intros H. apply bool_decide_eq_true in H.
  repeat (apply elem_of_cons in H as [-> | H]; [by auto |]).
  by apply elem_of_nil in H.
Qed.

Lemma _on_mysql_relation_conflict env event r_legacy r_modern w :
  relation_present env "mysql" r_legacy ->
  relation_present env "relational-db" r_modern ->
  _on_mysql_relation env event w =
    (with_status conflict_status
       (logged ERROR "Relation mysql is deprecated. Remove deprecated mysql relation to unblock."
          (logged WARNING "Up-to-date database relation relational-db is already established."
             (called (CGetRelation "relational-db") (called (CRelations "mysql") w)))),
     Ret tt).
Proof.
  unfold relation_present, _on_mysql_relation, model_relations, model_get_relation, getitem.
  intros -> ->. reflexivity.
Qed.

Lemma _on_relational_db_relation_conflict env event r_legacy w :
  relation_present env "mysql" r_legacy ->
  _on_relational_db_relation env event w =
    (with_status conflict_status
       (logged ERROR "Relation mysql is deprecated. Remove deprecated mysql relation to unblock."
          (logged WARNING
             "Failed to create relational-db relation due to existing mysql relation."
             (called (CGetRelation "mysql") w))),
     Ret tt).
Proof.
  unfold relation_present, _on_relational_db_relation, model_get_relation, getitem.
  intros ->. reflexivity.
Qed.

(** C1, as stated, fails: with both database relations present, database
    resolution returns the legacy record when the legacy data is complete;
    a config-changed trigger then runs the whole pipeline and ends Active. *)
Lemma C1_counterexample :
  relation_present Scenario.both_present "mysql" (Scenario.legacy Scenario.mysql_complete) /\
  relation_present Scenario.both_present "relational-db" Scenario.modern /\
  _get_db_data Scenario.both_present Scenario.start =
    (called (CGetRelation "mysql") Scenario.start,
     Ret (mysql_record "mlpipeline" "secret" "mysql.kubeflow" "3306")) /\
  unit_status (fst (dispatch Scenario.both_present ConfigChanged Scenario.start)) =
    mkStatus ActiveStatus "".
Proof.
  split; [reflexivity |]. split; [reflexivity |]. split; vm_compute; reflexivity.
Qed.

(** C1, amended: when both the legacy (mysql) and the modern (relational-db)
    relation are present, the relation-joined and relation-changed handlers of
    either database relation (and the database-created and endpoints-changed
    handlers of the database library) leave the unit Blocked with the fixed
    conflict message, whatever the two relations contain. *)
Theorem C1_both_present_handlers_block env event r_legacy r_modern w :
  relation_present env "mysql" r_legacy ->
  relation_present env "relational-db" r_modern ->
  database_joined_or_changed event = true ->
  exists w',
    dispatch env event w = (w', Ret tt) /\
    unit_status w' =
      mkStatus BlockedStatus "Remove deprecated mysql relation to unblock. See logs".
Proof.
  intros Hl Hm He.
  destruct (database_joined_or_changed_handler env event He) as [(_ & _ & ->) | (_ & _ & ->)].
  - rewrite (_on_mysql_relation_conflict _ _ _ _ _ Hl Hm). eauto.
  - rewrite (_on_relational_db_relation_conflict _ _ _ _ Hl). eauto.
Qed.

Lemma C1_witness :
  exists w',
    dispatch Scenario.both_present (RelationChanged "mysql") Scenario.start = (w', Ret tt) /\
    unit_status w' =
      mkStatus BlockedStatus "Remove deprecated mysql relation to unblock. See logs".
Proof.
  apply (C1_both_present_handlers_block Scenario.both_present (RelationChanged "mysql")
           (Scenario.legacy Scenario.mysql_complete) Scenario.modern).
  - reflexivity.
  - reflexivity.
  - reflexivity.
Defined.

Lemma first_call_call c : first_call c (call c).
Proof. intros w. by exists []. Qed.

Lemma first_call_bind {A B} c (m : M A) (k : A -> M B) :
  first_call c m -> (forall a, appends (k a)) -> first_call c (bind m k).
Proof.
  intros Hm Hk w. destruct (Hm w) as [t1 H1]. unfold bind.
  destruct (m w) as [w1 [a | e]]; simpl in H1.
  - destruct (k a w1) as [w2 o] eqn:E. apply Hk in E as [t2 H2].
    exists (t1 ++ t2)%list. simpl. by rewrite H2, H1, <- app_assoc.
  - by exists t1.
Qed.

Lemma first_call_try_except {A} c (m : M A) h :
  first_call c m ->
  (forall e, match h e with Some k => appends k | None => True end) ->
  first_call c (try_except m h).
Proof.
  intros Hm Hh w. destruct (Hm w) as [t1 H1]. unfold try_except.
  destruct (m w) as [w1 [a | e]]; simpl in H1.
  - by exists t1.
  - specialize (Hh e). destruct (h e) as [k |]; [| by exists t1].
    destruct (k w1) as [w2 o] eqn:E. apply Hh in E as [t2 H2].
    exists (t1 ++ t2)%list. simpl. by rewrite H2, H1, <- app_assoc.
Qed.

#[local] Hint Resolve appends__on_event : appends.

Lemma first_call__on_mysql_relation env event :
  first_call (CRelations "mysql") (_on_mysql_relation env event).
Proof.
  unfold _on_mysql_relation, model_relations.
  apply first_call_bind.
  - apply first_call_bind; [apply first_call_call | appends_tac].
  - unfold model_get_relation. appends_tac.
Qed.

Lemma first_call__on_relational_db_relation env event :
  first_call (CGetRelation "mysql") (_on_relational_db_relation env event).
Proof.
  unfold _on_relational_db_relation, model_get_relation.
  apply first_call_bind; [| appends_tac].
  apply first_call_try_except; [| appends_tac].
  apply first_call_bind; [| appends_tac].
  apply first_call_bind; [apply first_call_call | appends_tac].
Qed.

Lemma _on_mysql_relation_delegates env event w :
  at_most_one_mysql env ->
  relation_absent env "relational-db" ->
  _on_mysql_relation env event w =
    _on_event env event false
      (with_status (mkStatus MaintenanceStatus
                      "Adding mysql relation. Relation mysql is deprecated.")
         (logged WARNING "Relation mysql is deprecated."
            (called (CGetRelation "relational-db") (called (CRelations "mysql") w)))).
Proof.
  intros (rs & Hrs & Hlen) Ha.
  unfold _on_mysql_relation, model_relations, model_get_relation, getitem.
  rewrite Hrs.
  assert (Hlt : (1 <? length rs)%nat = false) by (apply Nat.ltb_ge; lia).
  destruct Ha as [Ha | Ha]; rewrite Ha; run; rewrite Hlt; reflexivity.
Qed.

Lemma _on_relational_db_relation_delegates env event w :
  relation_absent env "mysql" ->
  _on_relational_db_relation env event w =
    _on_event env event false
      (with_status (mkStatus MaintenanceStatus "Adding relational-db relation")
         (called (CGetRelation "mysql") w)).
Proof.
  intros Ha.
  unfold _on_relational_db_relation, model_get_relation, getitem.
  destruct Ha as [Ha | Ha]; rewrite Ha; reflexivity.
Qed.

(** C3, as stated, fails: the relation-departed handler of the mysql
    relation makes no mutual-exclusion check.  With both relations present it
    goes straight into the pipeline, whose first call is the leadership
    check, and the unit ends Active instead of Blocked. *)
Lemma C3_counterexample :
  relation_present Scenario.both_present "mysql" (Scenario.legacy Scenario.mysql_complete) /\
  relation_present Scenario.both_present "relational-db" Scenario.modern /\
  head (calls (fst (dispatch Scenario.both_present (RelationDeparted "mysql")
                      Scenario.start))) = Some CIsLeader /\
  (CGetRelation "relational-db" ∉
     calls (fst (dispatch Scenario.both_present (RelationDeparted "mysql") Scenario.start))) /\
  dispatch Scenario.both_present (RelationDeparted "mysql") Scenario.start =
    _on_event Scenario.both_present (RelationDeparted "mysql") false
      (with_status (mkStatus MaintenanceStatus
                      "Removing mysql relation. Relation mysql is deprecated.")
         Scenario.start) /\
  unit_status (fst (dispatch Scenario.both_present (RelationDeparted "mysql")
                      Scenario.start)) = mkStatus ActiveStatus "".
Proof.
  split; [reflexivity |]. split; [reflexivity |].
  split; [vm_compute; reflexivity |].
  split; [| split; [reflexivity | vm_compute; reflexivity]].
  intros H. apply list_elem_of_In in H. vm_compute in H.
  repeat (destruct H as [H | H]; [discriminate H |]). exact H.
Qed.

(** C3, amended: on every relation-joined and relation-changed trigger of
    either database relation (and on the database-created and
    endpoints-changed triggers) the handler begins with the mutual-exclusion
    check, before any call of the pipeline and of its data-fetch paths.  When
    the other database relation is present the handler stops there: the unit
    is Blocked with the conflict message and nothing but the check's lookups
    has been called.  When the other relation is absent the handler sets a
    Maintenance status and hands over to the full pipeline.  The
    relation-departed and relation-broken handlers make no such check: they
    set a Maintenance status and run the pipeline. *)
Theorem C3_precheck_before_pipeline env event w :
  (database_joined_or_changed event = true ->
   (exists c trace,
       head (precheck_calls event) = Some c /\
       calls (fst (dispatch env event w)) = (calls w ++ c :: trace)%list) /\
   (forall r,
       (other_database_relation event = "relational-db" -> at_most_one_mysql env) ->
       relation_present env (other_database_relation event) r ->
       exists w',
         dispatch env event w = (w', Ret tt) /\
         unit_status w' = conflict_status /\
         calls w' = (calls w ++ precheck_calls event)%list) /\
   ((other_database_relation event = "relational-db" -> at_most_one_mysql env) ->
    relation_absent env (other_database_relation event) ->
    exists w1,
      dispatch env event w = _on_event env event false w1 /\
      status_type (unit_status w1) = MaintenanceStatus /\
      calls w1 = (calls w ++ precheck_calls event)%list)) /\
  (forall name,
      name = "mysql" \/ name = "relational-db" ->
      event = RelationDeparted name \/ event = RelationBroken name ->
      exists msg,
        dispatch env event w =
          _on_event env event false (with_status (mkStatus MaintenanceStatus msg) w)).
Proof.
  split; [| intros name [-> | ->] [-> | ->]; eexists; reflexivity].
  intros He.
  destruct (database_joined_or_changed_handler env event He)
    as [(Ho & Hp & Hd) | (Ho & Hp & Hd)]; rewrite Ho, Hp, Hd; clear Ho Hp Hd.
  - split; [| split].
    + destruct (first_call__on_mysql_relation env event w) as [trace H]. eauto.
    + intros r Hone Hr. destruct (Hone eq_refl) as (rs & Hrs & Hlen).
      assert (Hlt : (1 <? length rs)%nat = false) by (apply Nat.ltb_ge; lia).
      eexists. split.
      { unfold relation_present, _on_mysql_relation, model_relations, model_get_relation,
          getitem in *.
        rewrite Hrs, Hr. run. rewrite Hlt. reflexivity. }
      split; [reflexivity |]. simpl. by rewrite <- app_assoc.
    + intros Hone Ha. eexists. split.
      { apply (_on_mysql_relation_delegates _ _ _ (Hone eq_refl) Ha). }
      split; [reflexivity |]. simpl. by rewrite <- app_assoc.
  - split; [| split].
    + destruct (first_call__on_relational_db_relation env event w) as [trace H]. eauto.
    + intros r _ Hr. eexists. split.
      { apply (_on_relational_db_relation_conflict _ _ _ _ Hr). }
      split; reflexivity.
    + intros _ Ha. eexists. split.
      { apply (_on_relational_db_relation_delegates _ _ _ Ha). }
      split; reflexivity.
Qed.

Lemma C3_witness :
  exists w',
    dispatch Scenario.both_present (RelationJoined "mysql") Scenario.start = (w', Ret tt) /\
    unit_status w' = conflict_status /\
    calls w' =
      (calls Scenario.start ++ [CRelations "mysql"; CGetRelation "relational-db"])%list.
Proof.
  destruct (proj1 (C3_precheck_before_pipeline Scenario.both_present
                     (RelationJoined "mysql") Scenario.start) eq_refl) as (_ & H & _).
  apply (H Scenario.modern).
  - intros _. exists [Scenario.legacy Scenario.mysql_complete].
    split; [reflexivity | simpl; lia].
  - reflexivity.
Defined.

(** ** Claims about the relation data validator *)

(** C5, as stated, fails: an established relation whose first record is
    empty is Blocked, not Waiting. *)
Lemma C5_counterexample :
  _validate_sdi_interface
    (<["object-storage" := Some (SerializedDataInterface (GdData [((3, "minio"), ∅)]))]> ∅)
    "object-storage" None Scenario.start =
  (called (CGetData "object-storage") Scenario.start,
   Raise (ErrorWithStatus "Found empty relation data for object-storage" BlockedStatus)).
Proof. vm_compute. reflexivity. Qed.

(** C5, amended: for a relation validated through the structured-interface
    validator, validation fails with Waiting status when the relation exists
    but no data has been exchanged yet, and with Blocked status when the
    first peer record is empty. *)
Theorem C5_validator_without_data interfaces relation_name default_return g w :
  interfaces !! relation_name = Some (Some (SerializedDataInterface g)) ->
  (g = GdData [] ->
   _validate_sdi_interface interfaces relation_name default_return w =
     (called (CGetData relation_name) w,
      Raise (ErrorWithStatus ("Waiting for " +:+ relation_name +:+ " relation data")
               WaitingStatus))) /\
  (forall key rest,
      g = GdData ((key, ∅) :: rest) ->
      _validate_sdi_interface interfaces relation_name default_return w =
        (called (CGetData relation_name) w,
         Raise (ErrorWithStatus ("Found empty relation data for " +:+ relation_name)
                  BlockedStatus))).
Proof.
  intros H. unfold _validate_sdi_interface, sdi_get_data. rewrite H.
  split; [intros -> | intros key rest ->]; reflexivity.
Qed.

Lemma C5_witness :
  _validate_sdi_interface
    (<["kfp-viz" := Some (SerializedDataInterface (GdData []))]> ∅)
    "kfp-viz" None Scenario.start =
  (called (CGetData "kfp-viz") Scenario.start,
   Raise (ErrorWithStatus "Waiting for kfp-viz relation data" WaitingStatus)).
Proof.
  refine (proj1 (C5_validator_without_data
                   (<["kfp-viz" := Some (SerializedDataInterface (GdData []))]> ∅)
                   "kfp-viz" None (GdData []) Scenario.start _) _).
  - reflexivity.
  - reflexivity.
Defined.

(** ** How [_on_event] ends *)

Lemma _on_event_success env event force_conflicts w w1 :
  _on_event_pipeline env force_conflicts w = (w1, Ret tt) ->
  _on_event env event force_conflicts w =
    (with_status (mkStatus ActiveStatus "") w1, Ret tt).
Proof.
  intros H. unfold _on_event. unfold bind at 1. unfold try_except.
  rewrite (bind_Ret _ _ _ _ _ H). reflexivity.
Qed.

Lemma _on_event_status_error env event force_conflicts w w1 msg t :
  _on_event_pipeline env force_conflicts w = (w1, Raise (ErrorWithStatus msg t)) ->
  _on_event env event force_conflicts w =
    (logged ERROR ("Failed to handle " +:+ event_str env event +:+ " with error: " +:+ msg)
       (with_status (mkStatus t msg) w1),
     Ret tt).
Proof.
  intros H. unfold _on_event. unfold bind at 1. unfold try_except.
  rewrite (bind_Raise _ _ _ _ _ H). reflexivity.
Qed.

Lemma _on_event_crash env event force_conflicts w w1 e :
  _on_event_pipeline env force_conflicts w = (w1, Raise e) ->
  is_ErrorWithStatus e = false ->
  _on_event env event force_conflicts w = (w1, Raise e).
Proof.
  intros H He. unfold _on_event. unfold bind at 1. unfold try_except.
  rewrite (bind_Raise _ _ _ _ _ H). destruct e; try discriminate He; reflexivity.
Qed.

(** ** Claims about the reconciliation pipeline *)

Lemma _check_container_connection_unreachable env w :
  can_connect env = false ->
  _check_container_connection env w =
    (called CCanConnect w,
     Raise (ErrorWithStatus "Pod startup is not complete" MaintenanceStatus)).
Proof.
  intros H. unfold _check_container_connection, container_can_connect. run.
  rewrite H. reflexivity.
Qed.

Lemma _upload_files_to_container_unreachable env config_json w :
  can_connect env = false ->
  _upload_files_to_container env config_json w =
    (with_status (mkStatus MaintenanceStatus "Pod startup is not complete")
       (called CCanConnect w),
     Raise (ErrorWithStatus "Pod startup is not complete" MaintenanceStatus)).
Proof.
  intros H. unfold _upload_files_to_container. unfold bind at 1. unfold try_except at 1.
  rewrite (_check_container_connection_unreachable _ _ H). reflexivity.
Qed.

(** C6, as stated, fails: on a leader unit with valid relation data whose
    container is not reachable, the pass ends with a Maintenance status, not
    a Waiting one. *)
Lemma C6_counterexample :
  can_connect Scenario.legacy_only_unreachable = false /\
  unit_status (fst (dispatch Scenario.legacy_only_unreachable ConfigChanged Scenario.start)) =
    mkStatus MaintenanceStatus "Pod startup is not complete" /\
  is_waiting (unit_status (fst (dispatch Scenario.legacy_only_unreachable ConfigChanged
                                  Scenario.start))) = false.
Proof. split; [reflexivity |]. split; vm_compute; reflexivity. Qed.

(** C6, amended: in a reconciliation pass that gets as far as the upload
    step (leadership, interfaces and configuration succeeded), if the
    workload container is not reachable the pass stops there and the unit
    status is Maintenance with the message "Pod startup is not complete";
    nothing is pushed to the container. *)
Theorem C6_unreachable_container_maintenance
    env event force_conflicts w wa wb w1 interfaces config_json :
  can_connect env = false ->
  _check_leader env w = (wa, Ret tt) ->
  _get_interfaces env wa = (wb, Ret interfaces) ->
  _generate_config env interfaces wb = (w1, Ret config_json) ->
  exists w2,
    _on_event env event force_conflicts w = (w2, Ret tt) /\
    unit_status w2 = mkStatus MaintenanceStatus "Pod startup is not complete" /\
    calls w2 = (calls w1 ++ [CCanConnect])%list.
Proof.
  intros Hc H1 H2 H3. eexists. split.
  - apply _on_event_status_error. unfold _on_event_pipeline.
    rewrite (bind_Ret _ _ _ _ _ H1), (bind_Ret _ _ _ _ _ H2), (bind_Ret _ _ _ _ _ H3).
    apply bind_Raise. by apply _upload_files_to_container_unreachable.
  - split; reflexivity.
Qed.

Lemma C6_witness :
  exists w2,
    _on_event Scenario.legacy_only_unreachable ConfigChanged false Scenario.start =
      (w2, Ret tt) /\
    unit_status w2 = mkStatus MaintenanceStatus "Pod startup is not complete" /\
    calls w2 = (calls Scenario.after_config ++ [CCanConnect])%list.
Proof.
  apply (C6_unreachable_container_maintenance Scenario.legacy_only_unreachable
           ConfigChanged false Scenario.start Scenario.after_leader
           Scenario.after_interfaces Scenario.after_config Scenario.interfaces
           Scenario.generated_config).
  - reflexivity.
  - vm_compute. reflexivity.
  - vm_compute. reflexivity.
  - vm_compute. reflexivity.
Defined.

(** ** The endpoints value of the modern path *)

Lemma py_split_length sep s : length (py_split sep s) = S (count_char sep s).
Proof.
  induction s as [| c r IH]; simpl; [reflexivity |].
  destruct (Ascii.eqb c sep); simpl.
  - by rewrite IH.
  - destruct (py_split sep r) as [| p ps]; simpl in *; [discriminate IH | exact IH].
Qed.

(** Exactly one colon: the two pieces are the host and the port. *)
Lemma unpack_host_port_well_formed endpoints w :
  count_char ":" endpoints = 1%nat ->
  exists host port,
    py_split ":" endpoints = [host; port] /\
    unpack_host_port endpoints w = (w, Ret (host, port)).
Proof.
  intros H. pose proof (py_split_length ":" endpoints) as Hlen. rewrite H in Hlen.
  unfold unpack_host_port.
  destruct (py_split ":" endpoints) as [| host [| port [| x xs]]]; try discriminate Hlen.
  by exists host, port.
Qed.

(** No colon, or more than one: the unpacking raises [ValueError]. *)
Lemma unpack_host_port_malformed endpoints w :
  count_char ":" endpoints ≠ 1%nat ->
  exists msg, unpack_host_port endpoints w = (w, Raise (ValueError msg)).
Proof.
  intros H. pose proof (py_split_length ":" endpoints) as Hlen.
  unfold unpack_host_port.
  destruct (py_split ":" endpoints) as [| host [| port [| x xs]]]; simpl in Hlen; eauto.
  exfalso. apply H. by injection Hlen.
Qed.

Lemma _get_relational_db_data_step_malformed db_data val password username endpoints w :
  val !! "password" = Some password ->
  val !! "username" = Some username ->
  val !! "endpoints" = Some endpoints ->
  count_char ":" endpoints ≠ 1%nat ->
  exists msg, _get_relational_db_data_step db_data val w = (w, Raise (ValueError msg)).
Proof.
  intros H1 H2 H3 Hc.
  destruct (unpack_host_port_malformed endpoints w Hc) as [msg Hmsg]. exists msg.
  unfold _get_relational_db_data_step.
  assert (Hne : dict_is_empty val = false).
  { apply dict_is_empty_false. intros ->. by rewrite lookup_empty in H1. }
  rewrite Hne. run. rewrite H1, H2, H3. run.
  unfold unpack_host_port in *.
  destruct (py_split ":" endpoints) as [| host [| port [| x xs]]];
    run; inversion Hmsg; reflexivity.
Qed.

(** A single well-formed record on the modern path: the endpoints value is
    split at its colon into host and port. *)
Lemma _get_db_data_modern_well_formed env r key val password username endpoints w :
  relation_absent env "mysql" ->
  relation_present env "relational-db" r ->
  fetch_relation_data env = [(key, val)] ->
  val !! "password" = Some password ->
  val !! "username" = Some username ->
  val !! "endpoints" = Some endpoints ->
  count_char ":" endpoints = 1%nat ->
  exists host port,
    py_split ":" endpoints = [host; port] /\
    _get_db_data env w =
      (called CFetchRelationData
         (called (CGetRelation "relational-db") (called (CGetRelation "mysql") w)),
       Ret (<["db_port" := port]>
            (<["db_host" := host]>
             (<["db_username" := username]>
              (<["db_password" := password]>
               (<["db_name" := "mlpipeline"]> ∅)))))).
Proof.
  intros Ha Hr Hf H1 H2 H3 Hc.
  set (w1 := called CFetchRelationData
               (called (CGetRelation "relational-db") (called (CGetRelation "mysql") w))).
  destruct (unpack_host_port_well_formed endpoints w1 Hc) as (host & port & Hsplit & Hu).
  exists host, port. split; [exact Hsplit |].
  rewrite (_get_db_data_legacy_generic _ _ _ _ (_get_mysql_data_absent env w Ha)).
  unfold resolve_modern. apply try_except_Ret.
  unfold _get_relational_db_data.
  rewrite (bind_Ret _ _ _ _ _ (_get_db_relation_present _ _ _ _ Hr)).
  unfold bind at 1. unfold call at 1. cbv beta iota.
  rewrite Hf. simpl fmap. unfold _get_relational_db_data_loop.
  assert (Hne : dict_is_empty val = false).
  { apply dict_is_empty_false. intros ->. by rewrite lookup_empty in H1. }
  assert (Hstep : _get_relational_db_data_step ∅ val w1 =
                  (w1, Ret (<["db_port" := port]>
                            (<["db_host" := host]>
                             (<["db_username" := username]>
                              (<["db_password" := password]>
                               (<["db_name" := "mlpipeline"]> ∅))))))).
  { unfold _get_relational_db_data_step. rewrite Hne. run. rewrite H1, H2, H3. run.
    fold w1. rewrite Hu. reflexivity. }
  fold w1. rewrite (bind_Ret _ _ _ _ _ (bind_Ret _ _ _ _ _ Hstep)).
  unfold ret at 1.
  assert (Hfull : dict_is_empty
                    (<["db_port" := port]>
                     (<["db_host" := host]>
                      (<["db_username" := username]>
                       (<["db_password" := password]>
                        (<["db_name" := "mlpipeline"]> (∅ : sdict)))))) = false).
  { apply dict_is_empty_false. apply insert_non_empty. }
  rewrite Hfull. reflexivity.
Qed.

(** C7, on the code: on the modern (relational-db) path, with the legacy
    relation absent, an endpoints value that is not "host:port" with a single
    colon (no colon, or several) does not make the resolution fail with
    Waiting status.  The [ValueError] of the unpacking is not among the
    exceptions the code catches, and it leaves [_get_db_data] uncaught. *)
Theorem C7_malformed_endpoints_raise_ValueError
    env r key val rest password username endpoints w :
  relation_absent env "mysql" ->
  relation_present env "relational-db" r ->
  fetch_relation_data env = (key, val) :: rest ->
  val !! "password" = Some password ->
  val !! "username" = Some username ->
  val !! "endpoints" = Some endpoints ->
  count_char ":" endpoints ≠ 1%nat ->
  exists msg,
    _get_db_data env w =
      (called CFetchRelationData
         (called (CGetRelation "relational-db") (called (CGetRelation "mysql") w)),
       Raise (ValueError msg)).
Proof.
  intros Ha Hr Hf H1 H2 H3 Hc.
  rewrite (_get_db_data_legacy_generic _ _ _ _ (_get_mysql_data_absent env w Ha)).
  set (w1 := called CFetchRelationData
               (called (CGetRelation "relational-db") (called (CGetRelation "mysql") w))).
  destruct (_get_relational_db_data_step_malformed ∅ val password username endpoints w1
              H1 H2 H3 Hc) as [msg Hstep].
  exists msg. unfold resolve_modern.
  apply try_except_uncaught; [| reflexivity].
  unfold _get_relational_db_data.
  rewrite (bind_Ret _ _ _ _ _ (_get_db_relation_present _ _ _ _ Hr)).
  unfold bind at 1. unfold call at 1. cbv beta iota.
  apply bind_Raise. rewrite Hf. simpl.
  apply bind_Raise. exact Hstep.
Qed.

Lemma C7_witness :
  exists msg,
    _get_db_data Scenario.modern_malformed Scenario.start =
      (called CFetchRelationData
         (called (CGetRelation "relational-db")
            (called (CGetRelation "mysql") Scenario.start)),
       Raise (ValueError msg)).
Proof.
  apply (C7_malformed_endpoints_raise_ValueError Scenario.modern_malformed Scenario.modern
           2 (Scenario.modern_data "mysql-k8s") [] "secret" "kfp" "mysql-k8s").
  - right. reflexivity.
  - reflexivity.
  - reflexivity.
  - reflexivity.
  - reflexivity.
  - reflexivity.
  - simpl. lia.
Defined.

(** The failing input, end to end: a config-changed trigger on a leader unit
    whose relational-db relation offers an endpoints value without a colon
    aborts with an uncaught [ValueError]; the unit status is left as it
    was. *)
Lemma C7_failing_input_aborts_trigger :
  snd (dispatch Scenario.modern_malformed ConfigChanged Scenario.start) =
    Raise (ValueError "not enough values to unpack (expected 2, got 1)") /\
  unit_status (fst (dispatch Scenario.modern_malformed ConfigChanged Scenario.start)) =
    unit_status Scenario.start.
Proof. split; vm_compute; reflexivity. Qed.

(** ** The periodic trigger *)

(** [_on_event] lets no status-carrying error out, so the handler around it
    in [_on_update_status] never runs. *)
Lemma _on_event_catches env event force_conflicts :
  catches_status_errors (_on_event env event force_conflicts).
Proof.
  intros w w' msg t. unfold _on_event. unfold bind at 1. unfold try_except.
  destruct (bind (_on_event_pipeline env force_conflicts) (fun _ => ret true) w)
    as [w1 [b | e]].
  - destruct b; discriminate.
  - destruct e; discriminate.
Qed.

(** A pass that ends neither Waiting nor Blocked was run by the leader. *)
Lemma _on_event_not_waiting_is_leader env event force_conflicts w w1 o :
  _on_event env event force_conflicts w = (w1, o) ->
  is_waiting (unit_status w1) = false ->
  is_leader env = true.
Proof.
  intros H Hw. destruct (is_leader env) eqn:E; [reflexivity |].
  assert (Hp : _on_event_pipeline env force_conflicts w =
               (logged WARNING "Not a leader, skipping setup" (called CIsLeader w),
                Raise (ErrorWithStatus "Waiting for leadership" WaitingStatus))).
  { unfold _on_event_pipeline, _check_leader, unit_is_leader. run. rewrite E. reflexivity. }
  rewrite (_on_event_status_error _ _ _ _ _ _ _ Hp) in H.
  injection H as <- _. discriminate Hw.
Qed.

Lemma _check_status_leader env w :
  is_leader env = true ->
  _check_status env w =
    match get_check env with
    | GcCheck UP =>
        (with_status (mkStatus ActiveStatus "")
           (called (CGetCheck "kfp-api-up") (called CIsLeader w)), Ret tt)
    | GcCheck DOWN =>
        (logged ERROR
           "Container ml-pipeline-api-server failed health check. It will be restarted."
           (called (CGetCheck "kfp-api-up") (called CIsLeader w)),
         Raise (ErrorWithStatus "Workload failed health check" MaintenanceStatus))
    | GcModelError _ =>
        (called (CGetCheck "kfp-api-up") (called CIsLeader w),
         Raise (GenericCharmRuntimeError "Failed to run health check on workload container"))
    end.
Proof.
  intros H. unfold _check_status, _check_leader, unit_is_leader. run. rewrite H. run.
  destruct (get_check env) as [[] |]; reflexivity.
Qed.

(** [_on_update_status] after a pass that returned. *)
Lemma _on_update_status_after_pass env event w w1 :
  _on_event env event false w = (w1, Ret tt) ->
  _on_update_status env event w =
    if is_waiting (unit_status w1) || is_blocked (unit_status w1) then (w1, Ret tt)
    else
      bind
        (try_except (_check_status env;; ret true)
           (fun err => match err with
                       | ErrorWithStatus msg t => Some (
                           set_status (exn_status msg t);;
                           logger ERROR ("Failed update status with error: " +:+ exn_str err);;
                           ret false)
                       | _ => None
                       end))
        (fun continue : bool =>
           if continue then set_status (mkStatus ActiveStatus "") else ret tt) w1.
Proof.
  intros H. unfold _on_update_status. unfold bind at 1. unfold try_except at 1.
  rewrite (bind_Ret _ _ _ _ _ H). unfold ret at 1. cbv beta iota.
  unfold negb. cbv beta iota. unfold bind at 1. unfold get_status. cbv beta iota.
  destruct (is_waiting (unit_status w1) || is_blocked (unit_status w1)); reflexivity.
Qed.

(** C8: on the periodic update-status trigger the full pipeline runs first.
    If the pass leaves the unit Waiting or Blocked, the health check is
    skipped and that status remains.  Otherwise the health check runs, right
    after the calls of the pass: a failing check makes the final status
    Maintenance ("Workload failed health check") rather than Active, a
    passing check makes it Active. *)
Theorem C8_update_status_health_check env w w1 :
  _on_event env UpdateStatus false w = (w1, Ret tt) ->
  (is_waiting (unit_status w1) || is_blocked (unit_status w1) = true ->
   dispatch env UpdateStatus w = (w1, Ret tt)) /\
  (is_waiting (unit_status w1) || is_blocked (unit_status w1) = false ->
   exists w2 o,
     dispatch env UpdateStatus w = (w2, o) /\
     calls w2 = (calls w1 ++ [CIsLeader; CGetCheck "kfp-api-up"])%list /\
     (get_check env = GcCheck DOWN ->
      o = Ret tt /\
      unit_status w2 = mkStatus MaintenanceStatus "Workload failed health check") /\
     (get_check env = GcCheck UP ->
      o = Ret tt /\ unit_status w2 = mkStatus ActiveStatus "")).
Proof.
  intros H. change (dispatch env UpdateStatus) with (_on_update_status env UpdateStatus).
  rewrite (_on_update_status_after_pass _ _ _ _ H). split.
  - intros ->. reflexivity.
  - intros Hs. rewrite Hs.
    assert (Hl : is_leader env = true).
    { apply (_on_event_not_waiting_is_leader _ _ _ _ _ _ H).
      by apply orb_false_iff in Hs as [? _]. }
    unfold bind at 1. unfold try_except. unfold bind at 1.
    rewrite (_check_status_leader _ _ Hl).
    destruct (get_check env) as [[] | msg]; run.
    + do 2 eexists. split; [reflexivity |]. split; [simpl; by rewrite <- app_assoc |].
      split; [discriminate | done].
    + do 2 eexists. split; [reflexivity |]. split; [simpl; by rewrite <- app_assoc |].
      split; [done | discriminate].
    + do 2 eexists. split; [reflexivity |]. split; [simpl; by rewrite <- app_assoc |].
      split; discriminate.
Qed.

Lemma C8_witness :
  exists w2 o,
    dispatch Scenario.legacy_only_unhealthy UpdateStatus Scenario.start = (w2, o) /\
    calls w2 =
      (calls (fst (_on_event Scenario.legacy_only_unhealthy UpdateStatus false
                     Scenario.start)) ++ [CIsLeader; CGetCheck "kfp-api-up"])%list /\
    (get_check Scenario.legacy_only_unhealthy = GcCheck DOWN ->
     o = Ret tt /\
     unit_status w2 = mkStatus MaintenanceStatus "Workload failed health check") /\
    (get_check Scenario.legacy_only_unhealthy = GcCheck UP ->
     o = Ret tt /\ unit_status w2 = mkStatus ActiveStatus "").
Proof.
  refine (proj2 (C8_update_status_health_check Scenario.legacy_only_unhealthy
                   Scenario.start
                   (fst (_on_event Scenario.legacy_only_unhealthy UpdateStatus false
                           Scenario.start)) _) _).
  - vm_compute. reflexivity.
  - vm_compute. reflexivity.
Defined.

(** The two scenarios of the specification: a pass that ends Blocked for
    want of a database relation skips the health check, and a pass that ends
    Active with a failing health check ends in Maintenance. *)
Lemma update_status_scenarios :
  dispatch Scenario.no_database UpdateStatus Scenario.start =
    _on_event Scenario.no_database UpdateStatus false Scenario.start /\
  unit_status (fst (dispatch Scenario.no_database UpdateStatus Scenario.start)) =
    mkStatus BlockedStatus "Please add required database relation: eg. relational-db" /\
  (CGetCheck "kfp-api-up" ∉
     calls (fst (dispatch Scenario.no_database UpdateStatus Scenario.start))) /\
  unit_status (fst (_on_event Scenario.legacy_only_unhealthy UpdateStatus false
                      Scenario.start)) = mkStatus ActiveStatus "" /\
  unit_status (fst (dispatch Scenario.legacy_only_unhealthy UpdateStatus Scenario.start)) =
    mkStatus MaintenanceStatus "Workload failed health check".
Proof.
  split; [vm_compute; reflexivity |]. split; [vm_compute; reflexivity |].
  split; [| split; vm_compute; reflexivity].
  intros H. apply list_elem_of_In in H. vm_compute in H.
  repeat (destruct H as [H | H]; [discriminate H |]). exact H.
Qed.

(** ** Where status-carrying errors are caught *)

Section Catches.

Context {A B : Type}.

Lemma catches_ret (a : A) : catches_status_errors (ret a).
Proof. intros w w' msg t. discriminate. Qed.

Lemma catches_raise (e : exn) :
  is_ErrorWithStatus e = false -> catches_status_errors (@raise A e).
Proof. intros He w w' msg t [= _ ->]. discriminate He. Qed.

Lemma catches_bind (m : M A) (k : A -> M B) :
  catches_status_errors m -> (forall a, catches_status_errors (k a)) ->
  catches_status_errors (bind m k).
Proof.
  intros Hm Hk w w2 msg t H.
  apply bind_inv in H as [(e & H & [= <-]) | (w1 & a & H & H')].
  - by apply Hm in H.
  - by apply Hk in H'.
Qed.

(** A [try] whose body raises no status-carrying error: only the handlers
    matter. *)
Lemma catches_try_except (m : M A) h :
  catches_status_errors m ->
  (forall e, match h e with Some k => catches_status_errors k | None => True end) ->
  catches_status_errors (try_except m h).
Proof.
  intros Hm Hh w w2 msg t. unfold try_except.
  destruct (m w) as [w1 [a | e]] eqn:E; [discriminate |].
  specialize (Hh e). destruct (h e) as [k |].
  - apply Hh.
  - intros [= <- ->]. by apply Hm in E.
Qed.

(** A [try] with a clause for the status-carrying errors. *)
Lemma catches_try_except_handled (m : M A) h :
  (forall e, match h e with
             | Some k => catches_status_errors k
             | None => is_ErrorWithStatus e = false
             end) ->
  catches_status_errors (try_except m h).
Proof.
  intros Hh w w2 msg t. unfold try_except.
  destruct (m w) as [w1 [a | e]] eqn:E; [discriminate |].
  specialize (Hh e). destruct (h e) as [k |].
  - apply Hh.
  - intros [= <- ->]. discriminate Hh.
Qed.

End Catches.

Lemma catches_call c : catches_status_errors (call c).
Proof. intros w w' msg t. discriminate. Qed.

Lemma catches_logger l msg : catches_status_errors (logger l msg).
Proof. intros w w' msg' t. discriminate. Qed.

Lemma catches_set_status s : catches_status_errors (set_status s).
Proof. intros w w' msg t. discriminate. Qed.

Lemma catches_get_status : catches_status_errors get_status.
Proof. intros w w' msg t. discriminate. Qed.

Lemma catches_getitem {V} (d : gmap string V) k : catches_status_errors (getitem d k).
Proof.
  unfold getitem. destruct (d !! k); [apply catches_ret | by apply catches_raise].
Qed.

Create HintDb catches.

#[local] Hint Resolve catches_call catches_logger catches_set_status catches_get_status
  _on_event_catches : catches.
#[local] Hint Extern 0 (catches_status_errors (getitem _ _)) =>
  apply catches_getitem : catches.
#[local] Hint Extern 0 (catches_status_errors (ret _)) => apply catches_ret : catches.
#[local] Hint Extern 0 (catches_status_errors (raise _)) =>
  apply catches_raise; reflexivity : catches.

Ltac catches_tac :=
  repeat first
    [ progress intros
    | exact I
    | solve [auto with catches]
    | apply catches_bind
    | apply catches_try_except
    | match goal with
      | |- catches_status_errors (match ?x with _ => _ end) => destruct x
      | |- match (match ?e with _ => _ end) with _ => _ end => destruct e
      | |- match (if ?c then _ else _) with _ => _ end => destruct c
      end ].

Lemma catches__apply_k8s_resources env force_conflicts :
  catches_status_errors (_apply_k8s_resources env force_conflicts).
Proof.
  unfold _apply_k8s_resources, k8s_apply, _check_and_report_k8s_conflict. catches_tac.
Qed.

Lemma catches__on_remove env : catches_status_errors (_on_remove env).
Proof. unfold _on_remove. catches_tac. Qed.

Lemma catches__on_update_status env event :
  catches_status_errors (_on_update_status env event).
Proof.
  unfold _on_update_status. apply catches_bind; [catches_tac |].
  intros continue. destruct (negb continue); [catches_tac |].
  apply catches_bind; [catches_tac |]. intros status.
  destruct (is_waiting status || is_blocked status); [catches_tac |].
  apply catches_bind; [| catches_tac].
  apply catches_try_except_handled. intros []; try reflexivity. catches_tac.
Qed.

Lemma catches__on_relational_db_relation env event :
  catches_status_errors (_on_relational_db_relation env event).
Proof. unfold _on_relational_db_relation, model_get_relation. catches_tac. Qed.

Lemma catches__on_mysql_relation_remove env event :
  catches_status_errors (_on_mysql_relation_remove env event).
Proof. unfold _on_mysql_relation_remove. catches_tac. Qed.

Lemma catches__on_relational_db_relation_remove env event :
  catches_status_errors (_on_relational_db_relation_remove env event).
Proof. unfold _on_relational_db_relation_remove. catches_tac. Qed.

(** The one place where a status-carrying error gets out of a handler. *)
Lemma _on_mysql_relation_too_many env event rs w :
  relations env !! "mysql" = Some rs -> (1 < length rs)%nat ->
  _on_mysql_relation env event w =
    (called (CRelations "mysql") w,
     Raise (ErrorWithStatus "Too many mysql relations. Relation mysql is deprecated."
              BlockedStatus)).
Proof.
  intros Hrs Hlen. unfold _on_mysql_relation, model_relations, getitem. rewrite Hrs. run.
  apply Nat.ltb_lt in Hlen. rewrite Hlen. reflexivity.
Qed.

Lemma model_relations_Ret env name w w1 rs :
  model_relations env name w = (w1, Ret rs) -> relations env !! name = Some rs.
Proof.
  unfold model_relations, getitem. run.
  destruct (relations env !! name); intros [= _ <-]; reflexivity.
Qed.

Lemma catches_model_relations env name : catches_status_errors (model_relations env name).
Proof. unfold model_relations. catches_tac. Qed.

Lemma _on_mysql_relation_status_error env event w w' msg t :
  _on_mysql_relation env event w = (w', Raise (ErrorWithStatus msg t)) ->
  exists rs, relations env !! "mysql" = Some rs /\ (1 < length rs)%nat.
Proof.
  intros H. unfold _on_mysql_relation in H.
  apply bind_inv in H as [(e & H & [= <-]) | (w1 & rs & H & H')].
  - by apply catches_model_relations in H.
  - exists rs. split; [by eapply model_relations_Ret |].
    cbv beta in H'. destruct (1 <? length rs)%nat eqn:Hlen; [by apply Nat.ltb_lt |].
    exfalso. revert H'.
    match goal with
    | |- ?m ?w0 = _ -> False => assert (Hc : catches_status_errors m); [| apply Hc]
    end.
    unfold model_get_relation. catches_tac.
Qed.

(** No handler but [_on_mysql_relation] lets a status-carrying error out. *)
Lemma dispatch_status_error env event w w' msg t :
  dispatch env event w = (w', Raise (ErrorWithStatus msg t)) ->
  (event = RelationJoined "mysql" \/ event = RelationChanged "mysql") /\
  _on_mysql_relation env event w = (w', Raise (ErrorWithStatus msg t)).
Proof.
  unfold dispatch.
  destruct event as [| | | | | | | name | name | name | name | |];
    repeat case_bool_decide; subst; try (intros Hd; split; [by auto | exact Hd]);
    intros Hd; exfalso; revert Hd;
    first [ apply _on_event_catches
          | apply catches__apply_k8s_resources
          | apply catches__on_remove
          | apply catches__on_update_status
          | apply catches__on_relational_db_relation
          | apply catches__on_mysql_relation_remove
          | apply catches__on_relational_db_relation_remove
          | apply (catches_ret tt) ].
Qed.

(** C10: if more than one mysql relation is established, the mysql
    relation-joined/changed handler raises a status-carrying error (Blocked,
    "Too many mysql relations") that nothing catches: the trigger aborts with
    it and the unit status is left as it was, not set to Blocked.  This is
    the only way a status-carrying error leaves a handler: whenever the
    pipeline raises one, [_on_event] records its status as the unit status and
    returns normally. *)
Theorem C10_too_many_mysql_relations_uncaught env event w :
  (forall rs,
      event = RelationJoined "mysql" \/ event = RelationChanged "mysql" ->
      relations env !! "mysql" = Some rs -> (1 < length rs)%nat ->
      exists w',
        dispatch env event w =
          (w', Raise (ErrorWithStatus "Too many mysql relations. Relation mysql is deprecated."
                        BlockedStatus)) /\
        unit_status w' = unit_status w /\
        log w' = log w) /\
  (forall w' msg t,
      dispatch env event w = (w', Raise (ErrorWithStatus msg t)) ->
      (event = RelationJoined "mysql" \/ event = RelationChanged "mysql") /\
      exists rs, relations env !! "mysql" = Some rs /\ (1 < length rs)%nat) /\
  (forall force_conflicts w1 msg t,
      _on_event_pipeline env force_conflicts w = (w1, Raise (ErrorWithStatus msg t)) ->
      exists w2,
        _on_event env event force_conflicts w = (w2, Ret tt) /\
        unit_status w2 = mkStatus t msg).
Proof.
  split; [| split].
  - intros rs He Hrs Hlen.
    assert (Hd : dispatch env event = _on_mysql_relation env event)
      by (destruct He as [-> | ->]; reflexivity).
    eexists. split.
    + rewrite Hd. exact (_on_mysql_relation_too_many env event rs w Hrs Hlen).
    + split; reflexivity.
  - intros w' msg t H. apply dispatch_status_error in H as [He H].
    split; [exact He |]. by eapply _on_mysql_relation_status_error.
  - intros force_conflicts w1 msg t H. eexists. split.
    + by apply _on_event_status_error.
    + reflexivity.
Qed.

Lemma C10_witness :
  exists w',
    dispatch Scenario.two_mysql (RelationJoined "mysql") Scenario.start =
      (w', Raise (ErrorWithStatus "Too many mysql relations. Relation mysql is deprecated."
                    BlockedStatus)) /\
    unit_status w' = unit_status Scenario.start /\
    log w' = log Scenario.start.
Proof.
  refine (proj1 (C10_too_many_mysql_relations_uncaught Scenario.two_mysql
                   (RelationJoined "mysql") Scenario.start)
            [Scenario.legacy Scenario.mysql_complete; Scenario.legacy Scenario.mysql_complete]
            _ _ _).
  - left. reflexivity.
  - reflexivity.
  - simpl. lia.
Defined.

(** * Further properties of the code *)

Set Warnings "-clear-no-such-hyp".

(** ** More on running the monad *)

Lemma try_except_inv {A} (m : M A) h w w2 o :
  try_except m h w = (w2, o) ->
  (exists a, m w = (w2, Ret a) /\ o = Ret a) \/
  (exists w1 e k, m w = (w1, Raise e) /\ h e = Some k /\ k w1 = (w2, o)) \/
  (exists e, m w = (w2, Raise e) /\ h e = None /\ o = Raise e).
Proof.
  unfold try_except. destruct (m w) as [w1 [a | e]].
  - intros [= <- <-]. left. eauto.
  - destruct (h e) as [k |] eqn:E.
    + intros H. right. left. eauto 8.
    + intros [= <- <-]. right. right. eauto.
Qed.

Lemma bind_getitem_Ret {V B} (d : gmap string V) k (f : V -> M B) w w' b :
  bind (getitem d k) f w = (w', Ret b) ->
  exists v, d !! k = Some v /\ f v w = (w', Ret b).
Proof.
  unfold bind, getitem. destruct (d !! k) as [v |]; [eauto | discriminate].
Qed.

(** Two continuations that agree give the same bound computation. *)
Lemma bind_ext {A B} (m : M A) (k k' : A -> M B) w :
  (forall a w1, k a w1 = k' a w1) -> bind m k w = bind m k' w.
Proof. intros H. unfold bind. destruct (m w) as [w1 [a | e]]; [apply H | reflexivity]. Qed.

(** ** Which calls a computation makes *)

Section OnlyCalls.

Context {A B : Type} (P : Call -> bool).

Lemma only_calls_ret (a : A) : only_calls P (ret a).
Proof. intros w w' o [= <- <-]. exists []. by rewrite app_nil_r. Qed.

Lemma only_calls_raise (e : exn) : only_calls P (@raise A e).
Proof. intros w w' o [= <- <-]. exists []. by rewrite app_nil_r. Qed.

Lemma only_calls_bind (m : M A) (k : A -> M B) :
  only_calls P m -> (forall a, only_calls P (k a)) -> only_calls P (bind m k).
Proof.
  intros Hm Hk w w2 o H.
  apply bind_inv in H as [(e & H & ->) | (w1 & a & H & H')].
  - by apply Hm in H.
  - apply Hm in H as (t1 & H1 & F1). apply Hk in H' as (t2 & H2 & F2).
    exists (t1 ++ t2)%list. split; [by rewrite H2, H1, app_assoc |].
    rewrite forallb_app, F1, F2. reflexivity.
Qed.

Lemma only_calls_try_except (m : M A) h :
  only_calls P m ->
  (forall e, match h e with Some k => only_calls P k | None => True end) ->
  only_calls P (try_except m h).
Proof.
  intros Hm Hh w w2 o H.
  apply try_except_inv in H
    as [(a & H & ->) | [(w1 & e & k & H & Hk & H') | (e & H & _ & ->)]].
  - by apply Hm in H.
  - specialize (Hh e). rewrite Hk in Hh.
    apply Hm in H as (t1 & H1 & F1). apply Hh in H' as (t2 & H2 & F2).
    exists (t1 ++ t2)%list. split; [by rewrite H2, H1, app_assoc |].
    rewrite forallb_app, F1, F2. reflexivity.
  - by apply Hm in H.
Qed.

Lemma only_calls_call c : P c = true -> only_calls P (call c).
Proof. intros Hc w w' o [= <- <-]. exists [c]. simpl. by rewrite Hc. Qed.

Lemma only_calls_logger l msg : only_calls P (logger l msg).
Proof. intros w w' o [= <- <-]. exists []. simpl. by rewrite app_nil_r. Qed.

Lemma only_calls_set_status s : only_calls P (set_status s).
Proof. intros w w' o [= <- <-]. exists []. simpl. by rewrite app_nil_r. Qed.

Lemma only_calls_get_status : only_calls P get_status.
Proof. intros w w' o [= <- <-]. exists []. by rewrite app_nil_r. Qed.

Lemma only_calls_getitem {V} (d : gmap string V) k : only_calls P (getitem d k).
Proof.
  unfold getitem. intros w w' o.
  destruct (d !! k); intros [= <- <-]; exists []; by rewrite app_nil_r.
Qed.

End OnlyCalls.

Create HintDb only_calls.

#[local] Hint Resolve only_calls_logger only_calls_set_status only_calls_get_status
  : only_calls.
#[local] Hint Extern 0 (only_calls _ (getitem _ _)) => apply only_calls_getitem : only_calls.
#[local] Hint Extern 0 (only_calls _ (ret _)) => apply only_calls_ret : only_calls.
#[local] Hint Extern 0 (only_calls _ (raise _)) => apply only_calls_raise : only_calls.
#[local] Hint Extern 0 (only_calls _ (call _)) =>
  apply only_calls_call; reflexivity : only_calls.

Ltac only_calls_tac :=
  repeat first
    [ progress intros
    | exact I
    | solve [auto with only_calls]
    | apply only_calls_bind
    | apply only_calls_try_except
    | match goal with
      | |- only_calls _ (match ?x with _ => _ end) => destruct x
      | |- match (match ?e with _ => _ end) with _ => _ end => destruct e
      | |- match (if ?c then _ else _) with _ => _ end => destruct c
      | |- match log_and_reraise _ ?e with _ => _ end =>
          unfold log_and_reraise; destruct e
      end ].

Lemma only_calls__get_db_relation P env name :
  P (CGetRelation name) = true -> only_calls P (_get_db_relation env name).
Proof.
  intros HP. unfold _get_db_relation, model_get_relation.
  apply only_calls_bind; [| only_calls_tac].
  apply only_calls_try_except; [| only_calls_tac].
  apply only_calls_bind; [by apply only_calls_call | only_calls_tac].
Qed.

Lemma only_calls__get_relational_db_data_loop P vals db_data :
  only_calls P (_get_relational_db_data_loop db_data vals).
Proof.
  intros w w' o H. apply _get_relational_db_data_loop_quiet in H as [H _].
  exists []. by rewrite app_nil_r.
Qed.

(** Database resolution only reads: it looks relations up and fetches the
    data of the database library. *)
Lemma only_calls__get_db_data env : only_calls is_data_read (_get_db_data env).
Proof.
  assert (Hl : only_calls is_data_read (_get_mysql_data env)).
  { unfold _get_mysql_data.
    apply only_calls_bind; [by apply only_calls__get_db_relation |].
    intros r. destruct (_get_mysql_data_try r) as [rd [e | d]]; only_calls_tac. }
  assert (Hm : only_calls is_data_read (_get_relational_db_data env)).
  { unfold _get_relational_db_data.
    apply only_calls_bind; [by apply only_calls__get_db_relation |]. intros _.
    apply only_calls_bind; [only_calls_tac |]. intros _.
    apply only_calls_bind; [apply only_calls__get_relational_db_data_loop |].
    only_calls_tac. }
  unfold _get_db_data. apply only_calls_try_except; [exact Hl |].
  intros []; try exact I; [only_calls_tac |].
  apply only_calls_try_except; [exact Hm | only_calls_tac].
Qed.

Lemma only_calls__validate_sdi_interface interfaces name default_return :
  only_calls is_data_read (_validate_sdi_interface interfaces name default_return).
Proof. unfold _validate_sdi_interface, sdi_get_data. only_calls_tac. Qed.

(** ** Which computations leave the status alone *)

Section KeepsStatus.

Context {A B : Type}.

Lemma keeps_status_ret (a : A) : keeps_status (ret a).
Proof. by intros w w' o [= <- <-]. Qed.

Lemma keeps_status_raise (e : exn) : keeps_status (@raise A e).
Proof. by intros w w' o [= <- <-]. Qed.

Lemma keeps_status_bind (m : M A) (k : A -> M B) :
  keeps_status m -> (forall a, keeps_status (k a)) -> keeps_status (bind m k).
Proof.
  intros Hm Hk w w2 o H.
  apply bind_inv in H as [(e & H & ->) | (w1 & a & H & H')].
  - by apply Hm in H.
  - apply Hm in H. apply Hk in H'. congruence.
Qed.

Lemma keeps_status_try_except (m : M A) h :
  keeps_status m ->
  (forall e, match h e with Some k => keeps_status k | None => True end) ->
  keeps_status (try_except m h).
Proof.
  intros Hm Hh w w2 o H.
  apply try_except_inv in H
    as [(a & H & ->) | [(w1 & e & k & H & Hk & H') | (e & H & _ & ->)]].
  - by apply Hm in H.
  - specialize (Hh e). rewrite Hk in Hh. apply Hm in H. apply Hh in H'. congruence.
  - by apply Hm in H.
Qed.

End KeepsStatus.

Lemma keeps_status_call c : keeps_status (call c).
Proof. by intros w w' o [= <- <-]. Qed.

Lemma keeps_status_logger l msg : keeps_status (logger l msg).
Proof. by intros w w' o [= <- <-]. Qed.

Lemma keeps_status_getitem {V} (d : gmap string V) k : keeps_status (getitem d k).
Proof. unfold getitem. intros w w' o. by destruct (d !! k); intros [= <- <-]. Qed.

Create HintDb keeps_status.

#[local] Hint Resolve keeps_status_call keeps_status_logger : keeps_status.
#[local] Hint Extern 0 (keeps_status (getitem _ _)) =>
  apply keeps_status_getitem : keeps_status.
#[local] Hint Extern 0 (keeps_status (ret _)) => apply keeps_status_ret : keeps_status.
#[local] Hint Extern 0 (keeps_status (raise _)) => apply keeps_status_raise : keeps_status.

Ltac keeps_status_tac :=
  repeat first
    [ progress intros
    | exact I
    | solve [auto with keeps_status]
    | apply keeps_status_bind
    | apply keeps_status_try_except
    | match goal with
      | |- keeps_status (match ?x with _ => _ end) => destruct x
      | |- match (match ?e with _ => _ end) with _ => _ end => destruct e
      | |- match (if ?c then _ else _) with _ => _ end => destruct c
      end ].

Lemma keeps_status__get_db_data env : keeps_status (_get_db_data env).
Proof.
  assert (Hr : forall name, keeps_status (_get_db_relation env name)).
  { intros name. unfold _get_db_relation, model_get_relation. keeps_status_tac. }
  assert (Hl : keeps_status (_get_mysql_data env)).
  { unfold _get_mysql_data. apply keeps_status_bind; [apply Hr |].
    intros r. destruct (_get_mysql_data_try r) as [rd [e | d]]; keeps_status_tac. }
  assert (Hm : keeps_status (_get_relational_db_data env)).
  { unfold _get_relational_db_data.
    apply keeps_status_bind; [apply Hr |]. intros _.
    apply keeps_status_bind; [keeps_status_tac |]. intros _.
    apply keeps_status_bind; [| keeps_status_tac].
    intros w w' o H. by apply _get_relational_db_data_loop_quiet in H as [_ H]. }
  unfold _get_db_data. apply keeps_status_try_except; [exact Hl |].
  intros []; try exact I; [keeps_status_tac |].
  apply keeps_status_try_except; [exact Hm | keeps_status_tac].
Qed.

Lemma keeps_status__validate_sdi_interface interfaces name default_return :
  keeps_status (_validate_sdi_interface interfaces name default_return).
Proof. unfold _validate_sdi_interface, sdi_get_data. keeps_status_tac. Qed.

#[local] Hint Resolve keeps_status__get_db_data keeps_status__validate_sdi_interface
  : keeps_status.

Lemma keeps_status__generate_config env interfaces :
  keeps_status (_generate_config env interfaces).
Proof. unfold _generate_config, _get_object_storage, _get_viz. keeps_status_tac. Qed.

#[local] Hint Resolve only_calls__get_db_data only_calls__validate_sdi_interface
  : only_calls.

Lemma only_calls__generate_config env interfaces :
  only_calls is_data_read (_generate_config env interfaces).
Proof. unfold _generate_config, _get_object_storage, _get_viz. only_calls_tac. Qed.

(** X1: generating the configuration has no effect on the workload or the
    cluster: whatever its outcome, the only calls it makes look relations up
    and read relation data, and it leaves the unit status as it was. *)
Theorem X1_generate_config_only_reads env interfaces w :
  unit_status (fst (_generate_config env interfaces w)) = unit_status w /\
  exists trace,
    calls (fst (_generate_config env interfaces w)) = (calls w ++ trace)%list /\
    forallb is_data_read trace = true.
Proof.
  destruct (_generate_config env interfaces w) as [w' o] eqn:E. split.
  - by apply keeps_status__generate_config in E.
  - by apply only_calls__generate_config in E.
Qed.

Lemma only_calls_weaken {A} (P Q : Call -> bool) (m : M A) :
  (forall c, P c = true -> Q c = true) -> only_calls P m -> only_calls Q m.
Proof.
  intros HPQ Hm w w' o H. apply Hm in H as (trace & H & F).
  exists trace. split; [exact H |].
  apply forallb_forall. intros c Hc. apply HPQ.
  by eapply forallb_forall in F.
Qed.

(** ** The forced apply *)

Lemma only_calls__on_event_unforced env event :
  only_calls is_not_forced_apply (_on_event env event false).
Proof.
  assert (Hg : forall interfaces,
             only_calls is_not_forced_apply (_generate_config env interfaces)).
  { intros interfaces. eapply only_calls_weaken; [| apply only_calls__generate_config].
    by intros []. }
  unfold _on_event, _on_event_pipeline, _check_leader, unit_is_leader, _get_interfaces,
    sdi_get_interfaces, _upload_files_to_container, _check_container_connection,
    container_can_connect, container_push, _apply_k8s_resources, k8s_apply,
    _check_and_report_k8s_conflict, _kfp_api_layer, update_layer, _send_info.
  only_calls_tac.
Qed.

Lemma only_calls_dispatch_unforced env event :
  event ≠ UpgradeCharm -> only_calls is_not_forced_apply (dispatch env event).
Proof.
  pose proof (only_calls__on_event_unforced env) as He.
  intros Hne. unfold dispatch.
  destruct event as [| | | | | | | name | name | name | name | |];
    try done; repeat case_bool_decide;
    unfold _on_install, _apply_k8s_resources, k8s_apply, _check_and_report_k8s_conflict,
      _on_remove, _on_update_status, _check_status, _check_leader, unit_is_leader,
      _on_mysql_relation, _on_mysql_relation_remove, _on_relational_db_relation,
      _on_relational_db_relation_remove, model_relations, model_get_relation;
    only_calls_tac.
Qed.

(** X2: only the upgrade trigger can force its way through a conflict: on
    every other trigger, whatever the state of the model and of the cluster,
    the handler never applies the cluster resources with [force]. *)
Theorem X2_forced_apply_only_on_upgrade env event w :
  event ≠ UpgradeCharm ->
  exists trace,
    calls (fst (dispatch env event w)) = (calls w ++ trace)%list /\
    CApply true ∉ trace.
Proof.
  intros Hne. destruct (dispatch env event w) as [w' o] eqn:E.
  apply (only_calls_dispatch_unforced env event Hne) in E as (trace & H & F).
  exists trace. split; [exact H |].
  intros Hin. apply list_elem_of_In in Hin.
  eapply forallb_forall in F; [| exact Hin]. discriminate F.
Qed.

Lemma X2_witness :
  exists trace,
    calls (fst (dispatch Scenario.legacy_only ConfigChanged Scenario.start)) =
      (calls Scenario.start ++ trace)%list /\
    CApply true ∉ trace.
Proof.
  apply (X2_forced_apply_only_on_upgrade Scenario.legacy_only ConfigChanged Scenario.start).
  discriminate.
Defined.

(** ** Converging the cluster resources *)

Ltac run_apply :=
  unfold _apply_k8s_resources, k8s_apply, _check_and_report_k8s_conflict, apply_conflict;
  run.

Lemma _apply_k8s_resources_ok env force_conflicts w :
  apply_result env = ApiOk ->
  _apply_k8s_resources env force_conflicts w =
    (with_status (mkStatus MaintenanceStatus "K8S resources created")
       (called (CApply false)
          (with_status (mkStatus MaintenanceStatus "Creating K8S resources") w)),
     Ret tt).
Proof. intros H. run_apply. rewrite H. reflexivity. Qed.

Lemma _apply_k8s_resources_fatal env force_conflicts w :
  apply_result env ≠ ApiOk ->
  apply_conflict env && force_conflicts = false ->
  exists w',
    _apply_k8s_resources env force_conflicts w =
      (w', Raise (GenericCharmRuntimeError "K8S resources creation failed")) /\
    unit_status w' = mkStatus MaintenanceStatus "Creating K8S resources" /\
    calls w' = (calls w ++ [CApply false])%list.
Proof.
  intros Hne. run_apply.
  destruct (apply_result env) as [| code text]; [done |]. run.
  destruct (code =? 409); run.
  - destruct force_conflicts; [discriminate |]. intros _. run. eauto.
  - intros _. eauto.
Qed.

Lemma _apply_k8s_resources_forced env w :
  apply_conflict env = true ->
  exists w1,
    unit_status w1 = mkStatus MaintenanceStatus "Force applying K8S resources" /\
    calls w1 = (calls w ++ [CApply false; CApply true])%list /\
    _apply_k8s_resources env true w =
      match apply_force_result env with
      | ApiOk => (with_status (mkStatus MaintenanceStatus "K8S resources created") w1, Ret tt)
      | ApiFails code text => (w1, Raise (ApiError code text))
      end.
Proof.
  run_apply. destruct (apply_result env) as [| code text]; [discriminate |].
  intros ->. run.
  eexists. split; [| split]; cycle 2.
  - destruct (apply_force_result env); reflexivity.
  - reflexivity.
  - simpl. by rewrite <- app_assoc.
Qed.

(** X3: the cluster resources are first applied without forcing.  A forced
    apply follows exactly when that first apply failed with a conflict (status
    code 409) and the caller asked for forcing. *)
Theorem X3_forced_apply_needs_conflict_and_request env force_conflicts w :
  exists trace,
    calls (fst (_apply_k8s_resources env force_conflicts w)) =
      (calls w ++ CApply false :: trace)%list /\
    (CApply true ∈ trace <-> apply_conflict env = true /\ force_conflicts = true).
Proof.
  destruct (apply_result env) as [| code text] eqn:Hr.
  - exists []. rewrite (_apply_k8s_resources_ok _ _ _ Hr). split; [done |].
    unfold apply_conflict. rewrite Hr. split; [intros H; by apply elem_of_nil in H |].
    by intros [? _].
  - destruct (apply_conflict env && force_conflicts) eqn:Hc.
    + apply andb_true_iff in Hc as [Hc ->].
      destruct (_apply_k8s_resources_forced env w Hc) as (w1 & _ & Hcalls & ->).
      exists [CApply true]. split.
      * by destruct (apply_force_result env).
      * split; [done |]. intros _. apply elem_of_cons. by left.
    + destruct (_apply_k8s_resources_fatal env force_conflicts w) as (w' & -> & _ & Hcalls);
        [congruence | exact Hc |].
      exists []. split; [done |].
      split; [intros H; by apply elem_of_nil in H |].
      intros [H1 H2]. by rewrite H1, H2 in Hc.
Qed.


Lemma X3_witness :
  exists trace,
    calls (fst (_apply_k8s_resources Cases.conflict true Scenario.start)) =
      (calls Scenario.start ++ CApply false :: trace)%list /\
    (CApply true ∈ trace <-> apply_conflict Cases.conflict = true /\ true = true).
Proof. apply (X3_forced_apply_needs_conflict_and_request Cases.conflict true). Defined.


(** X5: the install trigger applies the cluster resources once, without
    forcing and without asking whether the unit is the leader.  Any failure
    of that apply, a conflict included, is fatal: the handler raises
    [GenericCharmRuntimeError] and the status stays "Creating K8S resources". *)
Theorem X5_install_applies_once_unforced env w :
  calls (fst (dispatch env Install w)) = (calls w ++ [CApply false])%list /\
  (apply_result env = ApiOk ->
   snd (dispatch env Install w) = Ret tt /\
   unit_status (fst (dispatch env Install w)) =
     mkStatus MaintenanceStatus "K8S resources created") /\
  (apply_result env ≠ ApiOk ->
   snd (dispatch env Install w) =
     Raise (GenericCharmRuntimeError "K8S resources creation failed") /\
   unit_status (fst (dispatch env Install w)) =
     mkStatus MaintenanceStatus "Creating K8S resources").
Proof.
  change (dispatch env Install) with (_apply_k8s_resources env false).
  destruct (apply_result env) as [| code text] eqn:Hr.
  - rewrite (_apply_k8s_resources_ok _ _ _ Hr). simpl. split; [done |]. split; done.
  - destruct (_apply_k8s_resources_fatal env false w) as (w' & -> & Hs & Hc);
      [congruence | apply andb_false_r |].
    simpl. split; [done |]. split; [discriminate | done].
Qed.

Lemma X5_witness :
  snd (dispatch Cases.conflict Install Scenario.start) =
    Raise (GenericCharmRuntimeError "K8S resources creation failed") /\
  unit_status (fst (dispatch Cases.conflict Install Scenario.start)) =
    mkStatus MaintenanceStatus "Creating K8S resources".
Proof.
  apply (X5_install_applies_once_unforced Cases.conflict Scenario.start).
  discriminate.
Defined.

(** ** Removing the cluster resources *)

(** X6: the remove trigger renders the manifests and deletes the resources.
    It ends normally, with the status "K8S resources removed", exactly when
    the deletion succeeded or failed with "not found" (404); any other
    [ApiError] is logged and raised again, and the status stays "Removing K8S
    resources". *)
Theorem X6_remove_tolerates_not_found env w :
  calls (fst (dispatch env Remove w)) = (calls w ++ [CRenderManifests; CDeleteMany])%list /\
  (snd (dispatch env Remove w) = Ret tt <->
   delete_many_result env = ApiOk \/
   exists text, delete_many_result env = ApiFails 404 text) /\
  (snd (dispatch env Remove w) = Ret tt ->
   unit_status (fst (dispatch env Remove w)) =
     mkStatus MaintenanceStatus "K8S resources removed" /\
   log (fst (dispatch env Remove w)) = log w) /\
  (forall code text,
      delete_many_result env = ApiFails code text -> code ≠ 404 ->
      snd (dispatch env Remove w) = Raise (ApiError code text) /\
      unit_status (fst (dispatch env Remove w)) =
        mkStatus MaintenanceStatus "Removing K8S resources" /\
      log (fst (dispatch env Remove w)) =
        (log w ++ [(ERROR, "Failed to delete K8S resources, with error: " +:+ text)])%list).
Proof.
  change (dispatch env Remove) with (_on_remove env). unfold _on_remove. run.
  destruct (delete_many_result env) as [| code text] eqn:Hd; run.
  - simpl. rewrite <- app_assoc. split; [done |]. split; [split; auto |].
    split; [done | discriminate].
  - destruct (code =? 404) eqn:Hc; run; simpl; rewrite <- app_assoc.
    + apply Z.eqb_eq in Hc as ->. split; [done |]. split; [split; eauto |].
      split; [done |]. intros code' text' [= <- <-]. done.
    + apply Z.eqb_neq in Hc. split; [done |]. split; [| split].
      * split; [discriminate |]. intros [? | [text' [= ? ?]]]; [discriminate | done].
      * discriminate.
      * intros code' text' [= <- <-] _. done.
Qed.

Lemma X6_witness :
  unit_status (fst (dispatch Cases.already_removed Remove Scenario.start)) =
    mkStatus MaintenanceStatus "K8S resources removed" /\
  log (fst (dispatch Cases.already_removed Remove Scenario.start)) = log Scenario.start.
Proof.
  destruct (X6_remove_tolerates_not_found Cases.already_removed Scenario.start)
    as (_ & Hiff & H & _).
  apply H. apply Hiff. right. exists "not found". reflexivity.
Defined.

(** ** A unit that is not the leader *)

Lemma _on_event_follower env event force_conflicts w :
  is_leader env = false ->
  _on_event env event force_conflicts w =
    (logged ERROR ("Failed to handle " +:+ event_str env event +:+
                   " with error: Waiting for leadership")
       (with_status (mkStatus WaitingStatus "Waiting for leadership")
          (logged WARNING "Not a leader, skipping setup" (called CIsLeader w))),
     Ret tt).
Proof.
  intros H. apply _on_event_status_error.
  unfold _on_event_pipeline, _check_leader, unit_is_leader. run. rewrite H. reflexivity.
Qed.

Lemma only_calls__on_event_follower env event force_conflicts :
  is_leader env = false -> only_calls is_lookup (_on_event env event force_conflicts).
Proof.
  intros H w w' o. rewrite (_on_event_follower _ _ _ _ H). intros [= <- <-].
  by exists [CIsLeader].
Qed.

(** X7: on a unit that is not the leader a reconciliation pass stops at the
    leadership check: it makes no other call and leaves the unit Waiting
    ("Waiting for leadership").  On every trigger but install and remove the
    handler as a whole only asks for the leadership and looks relations up:
    it reads no relation data and touches neither the container nor the
    cluster. *)
Theorem X7_follower_changes_nothing env event w :
  is_leader env = false ->
  (forall force_conflicts,
      unit_status (fst (_on_event env event force_conflicts w)) =
        mkStatus WaitingStatus "Waiting for leadership" /\
      snd (_on_event env event force_conflicts w) = Ret tt /\
      calls (fst (_on_event env event force_conflicts w)) = (calls w ++ [CIsLeader])%list) /\
  (event ≠ Install -> event ≠ Remove ->
   exists trace,
     calls (fst (dispatch env event w)) = (calls w ++ trace)%list /\
     forallb is_lookup trace = true).
Proof.
  intros Hl. split.
  - intros force_conflicts. by rewrite (_on_event_follower _ _ _ _ Hl).
  - intros Hi Hr.
    assert (He : forall ev fc, only_calls is_lookup (_on_event env ev fc))
      by (intros; by apply only_calls__on_event_follower).
    assert (Hd : only_calls is_lookup (dispatch env event)).
    { unfold dispatch.
      destruct event as [| | | | | | | name | name | name | name | |];
        try done; repeat case_bool_decide;
        unfold _on_upgrade, _on_mysql_relation, _on_mysql_relation_remove,
          _on_relational_db_relation, _on_relational_db_relation_remove,
          model_relations, model_get_relation;
        try solve [only_calls_tac].
      (* update-status: the pass ends Waiting, so the health check is skipped *)
      intros w0 w' o. unfold _on_update_status. unfold bind at 1. unfold try_except at 1.
      unfold bind at 1. rewrite (_on_event_follower _ _ _ _ Hl). run.
      intros [= <- <-]. by exists [CIsLeader]. }
    destruct (dispatch env event w) as [w' o] eqn:E. by apply Hd in E.
Qed.

Lemma X7_witness :
  exists trace,
    calls (fst (dispatch (Cases.follower Scenario.legacy_only) (RelationChanged "mysql")
                  Scenario.start)) = (calls Scenario.start ++ trace)%list /\
    forallb is_lookup trace = true.
Proof.
  apply (X7_follower_changes_nothing (Cases.follower Scenario.legacy_only)
           (RelationChanged "mysql") Scenario.start).
  - reflexivity.
  - discriminate.
  - discriminate.
Defined.

(** ** A health check that cannot be run *)

(** X8: on the periodic trigger, when the pass ended neither Waiting nor
    Blocked and the health check of the container cannot be read
    ([ModelError]), the handler raises [GenericCharmRuntimeError], which
    nothing catches: the trigger aborts and the unit keeps the status the pass
    left, it is not set to Active again nor to a failure status. *)
Theorem X8_unreadable_health_check_aborts env w w1 msg :
  _on_event env UpdateStatus false w = (w1, Ret tt) ->
  is_waiting (unit_status w1) || is_blocked (unit_status w1) = false ->
  get_check env = GcModelError msg ->
  dispatch env UpdateStatus w =
    (called (CGetCheck "kfp-api-up") (called CIsLeader w1),
     Raise (GenericCharmRuntimeError "Failed to run health check on workload container")).
Proof.
  intros H Hs Hg.
  change (dispatch env UpdateStatus) with (_on_update_status env UpdateStatus).
  rewrite (_on_update_status_after_pass _ _ _ _ H), Hs.
  assert (Hl : is_leader env = true).
  { apply (_on_event_not_waiting_is_leader _ _ _ _ _ _ H).
    by apply orb_false_iff in Hs as [? _]. }
  unfold bind at 1. unfold try_except. unfold bind at 1.
  rewrite (_check_status_leader _ _ Hl), Hg. reflexivity.
Qed.

Lemma X8_witness :
  dispatch Cases.no_health_check UpdateStatus Scenario.start =
    (called (CGetCheck "kfp-api-up")
       (called CIsLeader
          (fst (_on_event Cases.no_health_check UpdateStatus false Scenario.start))),
     Raise (GenericCharmRuntimeError "Failed to run health check on workload container")).
Proof.
  apply (X8_unreadable_health_check_aborts Cases.no_health_check Scenario.start
           (fst (_on_event Cases.no_health_check UpdateStatus false Scenario.start))
           "check not found").
  - vm_compute. reflexivity.
  - vm_compute. reflexivity.
  - reflexivity.
Defined.

(** ** The relation data validator, case by case *)

(** X9: the validator fails only with status-carrying errors, never with
    another exception.  The status is Waiting exactly when the relation is
    established through the structured interface and no data has been
    exchanged yet; every other failure is Blocked. *)
Theorem X9_validator_failures_carry_status interfaces relation_name default_return w e :
  snd (_validate_sdi_interface interfaces relation_name default_return w) = Raise e ->
  exists msg t,
    e = ErrorWithStatus msg t /\
    (t = WaitingStatus <->
     interfaces !! relation_name = Some (Some (SerializedDataInterface (GdData [])))) /\
    (t ≠ WaitingStatus -> t = BlockedStatus).
Proof.
  unfold _validate_sdi_interface, sdi_get_data.
  destruct (interfaces !! relation_name) as [[[[msg | d] |] |] |]; run.
  - intros [= <-]. do 2 eexists. split; [reflexivity |].
    split; [split; discriminate | done].
  - destruct d as [| [key data_dict] rest].
    + intros [= <-]. do 2 eexists. split; [reflexivity |]. split; [done | done].
    + destruct (bool_decide (size data_dict = 0%nat)); [| discriminate].
      intros [= <-]. do 2 eexists. split; [reflexivity |].
      split; [split; discriminate | done].
  - intros [= <-]. do 2 eexists. split; [reflexivity |].
    split; [split; discriminate | done].
  - destruct default_return; [discriminate |].
    intros [= <-]. do 2 eexists. split; [reflexivity |].
    split; [split; discriminate | done].
  - destruct default_return; [discriminate |].
    intros [= <-]. do 2 eexists. split; [reflexivity |].
    split; [split; discriminate | done].
Qed.

Lemma X9_witness :
  exists msg t,
    ErrorWithStatus "Waiting for kfp-viz relation data" WaitingStatus =
      ErrorWithStatus msg t /\
    (t = WaitingStatus <->
     (<["kfp-viz" := Some (SerializedDataInterface (GdData []))]> ∅ : Interfaces)
       !! "kfp-viz" = Some (Some (SerializedDataInterface (GdData [])))) /\
    (t ≠ WaitingStatus -> t = BlockedStatus).
Proof.
  apply (X9_validator_failures_carry_status
           (<["kfp-viz" := Some (SerializedDataInterface (GdData []))]> ∅)
           "kfp-viz" None Scenario.start).
  vm_compute. reflexivity.
Defined.

(** X10: what the validator returns is either the default, and then nothing
    is related to the relation and no call was made, or the first record the
    structured interface holds, and then that record is not empty. *)
Theorem X10_validator_returns_default_or_first_record
    interfaces relation_name default_return w w' d :
  _validate_sdi_interface interfaces relation_name default_return w = (w', Ret d) ->
  (default_return = Some d /\ w' = w /\
   (interfaces !! relation_name = None \/ interfaces !! relation_name = Some None)) \/
  (exists key rest,
      interfaces !! relation_name =
        Some (Some (SerializedDataInterface (GdData ((key, d) :: rest)))) /\
      d ≠ ∅ /\ w' = called (CGetData relation_name) w).
Proof.
  unfold _validate_sdi_interface, sdi_get_data.
  destruct (interfaces !! relation_name) as [[[[msg | l] |] |] |]; run;
    try discriminate.
  - destruct l as [| [key data_dict] rest]; [discriminate |].
    destruct (bool_decide (size data_dict = 0%nat)) eqn:Hs; [discriminate |].
    intros [= <- <-]. right. exists key, rest. split; [done |]. split; [| done].
    apply bool_decide_eq_false in Hs. intros ->. by rewrite map_size_empty in Hs.
  - destruct default_return; [| discriminate]. intros [= <- <-]. left. auto.
  - destruct default_return; [| discriminate]. intros [= <- <-]. left. auto.
Qed.

Lemma X10_witness :
  (None = Some Scenario.kfp_viz /\
   called (CGetData "kfp-viz") Scenario.start = Scenario.start /\
   (Scenario.interfaces !! "kfp-viz" = None \/ Scenario.interfaces !! "kfp-viz" = Some None)) \/
  (exists key rest,
      Scenario.interfaces !! "kfp-viz" =
        Some (Some (SerializedDataInterface (GdData ((key, Scenario.kfp_viz) :: rest)))) /\
      Scenario.kfp_viz ≠ ∅ /\
      called (CGetData "kfp-viz") Scenario.start = called (CGetData "kfp-viz") Scenario.start).
Proof.
  apply (X10_validator_returns_default_or_first_record Scenario.interfaces "kfp-viz" None
           Scenario.start).
  vm_compute. reflexivity.
Defined.

(** ** The configuration document *)

(** X11: the configuration is generated from the database record, the
    object storage record and the visualisation record, fetched in this
    order, and the first status-carrying failure among the three ends the
    generation: it is logged ("Failed to generate container configuration.")
    and raised again, and the later records are not even asked for. *)
Theorem X11_generate_config_stops_at_first_failure env interfaces w msg t :
  (forall w1,
      _get_db_data env w = (w1, Raise (ErrorWithStatus msg t)) ->
      _generate_config env interfaces w =
        (logged ERROR "Failed to generate container configuration." w1,
         Raise (ErrorWithStatus msg t))) /\
  (forall w1 db_data w2,
      _get_db_data env w = (w1, Ret db_data) ->
      _get_object_storage interfaces w1 = (w2, Raise (ErrorWithStatus msg t)) ->
      _generate_config env interfaces w =
        (logged ERROR "Failed to generate container configuration." w2,
         Raise (ErrorWithStatus msg t))) /\
  (forall w1 db_data w2 os w3,
      _get_db_data env w = (w1, Ret db_data) ->
      _get_object_storage interfaces w1 = (w2, Ret os) ->
      _get_viz interfaces w2 = (w3, Raise (ErrorWithStatus msg t)) ->
      _generate_config env interfaces w =
        (logged ERROR "Failed to generate container configuration." w3,
         Raise (ErrorWithStatus msg t))).
Proof.
  split; [| split].
  - intros w1 H. unfold _generate_config. unfold bind at 1. unfold try_except.
    rewrite (bind_Raise _ _ _ _ _ H). reflexivity.
  - intros w1 db_data w2 H1 H2. unfold _generate_config. unfold bind at 1.
    unfold try_except.
    rewrite (bind_Ret _ _ _ _ _ H1), (bind_Raise _ _ _ _ _ H2). reflexivity.
  - intros w1 db_data w2 os w3 H1 H2 H3. unfold _generate_config. unfold bind at 1.
    unfold try_except.
    rewrite (bind_Ret _ _ _ _ _ H1), (bind_Ret _ _ _ _ _ H2), (bind_Raise _ _ _ _ _ H3).
    reflexivity.
Qed.

Lemma X11_witness :
  _generate_config Scenario.no_database Scenario.interfaces Scenario.start =
    (logged ERROR "Failed to generate container configuration."
       (fst (_get_db_data Scenario.no_database Scenario.start)),
     Raise (ErrorWithStatus "Please add required database relation: eg. relational-db"
              BlockedStatus)).
Proof.
  apply (proj1 (X11_generate_config_stops_at_first_failure Scenario.no_database
                  Scenario.interfaces Scenario.start
                  "Please add required database relation: eg. relational-db" BlockedStatus)).
  vm_compute. reflexivity.
Defined.

(** X12: a generated document is built from the three records just
    fetched, and its database section says what database resolution
    returned: name, host, password, port and user are the five fields of
    the record, and the driver is always "mysql".  The address of the object
    store is "<service>.<namespace>" of the object storage record. *)
Theorem X12_generated_config_reflects_inputs env interfaces w w' doc :
  _generate_config env interfaces w = (w', Ret doc) ->
  exists w1 db_data w2 os viz,
    _get_db_data env w = (w1, Ret db_data) /\
    _get_object_storage interfaces w1 = (w2, Ret os) /\
    _get_viz interfaces w2 = (w', Ret viz) /\
    json_get ["DBConfig"; "DBName"] doc = JS <$> db_data !! "db_name" /\
    json_get ["DBConfig"; "Host"] doc = JS <$> db_data !! "db_host" /\
    json_get ["DBConfig"; "Password"] doc = JS <$> db_data !! "db_password" /\
    json_get ["DBConfig"; "Port"] doc = JS <$> db_data !! "db_port" /\
    json_get ["DBConfig"; "User"] doc = JS <$> db_data !! "db_username" /\
    json_get ["DBConfig"; "DriverName"] doc = Some (JS "mysql") /\
    (exists service namespace,
        os !! "service" = Some service /\ os !! "namespace" = Some namespace /\
        json_get ["ObjectStoreConfig"; "Host"] doc =
          Some (JS (py_str service +:+ "." +:+ py_str namespace))) /\
    json_get ["ML_PIPELINE_VISUALIZATIONSERVER_SERVICE_HOST"] doc =
      JVal <$> viz !! "service-name" /\
    json_get ["ML_PIPELINE_VISUALIZATIONSERVER_SERVICE_PORT"] doc =
      JVal <$> viz !! "service-port".
Proof.
  unfold _generate_config. intros H.
  apply bind_inv in H as [(e & _ & [=]) | (w0 & [[db_data os] viz] & Htry & H)].
  apply try_except_inv in Htry
    as [(a & Htry & [= <-]) | [(wa & e & k & _ & Hk & Hr) | (e & _ & _ & [=])]].
  2: { destruct e; try discriminate Hk. injection Hk as <-.
       unfold bind, logger, raise in Hr. discriminate Hr. }
  apply bind_inv in Htry as [(e & _ & [=]) | (w1 & db' & H1 & Htry)].
  apply bind_inv in Htry as [(e & _ & [=]) | (w2 & os' & H2 & Htry)].
  apply bind_inv in Htry as [(e & _ & [=]) | (w3 & viz' & H3 & [= -> -> -> ->])].
  exists w1, db_data, w2, os, viz.
  repeat (apply bind_getitem_Ret in H as (? & ? & H)).
  injection H as <- <-.
  split; [done |]. split; [done |]. split; [done |].
  repeat match goal with Hl : _ !! _ = Some _ |- _ => rewrite Hl; clear Hl end.
  repeat split; try reflexivity. eauto.
Qed.

Lemma X12_witness :
  json_get ["DBConfig"; "User"] Scenario.generated_config = Some (JS "root") /\
  json_get ["DBConfig"; "DriverName"] Scenario.generated_config = Some (JS "mysql").
Proof.
  destruct (X12_generated_config_reflects_inputs Scenario.legacy_only_unreachable
              Scenario.interfaces Scenario.after_interfaces Scenario.after_config
              Scenario.generated_config)
    as (w1 & db_data & w2 & os & viz & Hdb & _ & _ & _ & _ & _ & _ & Hu & Hd & _).
  - vm_compute. reflexivity.
  - split; [| exact Hd]. rewrite Hu.
    vm_compute in Hdb. injection Hdb as _ <-. vm_compute. reflexivity.
Defined.

(** ** The database parameter record is never partial *)

Lemma dom_db_record (a b c d e : string) (m : sdict) :
  dom m ⊆ db_record_keys ->
  dom (<["db_port" := a]>
       (<["db_host" := b]>
        (<["db_username" := c]>
         (<["db_password" := d]>
          (<["db_name" := e]> m))))) = db_record_keys.
Proof.
  intros H. rewrite !dom_insert_L. unfold db_record_keys in *. set_solver.
Qed.

Lemma _get_mysql_data_try_record r relation_data db_data :
  _get_mysql_data_try r = (relation_data, inr db_data) -> dom db_data = db_record_keys.
Proof.
  unfold _get_mysql_data_try.
  destruct (units r) as [| unit us]; [discriminate |].
  destruct (data r !! unit) as [rd |]; [| discriminate].
  destruct (rd !! "database"); [| discriminate].
  destruct (rd !! "root_password"); [| discriminate].
  destruct (rd !! "host"); [| discriminate].
  destruct (rd !! "port"); [| discriminate].
  intros [= _ <-]. apply dom_db_record. rewrite dom_empty_L. set_solver.
Qed.

(** A round of the loop of the modern path leaves the record as it was or
    sets all five fields. *)
Lemma _get_relational_db_data_step_record db_data val w w' db_data' :
  _get_relational_db_data_step db_data val w = (w', Ret db_data') ->
  db_data = ∅ \/ dom db_data = db_record_keys ->
  db_data' = ∅ \/ dom db_data' = db_record_keys.
Proof.
  unfold _get_relational_db_data_step, unpack_host_port.
  destruct (dict_is_empty val); run; [by intros [= _ <-] |].
  destruct (val !! "password"); run; [| discriminate].
  destruct (val !! "username"); run; [| discriminate].
  destruct (val !! "endpoints") as [endpoints |]; run; [| discriminate].
  destruct (py_split ":" endpoints) as [| host [| port [| x xs]]]; run; try discriminate.
  intros [= _ <-] Hinv. right. simpl. apply dom_db_record.
  destruct Hinv as [-> | ->]; [rewrite dom_empty_L |]; set_solver.
Qed.

Lemma _get_relational_db_data_loop_record vals : forall db_data w w' db_data',
  _get_relational_db_data_loop db_data vals w = (w', Ret db_data') ->
  db_data = ∅ \/ dom db_data = db_record_keys ->
  db_data' = ∅ \/ dom db_data' = db_record_keys.
Proof.
  induction vals as [| val rest IH]; intros db_data w w' db_data'; simpl.
  - by intros [= _ <-].
  - intros H Hinv. apply bind_inv in H as [(e & _ & [=]) | (w1 & db1 & H & Hk)].
    eapply IH; [exact Hk |]. by eapply _get_relational_db_data_step_record.
Qed.

(** X13: database resolution never returns a partly filled record: whatever
    path it took, the record it returns has exactly the five fields db_name,
    db_password, db_username, db_host and db_port. *)
Theorem X13_resolved_record_is_complete env w w' db_data :
  _get_db_data env w = (w', Ret db_data) ->
  dom db_data = db_record_keys.
Proof.
  assert (Hmodern : forall w0 w1 db,
             _get_relational_db_data env w0 = (w1, Ret db) -> dom db = db_record_keys).
  { intros w0 w1 db H. unfold _get_relational_db_data in H.
    apply bind_inv in H as [(e & _ & [=]) | (wa & r & _ & H)].
    apply bind_inv in H as [(e & _ & [=]) | (wb & [] & _ & H)].
    apply bind_inv in H as [(e & _ & [=]) | (wc & db' & Hloop & H)].
    destruct (dict_is_empty db') eqn:Hemp; [discriminate H |].
    injection H as _ <-.
    destruct (_get_relational_db_data_loop_record _ _ _ _ _ Hloop (or_introl eq_refl))
      as [-> | Hd]; [| done].
    by apply dict_is_empty_false in Hemp. }
  unfold _get_db_data. intros H.
  apply try_except_inv in H
    as [(a & H & [= <-]) | [(w1 & e & k & _ & Hk & H) | (e & _ & _ & [=])]].
  - unfold _get_mysql_data in H.
    apply bind_inv in H as [(e & _ & [=]) | (wa & r & _ & H)].
    destruct (_get_mysql_data_try r) as [rd [err | db]] eqn:Htry.
    + destruct (dict_is_empty rd); discriminate H.
    + injection H as _ <-. by eapply _get_mysql_data_try_record.
  - destruct e; try discriminate Hk; injection Hk as <-; [discriminate H |].
    apply try_except_inv in H
      as [(a & H & [= <-]) | [(w2 & e & k & _ & Hk & H) | (e & _ & _ & [=])]].
    + by eapply Hmodern.
    + destruct e; try discriminate Hk; injection Hk as <-; discriminate H.
Qed.

Lemma X13_witness :
  dom (mysql_record "mlpipeline" "secret" "mysql.kubeflow" "3306") = db_record_keys.
Proof.
  apply (X13_resolved_record_is_complete Scenario.legacy_only Scenario.start
           (called (CGetRelation "mysql") Scenario.start)).
  vm_compute. reflexivity.
Defined.

(** ** Several fetched records on the modern path *)

Lemma modern_record_dom val rec : modern_record val = Some rec -> dom rec = db_record_keys.
Proof.
  unfold modern_record.
  destruct (val !! "password"); [| discriminate].
  destruct (val !! "username"); [| discriminate].
  destruct (val !! "endpoints") as [endpoints |]; [| discriminate].
  destruct (py_split ":" endpoints) as [| host [| port [| x xs]]]; try discriminate.
  intros [= <-]. apply dom_db_record. rewrite dom_empty_L. set_solver.
Qed.

(** Setting the five fields of a record that has no other field gives the
    same record whatever the fields held before. *)
Lemma overwrite_db_record (a b c d e : string) (m : sdict) :
  dom m ⊆ db_record_keys ->
  <["db_port" := a]>
    (<["db_host" := b]> (<["db_username" := c]> (<["db_password" := d]> (<["db_name" := e]> m))))
  = <["db_port" := a]>
      (<["db_host" := b]> (<["db_username" := c]> (<["db_password" := d]> (<["db_name" := e]> ∅)))).
Proof.
  intros Hdom. apply map_eq. intros k.
  destruct (decide ("db_port" = k)) as [<- | H1]; [by rewrite !lookup_insert_eq |].
  rewrite !(lookup_insert_ne _ "db_port") by done.
  destruct (decide ("db_host" = k)) as [<- | H2]; [by rewrite !lookup_insert_eq |].
  rewrite !(lookup_insert_ne _ "db_host") by done.
  destruct (decide ("db_username" = k)) as [<- | H3]; [by rewrite !lookup_insert_eq |].
  rewrite !(lookup_insert_ne _ "db_username") by done.
  destruct (decide ("db_password" = k)) as [<- | H4]; [by rewrite !lookup_insert_eq |].
  rewrite !(lookup_insert_ne _ "db_password") by done.
  destruct (decide ("db_name" = k)) as [<- | H5]; [by rewrite !lookup_insert_eq |].
  rewrite !(lookup_insert_ne _ "db_name") by done.
  rewrite lookup_empty. apply not_elem_of_dom. intros Hk.
  apply Hdom in Hk. unfold db_record_keys in Hk. set_solver.
Qed.

Lemma _get_relational_db_data_step_good db_data val rec w :
  modern_record val = Some rec ->
  db_data = ∅ \/ dom db_data = db_record_keys ->
  _get_relational_db_data_step db_data val w = (w, Ret rec).
Proof.
  unfold modern_record, _get_relational_db_data_step, unpack_host_port.
  intros Hrec Hinv.
  assert (Hne : dict_is_empty val = false).
  { apply dict_is_empty_false. intros ->. by rewrite lookup_empty in Hrec. }
  rewrite Hne. run.
  destruct (val !! "password"); [| discriminate]. run.
  destruct (val !! "username"); [| discriminate]. run.
  destruct (val !! "endpoints") as [endpoints |]; [| discriminate]. run.
  destruct (py_split ":" endpoints) as [| host [| port [| x xs]]]; try discriminate.
  injection Hrec as <-. run. simpl. f_equal. f_equal.
  apply overwrite_db_record. destruct Hinv as [-> | ->]; [by rewrite dom_empty_L | done].
Qed.

Lemma _get_relational_db_data_step_empty db_data w :
  _get_relational_db_data_step db_data ∅ w = (w, Ret db_data).
Proof. reflexivity. Qed.




Lemma _get_relational_db_data_step_missing db_data val k w :
  val ≠ ∅ -> k ∈ modern_required_keys -> val !! k = None ->
  exists k',
    k' ∈ modern_required_keys /\
    _get_relational_db_data_step db_data val w =
      (logged ERROR ("Missing attribute " +:+ exn_str (KeyError k') +:+
                     " in relational-db relation data") w,
       Raise (ErrorWithStatus
                "Incorrect/incomplete data found in relation relational-db. See logs"
                WaitingStatus)).
Proof.
  intros Hne Hk Hnone. unfold _get_relational_db_data_step, modern_required_keys in *.
  apply dict_is_empty_false in Hne. rewrite Hne. run.
  destruct (val !! "password") eqn:E1; run;
    [| exists "password"; split; [in_list | reflexivity]].
  destruct (val !! "username") eqn:E2; run;
    [| exists "username"; split; [in_list | reflexivity]].
  destruct (val !! "endpoints") eqn:E3; run;
    [| exists "endpoints"; split; [in_list | reflexivity]].
  exfalso.
  repeat (apply elem_of_cons in Hk as [-> | Hk]; [congruence |]).
  by apply elem_of_nil in Hk.
Qed.

(** X15: a fetched record that is not empty and lacks one of the keys
    password, username and endpoints makes the modern path fail Waiting
    ("Incorrect/incomplete data found in relation relational-db"), whatever
    its other keys hold and whatever records come after it; the records
    before it may be empty or complete. *)
Theorem X15_incomplete_fetched_record_waits env r good bad rest k w :
  relation_present env "relational-db" r ->
  snd <$> fetch_relation_data env = (good ++ bad :: rest)%list ->
  Forall (fun val => val = ∅ \/ is_Some (modern_record val)) good ->
  bad ≠ ∅ -> k ∈ modern_required_keys -> bad !! k = None ->
  exists w',
    _get_relational_db_data env w =
      (w', Raise (ErrorWithStatus
                    "Incorrect/incomplete data found in relation relational-db. See logs"
                    WaitingStatus)) /\
    unit_status w' = unit_status w /\
    calls w' = (calls w ++ [CGetRelation "relational-db"; CFetchRelationData])%list.
Proof.
  intros Hr Hf Hgood Hne Hk Hnone.
  assert (Hloop : forall db_data w0,
             db_data = ∅ \/ dom db_data = db_record_keys ->
             exists w',
               _get_relational_db_data_loop db_data (good ++ bad :: rest) w0 =
                 (w', Raise (ErrorWithStatus
                               "Incorrect/incomplete data found in relation relational-db. See logs"
                               WaitingStatus)) /\
               unit_status w' = unit_status w0 /\ calls w' = calls w0).
  { clear Hf. induction good as [| val good IH]; intros db_data w0 Hinv; simpl.
    - destruct (_get_relational_db_data_step_missing db_data bad k w0 Hne Hk Hnone)
        as (k' & _ & Hstep).
      rewrite (bind_Raise _ _ _ _ _ Hstep). eauto.
    - apply Forall_cons in Hgood as [Hval Hgood].
      destruct Hval as [-> | [rec Hrec]].
      + rewrite (bind_Ret _ _ _ _ _ (_get_relational_db_data_step_empty db_data w0)).
        by apply IH.
      + rewrite (bind_Ret _ _ _ _ _
                   (_get_relational_db_data_step_good _ _ _ w0 Hrec Hinv)).
        apply IH; [done |]. right. by eapply modern_record_dom. }
  unfold _get_relational_db_data.
  rewrite (bind_Ret _ _ _ _ _ (_get_db_relation_present _ _ _ _ Hr)).
  unfold bind at 1. unfold call at 1. cbv beta iota. rewrite Hf.
  destruct (Hloop ∅ (called CFetchRelationData (called (CGetRelation "relational-db") w))
              (or_introl eq_refl)) as (w' & Hl & Hs & Hc).
  exists w'. rewrite (bind_Raise _ _ _ _ _ Hl). split; [done |].
  split; [done |]. rewrite Hc. simpl. by rewrite <- app_assoc.
Qed.

Lemma X15_witness :
  exists w',
    _get_relational_db_data (Cases.modern_only Cases.no_username) Scenario.start =
      (w', Raise (ErrorWithStatus
                    "Incorrect/incomplete data found in relation relational-db. See logs"
                    WaitingStatus)) /\
    unit_status w' = unit_status Scenario.start /\
    calls w' =
      (calls Scenario.start ++ [CGetRelation "relational-db"; CFetchRelationData])%list.
Proof.
  apply (X15_incomplete_fetched_record_waits (Cases.modern_only Cases.no_username)
           Scenario.modern [] Cases.no_username [] "username").
  - reflexivity.
  - reflexivity.
  - constructor.
  - intros H. apply (f_equal (fun m : sdict => m !! "password")) in H.
    vm_compute in H. discriminate H.
  - apply list_elem_of_In. simpl. tauto.
  - reflexivity.
Defined.

(** ** Host and port of an endpoints value *)

Lemma py_split_not_nil sep s : py_split sep s ≠ [].
Proof. intros H. pose proof (py_split_length sep s) as Hl. by rewrite H in Hl. Qed.

(** Joining the pieces of a split with the separator gives the string
    back. *)
Lemma py_join_split sep s : py_join sep (py_split sep s) = s.
Proof.
  induction s as [| c r IH]; [reflexivity |]. simpl.
  destruct (Ascii.eqb c sep) eqn:E.
  - apply Ascii.eqb_eq in E as ->.
    destruct (py_split sep r) as [| p ps] eqn:Hs; [by apply py_split_not_nil in Hs |].
    change (py_join sep (EmptyString :: p :: ps)) with (String sep (py_join sep (p :: ps))).
    by rewrite IH.
  - destruct (py_split sep r) as [| p ps] eqn:Hs; [by apply py_split_not_nil in Hs |].
    rewrite <- IH. destruct ps; reflexivity.
Qed.

(** No piece of a split holds the separator. *)
Lemma py_split_pieces sep s : Forall (fun p => count_char sep p = 0%nat) (py_split sep s).
Proof.
  induction s as [| c r IH]; simpl; [by constructor |].
  destruct (Ascii.eqb c sep) eqn:E.
  - by constructor.
  - destruct (py_split sep r) as [| p ps]; [constructor; [| constructor]; simpl; by rewrite E |].
    apply Forall_cons in IH as [Hp Hps]. constructor; [| done]. simpl. by rewrite E, Hp.
Qed.

Lemma py_split_no_sep sep s : count_char sep s = 0%nat -> py_split sep s = [s].
Proof.
  induction s as [| c r IH]; [reflexivity |]. simpl.
  destruct (Ascii.eqb c sep); [discriminate |]. intros H. by rewrite (IH H).
Qed.

Lemma py_split_app sep a b :
  count_char sep a = 0%nat ->
  py_split sep (a +:+ String sep b) = a :: py_split sep b.
Proof.
  induction a as [| c r IH]; simpl.
  - intros _. by rewrite Ascii.eqb_refl.
  - destruct (Ascii.eqb c sep); [discriminate |]. intros H. by rewrite (IH H).
Qed.

(** X16: the unpacking of an endpoints value with exactly one colon loses
    nothing: host and port hold no colon and "host:port" is the value again.
    The other way round, for a host and a port without colons the value
    "host:port" is unpacked into just that host and that port. *)
Theorem X16_endpoints_round_trip w :
  (forall endpoints,
      count_char ":" endpoints = 1%nat ->
      exists host port,
        unpack_host_port endpoints w = (w, Ret (host, port)) /\
        endpoints = host +:+ ":" +:+ port /\
        count_char ":" host = 0%nat /\ count_char ":" port = 0%nat) /\
  (forall host port,
      count_char ":" host = 0%nat -> count_char ":" port = 0%nat ->
      unpack_host_port (host +:+ ":" +:+ port) w = (w, Ret (host, port))).
Proof.
  split.
  - intros endpoints Hc.
    destruct (unpack_host_port_well_formed endpoints w Hc) as (host & port & Hs & Hu).
    exists host, port. split; [exact Hu |].
    pose proof (py_join_split ":" endpoints) as Hj.
    pose proof (py_split_pieces ":" endpoints) as Hp.
    rewrite Hs in Hj, Hp. split; [by rewrite <- Hj |].
    apply Forall_cons in Hp as [Hh Hp]. apply Forall_cons in Hp as [Hp _]. done.
  - intros host port Hh Hp. unfold unpack_host_port.
    change (host +:+ ":" +:+ port) with (host +:+ String ":" port).
    by rewrite (py_split_app _ _ _ Hh), (py_split_no_sep _ _ Hp).
Qed.

Lemma X16_witness :
  unpack_host_port ("mysql-k8s" +:+ ":" +:+ "3306") Scenario.start =
    (Scenario.start, Ret ("mysql-k8s", "3306")).
Proof.
  apply (proj2 (X16_endpoints_round_trip Scenario.start) "mysql-k8s" "3306").
  - reflexivity.
  - reflexivity.
Defined.

(** ** Handlers do not depend on the world they start from *)

Lemma apply_effect_nothing w : apply_effect (mkEffect None [] []) w = w.
Proof. destruct w. unfold apply_effect. simpl. by rewrite !app_nil_r. Qed.

Lemma apply_effect_then e1 e2 w :
  apply_effect e2 (apply_effect e1 w) = apply_effect (then_effect e1 e2) w.
Proof.
  unfold apply_effect, then_effect. simpl. rewrite !app_assoc.
  by destruct (new_status e2), (new_status e1).
Qed.

Section Uniform.

Context {A B : Type}.

Lemma uniform_ret (a : A) : uniform (ret a).
Proof. exists (mkEffect None [] []), (Ret a). intros w. by rewrite apply_effect_nothing. Qed.

Lemma uniform_raise (e : exn) : uniform (@raise A e).
Proof. exists (mkEffect None [] []), (Raise e). intros w. by rewrite apply_effect_nothing. Qed.

Lemma uniform_bind (m : M A) (k : A -> M B) :
  uniform m -> (forall a, uniform (k a)) -> uniform (bind m k).
Proof.
  intros (e1 & [a | err] & Hm) Hk.
  - destruct (Hk a) as (e2 & o2 & Hka). exists (then_effect e1 e2), o2.
    intros w. unfold bind. by rewrite Hm, Hka, apply_effect_then.
  - exists e1, (Raise err). intros w. unfold bind. by rewrite Hm.
Qed.

Lemma uniform_try_except (m : M A) h :
  uniform m ->
  (forall e, match h e with Some k => uniform k | None => True end) ->
  uniform (try_except m h).
Proof.
  intros (e1 & [a | err] & Hm) Hh.
  - exists e1, (Ret a). intros w. unfold try_except. by rewrite Hm.
  - specialize (Hh err). destruct (h err) as [k |] eqn:E.
    + destruct Hh as (e2 & o2 & Hk). exists (then_effect e1 e2), o2.
      intros w. unfold try_except. by rewrite Hm, E, Hk, apply_effect_then.
    + exists e1, (Raise err). intros w. unfold try_except. by rewrite Hm, E.
Qed.

End Uniform.

Lemma uniform_call c : uniform (call c).
Proof.
  exists (mkEffect None [] [c]), (Ret tt). intros w.
  unfold call, called, apply_effect. simpl. by rewrite app_nil_r.
Qed.

Lemma uniform_logger l msg : uniform (logger l msg).
Proof.
  exists (mkEffect None [(l, msg)] []), (Ret tt). intros w.
  unfold logger, logged, apply_effect. simpl. by rewrite app_nil_r.
Qed.

Lemma uniform_set_status s : uniform (set_status s).
Proof.
  exists (mkEffect (Some s) [] []), (Ret tt). intros w.
  unfold set_status, with_status, apply_effect. simpl. by rewrite !app_nil_r.
Qed.

Lemma uniform_getitem {V} (d : gmap string V) k : uniform (getitem d k).
Proof. unfold getitem. destruct (d !! k); [apply uniform_ret | apply uniform_raise]. Qed.

Create HintDb uniform.

#[local] Hint Resolve uniform_call uniform_logger uniform_set_status : uniform.
#[local] Hint Extern 0 (uniform (getitem _ _)) => apply uniform_getitem : uniform.
#[local] Hint Extern 0 (uniform (ret _)) => apply uniform_ret : uniform.
#[local] Hint Extern 0 (uniform (raise _)) => apply uniform_raise : uniform.

Ltac uniform_tac :=
  repeat first
    [ progress intros
    | exact I
    | solve [auto with uniform]
    | apply uniform_bind
    | apply uniform_try_except
    | match goal with
      | |- uniform (match ?x with _ => _ end) => destruct x
      | |- match (match ?e with _ => _ end) with _ => _ end => destruct e
      | |- match (if ?c then _ else _) with _ => _ end => destruct c
      | |- match log_and_reraise _ ?e with _ => _ end =>
          unfold log_and_reraise; destruct e
      end ].

Lemma uniform__get_relational_db_data_loop vals : forall db_data,
  uniform (_get_relational_db_data_loop db_data vals).
Proof.
  induction vals as [| val rest IH]; intros db_data; simpl; [apply uniform_ret |].
  apply uniform_bind; [| intros; apply IH].
  unfold _get_relational_db_data_step, unpack_host_port. uniform_tac.
Qed.

Lemma uniform__get_db_data env : uniform (_get_db_data env).
Proof.
  assert (Hr : forall name, uniform (_get_db_relation env name)).
  { intros name. unfold _get_db_relation, model_get_relation. uniform_tac. }
  assert (Hl : uniform (_get_mysql_data env)).
  { unfold _get_mysql_data. apply uniform_bind; [apply Hr |].
    intros r. destruct (_get_mysql_data_try r) as [rd [e | d]]; uniform_tac. }
  assert (Hm : uniform (_get_relational_db_data env)).
  { unfold _get_relational_db_data.
    apply uniform_bind; [apply Hr |]. intros _.
    apply uniform_bind; [uniform_tac |]. intros _.
    apply uniform_bind; [apply uniform__get_relational_db_data_loop | uniform_tac]. }
  unfold _get_db_data. apply uniform_try_except; [exact Hl |].
  intros []; try exact I; [uniform_tac |].
  apply uniform_try_except; [exact Hm | uniform_tac].
Qed.

#[local] Hint Resolve uniform__get_db_data : uniform.

Lemma uniform__on_event_pipeline env force_conflicts :
  uniform (_on_event_pipeline env force_conflicts).
Proof.
  unfold _on_event_pipeline, _check_leader, unit_is_leader, _get_interfaces,
    sdi_get_interfaces, _generate_config, _get_object_storage, _get_viz,
    _validate_sdi_interface, sdi_get_data,
    _upload_files_to_container, _check_container_connection,
    container_can_connect, container_push, _apply_k8s_resources, k8s_apply,
    _check_and_report_k8s_conflict, _kfp_api_layer, update_layer, _send_info.
  uniform_tac.
Qed.

Lemma with_status_effect s w :
  with_status s w = apply_effect (mkEffect (Some s) [] []) w.
Proof. unfold with_status, apply_effect. simpl. by rewrite !app_nil_r. Qed.

Lemma logged_with_status_effect l msg s w :
  logged l msg (with_status s w) = apply_effect (mkEffect (Some s) [(l, msg)] []) w.
Proof. unfold logged, with_status, apply_effect. simpl. by rewrite !app_nil_r. Qed.

(** A pass is uniform, and when it returns it has set the status. *)
Lemma uniform__on_event_sets_status env event force_conflicts :
  exists e o,
    (forall w, _on_event env event force_conflicts w = (apply_effect e w, o)) /\
    (forall a, o = Ret a -> is_Some (new_status e)).
Proof.
  destruct (uniform__on_event_pipeline env force_conflicts) as (ep & [[] | err] & Hp).
  - exists (then_effect ep (mkEffect (Some (mkStatus ActiveStatus "")) [] [])), (Ret tt).
    split; [| intros; simpl; eauto].
    intros w. by rewrite (_on_event_success _ _ _ _ _ (Hp w)), <- apply_effect_then,
      with_status_effect.
  - destruct (is_ErrorWithStatus err) eqn:E.
    + destruct err as [msg t | | | | | | | | | | | | | |]; try discriminate E.
      eexists (then_effect ep (mkEffect (Some (mkStatus t msg)) [_] [])), (Ret tt).
      split; [| intros; simpl; eauto].
      intros w.
      by rewrite (_on_event_status_error _ _ _ _ _ _ _ (Hp w)), <- apply_effect_then,
        logged_with_status_effect.
    + exists ep, (Raise err).
      split; [intros w; by apply _on_event_crash | intros a [=]].
Qed.

Lemma uniform__on_event env event force_conflicts :
  uniform (_on_event env event force_conflicts).
Proof.
  destruct (uniform__on_event_sets_status env event force_conflicts) as (e & o & H & _).
  by exists e, o.
Qed.

#[local] Hint Resolve uniform__on_event : uniform.

Lemma uniform__on_update_status env event : uniform (_on_update_status env event).
Proof.
  destruct (uniform__on_event_sets_status env event false) as (e & [[] | err] & He & Hs).
  - destruct (Hs tt eq_refl) as [s Hns].
    assert (Hst : forall w, unit_status (apply_effect e w) = s).
    { intros w. unfold apply_effect. simpl. by rewrite Hns. }
    destruct (is_waiting s || is_blocked s) eqn:Hc.
    + exists e, (Ret tt). intros w.
      by rewrite (_on_update_status_after_pass _ _ _ _ (He w)), Hst, Hc.
    + match type of (_on_update_status_after_pass env event) with
      | forall w w1, _ -> _ = if _ then _ else ?rest w1 =>
          assert (Hrest : uniform rest)
      end.
      { unfold _check_status, _check_leader, unit_is_leader. uniform_tac. }
      destruct Hrest as (e2 & o2 & Hrest). exists (then_effect e e2), o2. intros w.
      by rewrite (_on_update_status_after_pass _ _ _ _ (He w)), Hst, Hc, Hrest,
        apply_effect_then.
  - exists e, (Raise err). intros w. unfold _on_update_status.
    unfold bind at 1. unfold try_except. unfold bind at 1. rewrite (He w).
    pose proof (_on_event_catches env event false w (apply_effect e w)) as Hcatch.
    rewrite (He w) in Hcatch.
    destruct err; try reflexivity. by destruct (Hcatch msg t).
Qed.

Lemma uniform_dispatch env event : uniform (dispatch env event).
Proof.
  pose proof (uniform__on_update_status env event) as Hu.
  unfold dispatch.
  destruct event as [| | | | | | | name | name | name | name | |];
    repeat case_bool_decide; try exact Hu;
    unfold _on_install, _on_upgrade, _apply_k8s_resources, k8s_apply,
      _check_and_report_k8s_conflict, _on_remove,
      _on_mysql_relation, _on_mysql_relation_remove, _on_relational_db_relation,
      _on_relational_db_relation_remove, model_relations, model_get_relation;
    uniform_tac.
Qed.

(** X17: what a handler does depends on what it reads from the model only,
    not on the world it starts from: its outcome is the same from every
    world, and as long as the model answers as before, handling the same
    trigger again ends with the same outcome and leaves the same unit
    status. *)
Theorem X17_trigger_is_repeatable env event w :
  (forall w', snd (dispatch env event w') = snd (dispatch env event w)) /\
  snd (dispatch env event (fst (dispatch env event w))) = snd (dispatch env event w) /\
  unit_status (fst (dispatch env event (fst (dispatch env event w)))) =
    unit_status (fst (dispatch env event w)).
Proof.
  destruct (uniform_dispatch env event) as (e & o & H).
  split; [| split].
  - intros w'. by rewrite !H.
  - by rewrite !H.
  - rewrite !H. simpl. by destruct (new_status e).
Qed.

(** ** Uploading the files *)

Lemma _upload_files_to_container_reachable env config_json w :
  can_connect env = true ->
  _upload_files_to_container env config_json w =
    match sample_config env with
    | None =>
        (called (COpen "src/sample_config.json") (called CCanConnect w),
         Raise (FileNotFoundError "src/sample_config.json"))
    | Some file_content =>
        let w1 :=
          called (CPush SAMPLE_CONFIG (FileText file_content))
            (called (COpen "src/sample_config.json") (called CCanConnect w)) in
        if push_fails env SAMPLE_CONFIG then (w1, Raise (PebbleError SAMPLE_CONFIG))
        else
          let w2 := called (CPush "/config/config.json" (FileJson config_json)) w1 in
          if push_fails env "/config/config.json"
          then (w2, Raise (PebbleError "/config/config.json"))
          else (w2, Ret tt)
    end.
Proof.
  intros H.
  unfold _upload_files_to_container, _check_container_connection, container_can_connect,
    container_push, log_and_reraise.
  run. rewrite H. run.
  destruct (sample_config env) as [file_content |]; run; [| reflexivity].
  destruct (push_fails env SAMPLE_CONFIG); run; [reflexivity |].
  change (CONFIG_DIR +:+ "/config.json") with "/config/config.json".
  destruct (push_fails env "/config/config.json"); reflexivity.
Qed.

(** X18: the upload starts by asking whether the container can be reached
    and does nothing more when it cannot.  The generated configuration is
    pushed, to /config/config.json, exactly when the container is reachable,
    the sample configuration file could be read and its push went through;
    the upload as a whole succeeds when that last push goes through too, and
    it never touches the unit status of a reachable container. *)
Theorem X18_config_pushed_after_sample env config_json w :
  exists trace,
    calls (fst (_upload_files_to_container env config_json w)) =
      (calls w ++ CCanConnect :: trace)%list /\
    (can_connect env = false -> trace = []) /\
    (CPush "/config/config.json" (FileJson config_json) ∈ trace <->
     can_connect env = true /\ is_Some (sample_config env) /\
     push_fails env SAMPLE_CONFIG = false) /\
    (snd (_upload_files_to_container env config_json w) = Ret tt <->
     can_connect env = true /\ is_Some (sample_config env) /\
     push_fails env SAMPLE_CONFIG = false /\ push_fails env "/config/config.json" = false) /\
    (can_connect env = true ->
     unit_status (fst (_upload_files_to_container env config_json w)) = unit_status w).
Proof.
  destruct (can_connect env) eqn:Hc.
  - rewrite (_upload_files_to_container_reachable _ _ _ Hc).
    destruct (sample_config env) as [file_content |].
    + destruct (push_fails env SAMPLE_CONFIG).
      * eexists. split; [simpl; rewrite <- !app_assoc; reflexivity |].
        split; [discriminate |]. split; [| split; [| done]].
        -- split; [| by intros (_ & _ & ?)]. intros Hin.
           repeat (apply elem_of_cons in Hin as [[=] | Hin]). by apply elem_of_nil in Hin.
        -- split; [discriminate | by intros (_ & _ & ? & _)].
      * destruct (push_fails env "/config/config.json");
          (eexists; split; [simpl; rewrite <- !app_assoc; reflexivity |]);
          (split; [discriminate |]); (split; [| split; [| done]]).
        -- split; [eauto |]. intros _. do 2 (apply elem_of_cons; right).
           apply elem_of_cons. by left.
        -- split; [discriminate | by intros (_ & _ & _ & ?)].
        -- split; [eauto |]. intros _. do 2 (apply elem_of_cons; right).
           apply elem_of_cons. by left.
        -- split; eauto.
    + eexists. split; [simpl; rewrite <- !app_assoc; reflexivity |].
      split; [discriminate |]. split; [| split; [| done]].
      * split; [| by intros (_ & [? [=]] & _)]. intros Hin.
        repeat (apply elem_of_cons in Hin as [[=] | Hin]). by apply elem_of_nil in Hin.
      * split; [discriminate | by intros (_ & [? [=]] & _)].
  - rewrite (_upload_files_to_container_unreachable _ _ _ Hc). exists [].
    split; [done |]. split; [done |]. split; [| split; [| discriminate]].
    + split; [intros Hin; by apply elem_of_nil in Hin | by intros [? _]].
    + split; [discriminate | by intros [? _]].
Qed.

Lemma X18_witness :
  unit_status (fst (_upload_files_to_container Scenario.legacy_only
                      Scenario.generated_config Scenario.start)) =
    unit_status Scenario.start.
Proof.
  destruct (X18_config_pushed_after_sample Scenario.legacy_only Scenario.generated_config
              Scenario.start) as (trace & _ & _ & _ & _ & H).
  apply H. reflexivity.
Defined.

(** ** What a successful pass needs *)

Lemma _check_leader_Ret env w w' :
  _check_leader env w = (w', Ret tt) -> is_leader env = true.
Proof.
  unfold _check_leader, unit_is_leader. run.
  destruct (is_leader env); [done | discriminate].
Qed.

Lemma _get_interfaces_Ret env w w' interfaces :
  _get_interfaces env w = (w', Ret interfaces) -> get_interfaces env = GiOk interfaces.
Proof.
  unfold _get_interfaces, sdi_get_interfaces. run.
  destruct (get_interfaces env); run; [by intros [= _ <-] | discriminate ..].
Qed.

Lemma _upload_files_to_container_Ret env config_json w w' :
  _upload_files_to_container env config_json w = (w', Ret tt) ->
  can_connect env = true /\ is_Some (sample_config env) /\
  push_fails env SAMPLE_CONFIG = false /\ push_fails env "/config/config.json" = false.
Proof.
  destruct (can_connect env) eqn:Hc.
  - rewrite (_upload_files_to_container_reachable _ _ _ Hc).
    destruct (sample_config env); [| discriminate].
    destruct (push_fails env SAMPLE_CONFIG); [discriminate |].
    destruct (push_fails env "/config/config.json"); [discriminate |]. eauto.
  - rewrite (_upload_files_to_container_unreachable _ _ _ Hc). discriminate.
Qed.

Lemma _apply_k8s_resources_Ret env force_conflicts w w' :
  _apply_k8s_resources env force_conflicts w = (w', Ret tt) ->
  (apply_result env = ApiOk \/
   (apply_conflict env = true /\ force_conflicts = true /\ apply_force_result env = ApiOk)) /\
  unit_status w' = mkStatus MaintenanceStatus "K8S resources created".
Proof.
  destruct (apply_result env) as [| code text] eqn:Hr.
  - rewrite (_apply_k8s_resources_ok _ _ _ Hr). intros [= <-]. auto.
  - destruct (apply_conflict env && force_conflicts) eqn:Hc.
    + apply andb_true_iff in Hc as [Hc ->].
      destruct (_apply_k8s_resources_forced env w Hc) as (w1 & _ & _ & ->).
      destruct (apply_force_result env); [| discriminate]. intros [= <-]. auto.
    + destruct (_apply_k8s_resources_fatal env force_conflicts w) as (w1 & -> & _);
        [congruence | exact Hc | discriminate].
Qed.

Lemma update_layer_Ret env layer w w' :
  update_layer env layer w = (w', Ret tt) ->
  update_layer_result env = UlOk /\ unit_status w' = unit_status w.
Proof.
  unfold update_layer. run. destruct (update_layer_result env); [| discriminate].
  by intros [= <-].
Qed.

Lemma keeps_status__send_info env interfaces : keeps_status (_send_info env interfaces).
Proof. unfold _send_info. keeps_status_tac. Qed.

(** X19: the pipeline runs to its end only when every step went through:
    the unit is the leader, the interfaces were negotiated, the configuration
    was generated, the container was reachable and took both files, the
    cluster resources converged (at once, or by a forced apply after a
    conflict when forcing was asked for) and the Pebble layer was updated.
    The status is then "K8S resources created", which [_on_event] turns into
    Active. *)
Theorem X19_successful_pass_went_through_every_step env event force_conflicts w w1 :
  _on_event_pipeline env force_conflicts w = (w1, Ret tt) ->
  is_leader env = true /\
  (exists interfaces wb wc config_json,
      get_interfaces env = GiOk interfaces /\
      _generate_config env interfaces wb = (wc, Ret config_json)) /\
  can_connect env = true /\ is_Some (sample_config env) /\
  push_fails env SAMPLE_CONFIG = false /\ push_fails env "/config/config.json" = false /\
  (apply_result env = ApiOk \/
   (apply_conflict env = true /\ force_conflicts = true /\ apply_force_result env = ApiOk)) /\
  update_layer_result env = UlOk /\
  unit_status w1 = mkStatus MaintenanceStatus "K8S resources created" /\
  _on_event env event force_conflicts w = (with_status (mkStatus ActiveStatus "") w1, Ret tt).
Proof.
  intros H. pose proof (_on_event_success env event _ _ _ H) as Hactive.
  unfold _on_event_pipeline in H.
  apply bind_inv in H as [(e & _ & [=]) | (wa & [] & Hl & H)].
  apply bind_inv in H as [(e & _ & [=]) | (wb & interfaces & Hi & H)].
  apply bind_inv in H as [(e & _ & [=]) | (wc & config_json & Hg & H)].
  apply bind_inv in H as [(e & _ & [=]) | (wd & [] & Hu & H)].
  apply bind_inv in H as [(e & _ & [=]) | (we & [] & Ha & H)].
  apply bind_inv in H as [(e & _ & [=]) | (wf & layer & Hk & H)].
  apply bind_inv in H as [(e & _ & [=]) | (wg & [] & Hul & H)].
  apply _check_leader_Ret in Hl. apply _get_interfaces_Ret in Hi.
  apply _upload_files_to_container_Ret in Hu as (? & ? & ? & ?).
  apply _apply_k8s_resources_Ret in Ha as [? Hs].
  apply update_layer_Ret in Hul as [? Hs'].
  apply keeps_status__send_info in H.
  assert (unit_status wf = unit_status we).
  { unfold _kfp_api_layer, getitem in Hk. revert Hk. run.
    destruct (config env !! "http-port"); [by intros [= <-] | discriminate]. }
  repeat split; eauto 8. congruence.
Qed.

Lemma X19_witness :
  is_leader Scenario.legacy_only = true /\
  can_connect Scenario.legacy_only = true /\
  update_layer_result Scenario.legacy_only = UlOk.
Proof.
  destruct (X19_successful_pass_went_through_every_step Scenario.legacy_only ConfigChanged
              false Scenario.start
              (fst (_on_event_pipeline Scenario.legacy_only false Scenario.start)))
    as (H1 & _ & H2 & _ & _ & _ & _ & H3 & _).
  - vm_compute. reflexivity.
  - auto.
Defined.

(** ** The upgrade trigger *)

Lemma _apply_k8s_resources_force_irrelevant env w :
  apply_conflict env = false ->
  _apply_k8s_resources env true w = _apply_k8s_resources env false w.
Proof.
  run_apply. destruct (apply_result env) as [| code text]; [reflexivity |].
  intros ->. reflexivity.
Qed.

(** X20: asking for forced conflict resolution changes nothing unless the
    plain apply of the cluster resources hits a conflict: without a conflict
    the upgrade trigger does exactly what a pass without forcing does. *)
Theorem X20_upgrade_without_conflict_is_a_plain_pass env w :
  apply_conflict env = false ->
  dispatch env UpgradeCharm w = _on_event env UpgradeCharm false w.
Proof.
  intros Hc. change (dispatch env UpgradeCharm) with (_on_event env UpgradeCharm true).
  unfold _on_event. unfold bind at 1 3. unfold try_except.
  assert (Hp : _on_event_pipeline env true w = _on_event_pipeline env false w).
  { unfold _on_event_pipeline.
    apply bind_ext. intros _ wa. apply bind_ext. intros interfaces wb.
    apply bind_ext. intros config_json wc. apply bind_ext. intros _ wd.
    unfold bind at 1 3. by rewrite (_apply_k8s_resources_force_irrelevant _ _ Hc). }
  unfold bind at 1 2. by rewrite Hp.
Qed.

Lemma X20_witness :
  dispatch Scenario.legacy_only UpgradeCharm Scenario.start =
    _on_event Scenario.legacy_only UpgradeCharm false Scenario.start.
Proof.
  apply (X20_upgrade_without_conflict_is_a_plain_pass Scenario.legacy_only Scenario.start).
  reflexivity.
Defined.

(** ** The resource handler is built once *)

Lemma access_stored _context handler n : forall self,
  ResourceHandler._k8s_resource_handler self = Some handler ->
  ResourceHandler.access _context n self =
    (ResourceHandler.mkCharm (Some handler)
       (ResourceHandler.accesses self ++
        replicate n (ResourceHandler.LoadGenericResources handler)),
     replicate n handler).
Proof.
  induction n as [| n IH]; intros [stored acc] H; simpl in *.
  - by rewrite H, app_nil_r.
  - unfold ResourceHandler.k8s_resource_handler. simpl. rewrite H. simpl.
    rewrite IH by done. simpl. by rewrite <- app_assoc.
Qed.

(** X21: the resource handler is built lazily and only once.  However
    often the property is read, starting without a handler, one handler is
    built, from the field manager "lightkube", the two templates and the
    charm's context, all reads return it, and each read loads the generic
    resources of the cluster.  Once a handler is stored, by an earlier read
    or by the setter, no handler is built: every read returns the stored
    one. *)
Theorem X21_resource_handler_built_once _context n self :
  let built :=
    ResourceHandler.mkHandler "lightkube"
      ["src/templates/auth_manifests.yaml.j2"; "src/templates/ml-pipeline-service.yaml.j2"]
      _context in
  (ResourceHandler._k8s_resource_handler self = None ->
   ResourceHandler.access _context (S n) self =
     (ResourceHandler.mkCharm (Some built)
        (ResourceHandler.accesses self ++
         ResourceHandler.Construct built ::
         replicate (S n) (ResourceHandler.LoadGenericResources built)),
      replicate (S n) built)) /\
  (forall handler,
      ResourceHandler.access _context n
        (ResourceHandler.set_k8s_resource_handler handler self) =
        (ResourceHandler.mkCharm (Some handler)
           (ResourceHandler.accesses self ++
            replicate n (ResourceHandler.LoadGenericResources handler)),
         replicate n handler)).
Proof.
  intros built. split.
  - intros H. destruct self as [stored acc]. simpl in H. subst stored.
    change (ResourceHandler.access _context (S n) (ResourceHandler.mkCharm None acc))
      with (let '(self, handlers) :=
              ResourceHandler.access _context n
                (ResourceHandler.mkCharm (Some built)
                   ((acc ++ [ResourceHandler.Construct built]) ++
                    [ResourceHandler.LoadGenericResources built])) in
            (self, built :: handlers)).
    rewrite (access_stored _context built n) by done. simpl.
    by rewrite <- !app_assoc.
  - intros handler. by rewrite (access_stored _context handler n).
Qed.

Lemma X21_witness :
  ResourceHandler.access ∅ 2 (ResourceHandler.mkCharm None []) =
    (ResourceHandler.mkCharm
       (Some (ResourceHandler.mkHandler "lightkube"
                ["src/templates/auth_manifests.yaml.j2";
                 "src/templates/ml-pipeline-service.yaml.j2"] ∅))
       ([] ++
        ResourceHandler.Construct
          (ResourceHandler.mkHandler "lightkube"
             ["src/templates/auth_manifests.yaml.j2";
              "src/templates/ml-pipeline-service.yaml.j2"] ∅) ::
        replicate 2
          (ResourceHandler.LoadGenericResources
             (ResourceHandler.mkHandler "lightkube"
                ["src/templates/auth_manifests.yaml.j2";
                 "src/templates/ml-pipeline-service.yaml.j2"] ∅))),
     replicate 2
       (ResourceHandler.mkHandler "lightkube"
          ["src/templates/auth_manifests.yaml.j2";
           "src/templates/ml-pipeline-service.yaml.j2"] ∅)).
Proof.
  apply (proj1 (X21_resource_handler_built_once ∅ 1 (ResourceHandler.mkCharm None []))).
  reflexivity.
Defined.

(** ** A pass that stops at the interfaces or at the database *)

Lemma _check_leader_leader env w :
  is_leader env = true -> _check_leader env w = (called CIsLeader w, Ret tt).
Proof. intros H. unfold _check_leader, unit_is_leader. run. by rewrite H. Qed.

(** X22: on a leader unit, when the negotiation of the interfaces fails the
    pass stops right there with the library's message as the status message:
    Waiting when no versions are listed, Blocked when there is no compatible
    version or the relation data is malformed.  Leadership and the interfaces
    are all that has been asked for. *)
Theorem X22_interface_negotiation_failure env event force_conflicts w :
  is_leader env = true ->
  (forall interfaces, get_interfaces env ≠ GiOk interfaces) ->
  exists msg t,
    (get_interfaces env = GiNoVersionsListed msg /\ t = WaitingStatus \/
     get_interfaces env = GiNoCompatibleVersions msg /\ t = BlockedStatus \/
     get_interfaces env = GiRelationDataError msg /\ t = BlockedStatus) /\
    snd (_on_event env event force_conflicts w) = Ret tt /\
    unit_status (fst (_on_event env event force_conflicts w)) = mkStatus t msg /\
    calls (fst (_on_event env event force_conflicts w)) =
      (calls w ++ [CIsLeader; CGetInterfaces])%list.
Proof.
  intros Hl Hi.
  assert (Hp : exists msg t,
             (get_interfaces env = GiNoVersionsListed msg /\ t = WaitingStatus \/
              get_interfaces env = GiNoCompatibleVersions msg /\ t = BlockedStatus \/
              get_interfaces env = GiRelationDataError msg /\ t = BlockedStatus) /\
             _on_event_pipeline env force_conflicts w =
               (called CGetInterfaces (called CIsLeader w),
                Raise (ErrorWithStatus msg t))).
  { unfold _on_event_pipeline.
    rewrite (bind_Ret _ _ _ _ _ (_check_leader_leader _ w Hl)).
    unfold _get_interfaces, sdi_get_interfaces. run.
    destruct (get_interfaces env) as [i | msg | msg | msg] eqn:Hg;
      [by destruct (Hi i) | ..]; exists msg; eexists; (split; [| reflexivity]); auto. }
  destruct Hp as (msg & t & Hcase & Hp). exists msg, t. split; [exact Hcase |].
  rewrite (_on_event_status_error _ _ _ _ _ _ _ Hp). simpl.
  split; [done |]. split; [done |]. by rewrite <- app_assoc.
Qed.

Lemma X22_witness :
  exists msg t,
    (get_interfaces (Cases.no_versions Scenario.legacy_only) = GiNoVersionsListed msg /\
     t = WaitingStatus \/
     get_interfaces (Cases.no_versions Scenario.legacy_only) = GiNoCompatibleVersions msg /\
     t = BlockedStatus \/
     get_interfaces (Cases.no_versions Scenario.legacy_only) = GiRelationDataError msg /\
     t = BlockedStatus) /\
    snd (_on_event (Cases.no_versions Scenario.legacy_only) ConfigChanged false
           Scenario.start) = Ret tt /\
    unit_status (fst (_on_event (Cases.no_versions Scenario.legacy_only) ConfigChanged false
                        Scenario.start)) = mkStatus t msg /\
    calls (fst (_on_event (Cases.no_versions Scenario.legacy_only) ConfigChanged false
                  Scenario.start)) =
      (calls Scenario.start ++ [CIsLeader; CGetInterfaces])%list.
Proof.
  apply (X22_interface_negotiation_failure (Cases.no_versions Scenario.legacy_only)
           ConfigChanged false Scenario.start).
  - reflexivity.
  - intros interfaces H. vm_compute in H. discriminate H.
Defined.

(** X23: on a leader unit whose interfaces were negotiated, a pass with no
    database relation at all ends Blocked with "Please add required database
    relation: eg. relational-db", whatever the other relations hold; it has
    looked both database relations up, mysql first, and has read no relation
    data and touched neither the container nor the cluster. *)
Theorem X23_no_database_relation_blocks env event force_conflicts interfaces w :
  is_leader env = true ->
  get_interfaces env = GiOk interfaces ->
  relation_absent env "mysql" ->
  relation_absent env "relational-db" ->
  snd (_on_event env event force_conflicts w) = Ret tt /\
  unit_status (fst (_on_event env event force_conflicts w)) =
    mkStatus BlockedStatus "Please add required database relation: eg. relational-db" /\
  calls (fst (_on_event env event force_conflicts w)) =
    (calls w ++ [CIsLeader; CGetInterfaces; CGetRelation "mysql";
                 CGetRelation "relational-db"])%list.
Proof.
  intros Hl Hi Hm Hr.
  set (wb := called CGetInterfaces (called CIsLeader w)).
  assert (Hdb : _get_db_data env wb =
                (called (CGetRelation "relational-db") (called (CGetRelation "mysql") wb),
                 Raise (ErrorWithStatus
                          "Please add required database relation: eg. relational-db"
                          BlockedStatus))).
  { rewrite (_get_db_data_legacy_generic _ _ _ _ (_get_mysql_data_absent env wb Hm)).
    by apply resolve_modern_absent. }
  assert (Hp : _on_event_pipeline env force_conflicts w =
               (logged ERROR "Failed to generate container configuration."
                  (called (CGetRelation "relational-db")
                     (called (CGetRelation "mysql") wb)),
                Raise (ErrorWithStatus
                         "Please add required database relation: eg. relational-db"
                         BlockedStatus))).
  { unfold _on_event_pipeline.
    rewrite (bind_Ret _ _ _ _ _ (_check_leader_leader _ w Hl)).
    assert (Hgi : _get_interfaces env (called CIsLeader w) = (wb, Ret interfaces)).
    { unfold _get_interfaces, sdi_get_interfaces. run. by rewrite Hi. }
    rewrite (bind_Ret _ _ _ _ _ Hgi). apply bind_Raise.
    unfold _generate_config. unfold bind at 1. unfold try_except.
    by rewrite (bind_Raise _ _ _ _ _ Hdb). }
  rewrite (_on_event_status_error _ _ _ _ _ _ _ Hp). simpl.
  split; [done |]. split; [done |]. by rewrite <- !app_assoc.
Qed.

Lemma X23_witness :
  snd (_on_event Scenario.no_database ConfigChanged false Scenario.start) = Ret tt /\
  unit_status (fst (_on_event Scenario.no_database ConfigChanged false Scenario.start)) =
    mkStatus BlockedStatus "Please add required database relation: eg. relational-db" /\
  calls (fst (_on_event Scenario.no_database ConfigChanged false Scenario.start)) =
    (calls Scenario.start ++ [CIsLeader; CGetInterfaces; CGetRelation "mysql";
                              CGetRelation "relational-db"])%list.
Proof.
  apply (X23_no_database_relation_blocks Scenario.no_database ConfigChanged false
           Scenario.interfaces Scenario.start).
  - reflexivity.
  - reflexivity.
  - right. reflexivity.
  - right. reflexivity.
Defined.

(** ** The end of a successful pass *)

Lemma _kfp_api_layer_Ret env w w' layer :
  _kfp_api_layer env w = (w', Ret layer) ->
  w' = w /\
  exists http_port,
    config env !! "http-port" = Some http_port /\
    layer = mkLayer ("bash -c '" +:+ _exec_command +:+ "'")
              [("POD_NAMESPACE", model_name env)]
              ("http://localhost:" +:+ py_str http_port +:+ PROBE_PATH).
Proof.
  unfold _kfp_api_layer. run.
  destruct (config env !! "http-port") as [http_port |]; [| discriminate].
  intros [= <- <-]. eauto.
Qed.

Lemma update_layer_Ret_world env layer w w' :
  update_layer env layer w = (w', Ret tt) -> w' = called (CUpdateLayer layer) w.
Proof.
  unfold update_layer. run. destruct (update_layer_result env); [| discriminate].
  by intros [= <-].
Qed.

(** X24: telling the peers is the last step of a successful pass.  When an
    application is related over kfp-api, the calls of the pass end with the
    update of the Pebble layer followed by one [send_data] on kfp-api, which
    publishes the service name "<application>.<model>" and the configured
    http port; when nobody is related, they end with the update of the layer
    and nothing is published. *)
Theorem X24_peers_are_told_last env force_conflicts w w1 :
  _on_event_pipeline env force_conflicts w = (w1, Ret tt) ->
  exists interfaces http_port layer before,
    get_interfaces env = GiOk interfaces /\
    config env !! "http-port" = Some http_port /\
    layer_check_url layer = "http://localhost:" +:+ py_str http_port +:+ PROBE_PATH /\
    ((interfaces !! "kfp-api" = Some None /\
      calls w1 = (before ++ [CUpdateLayer layer])%list) \/
     (exists g,
         interfaces !! "kfp-api" = Some (Some (SerializedDataInterface g)) /\
         calls w1 =
           (before ++
            [CUpdateLayer layer;
             CSendData "kfp-api"
               (<["service-port" := http_port]>
                (<["service-name" := VStr (app_name env +:+ "." +:+ model_name env)]> ∅))])%list)).
Proof.
  intros H. unfold _on_event_pipeline in H.
  apply bind_inv in H as [(e & _ & [=]) | (wa & [] & _ & H)].
  apply bind_inv in H as [(e & _ & [=]) | (wb & interfaces & Hi & H)].
  apply bind_inv in H as [(e & _ & [=]) | (wc & config_json & _ & H)].
  apply bind_inv in H as [(e & _ & [=]) | (wd & [] & _ & H)].
  apply bind_inv in H as [(e & _ & [=]) | (we & [] & _ & H)].
  apply bind_inv in H as [(e & _ & [=]) | (wf & layer & Hk & H)].
  apply bind_inv in H as [(e & _ & [=]) | (wg & [] & Hul & H)].
  apply _get_interfaces_Ret in Hi.
  apply _kfp_api_layer_Ret in Hk as (-> & http_port & Hport & ->).
  apply update_layer_Ret_world in Hul as ->.
  exists interfaces, http_port.
  match type of H with context [CUpdateLayer ?l] => exists l end.
  exists (calls we).
  split; [exact Hi |]. split; [exact Hport |]. split; [reflexivity |].
  revert H. unfold _send_info. run.
  destruct (interfaces !! "kfp-api") as [[[g |] |] |]; run; try discriminate.
  - rewrite Hport. run. intros [= <-]. right. exists g. split; [done |].
    simpl. by rewrite <- app_assoc.
  - rewrite Hport. run. discriminate.
  - intros [= <-]. by left.
Qed.

Lemma X24_witness :
  exists interfaces http_port layer before,
    get_interfaces Scenario.legacy_only = GiOk interfaces /\
    config Scenario.legacy_only !! "http-port" = Some http_port /\
    layer_check_url layer = "http://localhost:" +:+ py_str http_port +:+ PROBE_PATH /\
    ((interfaces !! "kfp-api" = Some None /\
      calls (fst (_on_event_pipeline Scenario.legacy_only false Scenario.start)) =
        (before ++ [CUpdateLayer layer])%list) \/
     (exists g,
         interfaces !! "kfp-api" = Some (Some (SerializedDataInterface g)) /\
         calls (fst (_on_event_pipeline Scenario.legacy_only false Scenario.start)) =
           (before ++
            [CUpdateLayer layer;
             CSendData "kfp-api"
               (<["service-port" := http_port]>
                (<["service-name" :=
                     VStr (app_name Scenario.legacy_only +:+ "." +:+
                           model_name Scenario.legacy_only)]> ∅))])%list)).
Proof.
  apply (X24_peers_are_told_last Scenario.legacy_only false Scenario.start).
  vm_compute. reflexivity.
Defined.

(** The database section of a generated document. *)
Lemma _generate_config_database_section env interfaces w w' doc :
  _generate_config env interfaces w = (w', Ret doc) ->
  exists w1 db_data,
    _get_db_data env w = (w1, Ret db_data) /\
    json_get ["DBConfig"; "DBName"] doc = JS <$> db_data !! "db_name" /\
    json_get ["DBConfig"; "Host"] doc = JS <$> db_data !! "db_host" /\
    json_get ["DBConfig"; "Password"] doc = JS <$> db_data !! "db_password" /\
    json_get ["DBConfig"; "Port"] doc = JS <$> db_data !! "db_port" /\
    json_get ["DBConfig"; "User"] doc = JS <$> db_data !! "db_username".
Proof.
  unfold _generate_config. intros H.
  apply bind_inv in H as [(e & _ & [=]) | (w0 & [[db_data os] viz] & Htry & H)].
  apply try_except_inv in Htry
    as [(a & Htry & [= <-]) | [(wa & e & k & _ & Hk & Hr) | (e & _ & _ & [=])]].
  2: { destruct e; try discriminate Hk. injection Hk as <-.
       unfold bind, logger, raise in Hr. discriminate Hr. }
  apply bind_inv in Htry as [(e & _ & [=]) | (w1 & db' & H1 & Htry)].
  apply bind_inv in Htry as [(e & _ & [=]) | (w2 & os' & _ & Htry)].
  apply bind_inv in Htry as [(e & _ & [=]) | (w3 & viz' & _ & [= -> -> -> ->])].
  exists w1, db_data. split; [done |].
  repeat (apply bind_getitem_Ret in H as (? & ? & H)).
  injection H as <- <-.
  repeat match goal with Hl : _ !! _ = Some _ |- _ => rewrite Hl; clear Hl end.
  repeat split; reflexivity.
Qed.

(** X25: in a successful pass on a unit whose mysql relation offers complete
    data, the configuration pushed to /config/config.json connects the
    workload to that database: its database user is "root" and its database
    name, host, port and password are the ones of the relation data. *)
Theorem X25_legacy_database_reaches_the_workload
    env force_conflicts r d database root_password host port w w1 :
  _on_event_pipeline env force_conflicts w = (w1, Ret tt) ->
  relation_present env "mysql" r ->
  first_unit_data r = Some d ->
  d !! "database" = Some database ->
  d !! "root_password" = Some root_password ->
  d !! "host" = Some host ->
  d !! "port" = Some port ->
  exists doc,
    CPush "/config/config.json" (FileJson doc) ∈ calls w1 /\
    json_get ["DBConfig"; "User"] doc = Some (JS "root") /\
    json_get ["DBConfig"; "DBName"] doc = Some (JS database) /\
    json_get ["DBConfig"; "Host"] doc = Some (JS host) /\
    json_get ["DBConfig"; "Port"] doc = Some (JS port) /\
    json_get ["DBConfig"; "Password"] doc = Some (JS root_password).
Proof.
  intros H Hr Hd H1 H2 H3 H4. unfold _on_event_pipeline in H.
  apply bind_inv in H as [(e & _ & [=]) | (wa & [] & _ & H)].
  apply bind_inv in H as [(e & _ & [=]) | (wb & interfaces & _ & H)].
  apply bind_inv in H as [(e & _ & [=]) | (wc & doc & Hg & H)].
  apply bind_inv in H as [(e & _ & [=]) | (wd & [] & Hu & H)].
  exists doc. split.
  - pose proof (_upload_files_to_container_Ret _ _ _ _ Hu) as (Hc & [content Hs] & Hp1 & Hp2).
    rewrite (_upload_files_to_container_reachable _ _ _ Hc), Hs, Hp1, Hp2 in Hu.
    injection Hu as <-.
    match type of H with
    | ?m ?w0 = _ => assert (Happ : appends m)
    end.
    { unfold _kfp_api_layer, update_layer. appends_tac. }
    apply Happ in H as [trace ->]. apply elem_of_app. left.
    simpl. apply elem_of_app. right. apply elem_of_cons. by left.
  - destruct (_generate_config_database_section _ _ _ _ _ Hg)
      as (w' & db_data & Hdb & Hn & Hh & Hpw & Hpt & Hus).
    rewrite (_get_db_data_legacy_returns _ _ _ _
               (_get_mysql_data_complete _ _ _ _ _ _ _ wb Hr Hd H1 H2 H3 H4)) in Hdb.
    injection Hdb as _ <-.
    rewrite Hus, Hn, Hh, Hpt, Hpw. unfold mysql_record.
    repeat split; by simplify_map_eq.
Qed.

Lemma X25_witness :
  exists doc,
    CPush "/config/config.json" (FileJson doc) ∈
      calls (fst (_on_event_pipeline Scenario.legacy_only false Scenario.start)) /\
    json_get ["DBConfig"; "User"] doc = Some (JS "root") /\
    json_get ["DBConfig"; "DBName"] doc = Some (JS "mlpipeline") /\
    json_get ["DBConfig"; "Host"] doc = Some (JS "mysql.kubeflow") /\
    json_get ["DBConfig"; "Port"] doc = Some (JS "3306") /\
    json_get ["DBConfig"; "Password"] doc = Some (JS "secret").
Proof.
  apply (X25_legacy_database_reaches_the_workload Scenario.legacy_only false
           (Scenario.legacy Scenario.mysql_complete) Scenario.mysql_complete
           "mlpipeline" "secret" "mysql.kubeflow" "3306" Scenario.start).
  - vm_compute. reflexivity.
  - reflexivity.
  - reflexivity.
  - reflexivity.
  - reflexivity.
  - reflexivity.
  - reflexivity.
Defined.
